(** * Shallow embedding of the bulk-document builder and the export command

    The development follows the Go packages of the repository:
    - [Go]       : the fragment of Go's semantics the code relies on
                   (fixed-width integers, panics, formatting);
    - [xdr]      : the ledger wire types read by the decoder;
    - [db]       : the raw rows handed to the builder;
    - [es]       : the document model, the operation decoder, [MakeBulk]
                   and [BulkMaker] (src/es/make_bulk.go, operation.go);
    - [commands] : [ExportCommand] (src/commands/export.go).

    Go's [int] is taken to be 64 bits wide. *)

From Stdlib Require Import ZArith List String Ascii Bool Lia DecimalString.
From Stdlib Require Import DecimalPos DecimalZ.
Import ListNotations.
Open Scope string_scope.
Open Scope list_scope.
Open Scope Z_scope.

(* ================================================================= *)
(** ** Go primitives *)

Module Go.

(** [uint8(x)] and [byte(x)]: truncation to the low eight bits. *)
Definition uint8 (x : Z) : Z := x mod 256.

(** [int(x)] and the result of [+] on [int]: two's complement, 64 bits. *)
Definition int (x : Z) : Z := (x + 2 ^ 63) mod 2 ^ 64 - 2 ^ 63.

(** [int32(x)], the conversion behind [xdr.AccountFlags(f)]. *)
Definition int32 (x : Z) : Z := (x + 2 ^ 31) mod 2 ^ 32 - 2 ^ 31.

Definition add (x y : Z) : Z := int (x + y).

(** The verb [%d] of [fmt.Sprintf]. *)
Definition itoa (x : Z) : string := NilZero.string_of_int (Z.to_int x).

(** A call either returns or panics; a panic carries the runtime's message. *)
Inductive outcome (A : Type) : Type :=
| Done (a : A)
| Panic (msg : string).

Arguments Done {A} a.
Arguments Panic {A} msg.

Definition nil_dereference : string :=
  "invalid memory address or nil pointer dereference".
Definition index_out_of_range : string := "index out of range".
Definition division_by_zero : string := "division by zero".

Definition obind {A B} (x : outcome A) (f : A -> outcome B) : outcome B :=
  match x with
  | Done a => f a
  | Panic m => Panic m
  end.

(** [*p] for a pointer [p] modelled as an option. *)
Definition deref {A} (p : option A) : outcome A :=
  match p with
  | Some a => Done a
  | None => Panic nil_dereference
  end.

(** [*p = v]: the store goes through the pointer, so it needs a target. *)
Definition store {A} (p : option A) (v : A) : outcome (option A) :=
  match p with
  | Some _ => Done (Some v)
  | None => Panic nil_dereference
  end.

(** [s[i]] on a slice. *)
Definition index {A} (s : list A) (i : Z) : outcome A :=
  if i <? 0 then Panic index_out_of_range
  else match nth_error s (Z.to_nat i) with
       | Some a => Done a
       | None => Panic index_out_of_range
       end.

Definition integer_divide_by_zero : string := "integer divide by zero".

(** [x / y] and [x % y] on [int]: the quotient is truncated towards zero
    and wraps on overflow, the remainder has the sign of [x]; both panic on
    a zero divisor. *)
Definition div (x y : Z) : outcome Z :=
  if y =? 0 then Panic integer_divide_by_zero else Done (int (Z.quot x y)).

Definition rem (x y : Z) : outcome Z :=
  if y =? 0 then Panic integer_divide_by_zero else Done (Z.rem x y).

(** [s[i]] on a string: the byte at index [i]. *)
Definition byteAt (s : string) (i : Z) : outcome ascii :=
  if i <? 0 then Panic index_out_of_range
  else match String.get (Z.to_nat i) s with
       | Some c => Done c
       | None => Panic index_out_of_range
       end.

(** [float64] values are kept symbolic: the zero value, or the float64
    nearest to the rational [n/d] (what [Float64] of [big.Rat] returns). *)
Inductive float64 : Type :=
| FloatZero
| FloatOfRat (n d : Z).

(** [time.Time], as seconds since the epoch. *)
Definition Time : Type := Z.

End Go.

Notation "x <-! c ;; k" := (Go.obind c (fun x => k))
  (at level 61, c at next level, right associativity).

(* ================================================================= *)
(** ** Parsing of the start argument (packages strconv and config) *)

Module strconv.

Inductive NumError : Type :=
| ErrSyntax
| ErrRange.

Definition isDigit (c : ascii) : bool :=
  ((48 <=? nat_of_ascii c) && (nat_of_ascii c <=? 57))%nat.

Definition digitValue (c : ascii) : Z := Z.of_nat (nat_of_ascii c) - 48.

(** The decimal digits of [s], read from the left onto [acc]; [None] on a
    byte that is no digit. *)
Fixpoint parseDigits (s : string) (acc : Z) : option Z :=
  match s with
  | EmptyString => Some acc
  | String c rest =>
      if isDigit c then parseDigits rest (acc * 10 + digitValue c) else None
  end.

(** [strconv.Atoi]: an optional sign, then at least one decimal digit and
    nothing else; a number that does not fit 64 bits is a range error. *)
Definition Atoi (s : string) : Z + NumError :=
  match s with
  | EmptyString => inr ErrSyntax
  | String c rest =>
      let neg := Ascii.eqb c "-" in
      let body := if neg || Ascii.eqb c "+" then rest else s in
      match body with
      | EmptyString => inr ErrSyntax
      | _ =>
          match parseDigits body 0 with
          | None => inr ErrSyntax
          | Some n =>
              let v := if neg then - n else n in
              if (- 2 ^ 63 <=? v) && (v <? 2 ^ 63) then inl v else inr ErrRange
          end
      end
  end.

End strconv.

Module config.

Record NumberWithSign : Type := {
  Value : Z;
  Explicit : bool
}.

(** The result [(r, err)]: on an error [r] is the zero value. *)
Definition parseNumberWithSign (value : string)
  : Go.outcome (NumberWithSign * option strconv.NumError) :=
  let r := {| Value := 0; Explicit := false |} in
  match strconv.Atoi value with
  | inr err => Go.Done (r, Some err)
  | inl v =>
      let r := {| Value := v; Explicit := Explicit r |} in
      c <-! Go.byteAt value 0 ;;
      let r :=
        if Ascii.eqb c "-" || Ascii.eqb c "+"
        then {| Value := Value r; Explicit := true |}
        else r in
      Go.Done (r, None)
  end.

End config.

(* ================================================================= *)
(** ** The wire types (package xdr of the ledger library) *)

Module xdr.

(** An account id, carried as the address [Address()] renders. *)
Definition AccountId : Type := string.

(** [Address] of [AccountId]: the method has a pointer receiver and answers
    the empty string on nil. *)
Definition Address (a : option AccountId) : string :=
  match a with
  | Some s => s
  | None => EmptyString
  end.

Inductive Asset : Type :=
| AssetNative
| AssetCreditAlphanum4 (code : string) (issuer : AccountId)
| AssetCreditAlphanum12 (code : string) (issuer : AccountId).

(** [Asset.MustExtract(&t, &c, &i)]. *)
Definition MustExtract (a : Asset) : string * string * string :=
  match a with
  | AssetNative => ("native", EmptyString, EmptyString)
  | AssetCreditAlphanum4 c i => ("credit_alphanum4", c, i)
  | AssetCreditAlphanum12 c i => ("credit_alphanum12", c, i)
  end.

Record Price : Type := { Price_N : Z; Price_D : Z }.

Record CreateAccountOp : Type := {
  CreateAccountOp_Destination : AccountId;
  CreateAccountOp_StartingBalance : Z
}.

Record PaymentOp : Type := {
  PaymentOp_Destination : AccountId;
  PaymentOp_Asset : Asset;
  PaymentOp_Amount : Z
}.

Record PathPaymentOp : Type := {
  PathPaymentOp_SendAsset : Asset;
  PathPaymentOp_SendMax : Z;
  PathPaymentOp_Destination : AccountId;
  PathPaymentOp_DestAsset : Asset;
  PathPaymentOp_DestAmount : Z;
  PathPaymentOp_Path : list Asset
}.

Record ManageOfferOp : Type := {
  ManageOfferOp_Selling : Asset;
  ManageOfferOp_Buying : Asset;
  ManageOfferOp_Amount : Z;
  ManageOfferOp_Price : Price;
  ManageOfferOp_OfferId : Z
}.

Record CreatePassiveOfferOp : Type := {
  CreatePassiveOfferOp_Selling : Asset;
  CreatePassiveOfferOp_Buying : Asset;
  CreatePassiveOfferOp_Amount : Z;
  CreatePassiveOfferOp_Price : Price
}.

(** Every field of a set-options operation is optional on the wire. *)
Record SetOptionsOp : Type := {
  SetOptionsOp_InflationDest : option AccountId;
  SetOptionsOp_ClearFlags : option Z;
  SetOptionsOp_SetFlags : option Z;
  SetOptionsOp_MasterWeight : option Z;
  SetOptionsOp_LowThreshold : option Z;
  SetOptionsOp_MedThreshold : option Z;
  SetOptionsOp_HighThreshold : option Z;
  SetOptionsOp_HomeDomain : option string
}.

(** The operation kinds the decoder dispatches on. *)
Definition OperationTypeCreateAccount : Z := 0.
Definition OperationTypePayment : Z := 1.
Definition OperationTypePathPayment : Z := 2.
Definition OperationTypeManageOffer : Z := 3.
Definition OperationTypeCreatePassiveOffer : Z := 4.
Definition OperationTypeSetOptions : Z := 5.

(** The body of an operation is a union tagged by the kind.  The arms the
    decoder never opens are kept as the bare tag. *)
Inductive OperationBody : Type :=
| BodyCreateAccount (b : CreateAccountOp)
| BodyPayment (b : PaymentOp)
| BodyPathPayment (b : PathPaymentOp)
| BodyManageOffer (b : ManageOfferOp)
| BodyCreatePassiveOffer (b : CreatePassiveOfferOp)
| BodySetOptions (b : SetOptionsOp)
| BodyOther (tag : Z).

Definition Body_Type (b : OperationBody) : Z :=
  match b with
  | BodyCreateAccount _ => OperationTypeCreateAccount
  | BodyPayment _ => OperationTypePayment
  | BodyPathPayment _ => OperationTypePathPayment
  | BodyManageOffer _ => OperationTypeManageOffer
  | BodyCreatePassiveOffer _ => OperationTypeCreatePassiveOffer
  | BodySetOptions _ => OperationTypeSetOptions
  | BodyOther tag => tag
  end.

(** A body is well tagged when the bare tag is not one of the six kinds
    that come with a payload. *)
Definition known_kind (tag : Z) : bool := (0 <=? tag) && (tag <=? 5).

Definition well_tagged (b : OperationBody) : bool :=
  match b with
  | BodyOther tag => negb (known_kind tag)
  | _ => true
  end.

(** [OperationType.String]: a lookup in the generated name table, the empty
    string for a tag the table does not hold. *)
Definition OperationType_String (t : Z) : string :=
  if t =? 0 then "OperationTypeCreateAccount"
  else if t =? 1 then "OperationTypePayment"
  else if t =? 2 then "OperationTypePathPayment"
  else if t =? 3 then "OperationTypeManageOffer"
  else if t =? 4 then "OperationTypeCreatePassiveOffer"
  else if t =? 5 then "OperationTypeSetOptions"
  else if t =? 6 then "OperationTypeChangeTrust"
  else if t =? 7 then "OperationTypeAllowTrust"
  else if t =? 8 then "OperationTypeAccountMerge"
  else if t =? 9 then "OperationTypeInflation"
  else if t =? 10 then "OperationTypeManageData"
  else if t =? 11 then "OperationTypeBumpSequence"
  else EmptyString.

Record Operation : Type := {
  Operation_SourceAccount : option AccountId;
  Operation_Body : OperationBody
}.

(** The result of one operation.  Only its code is read here. *)
Record OperationResult : Type := { OperationResult_Code : Z }.

Definition AccountFlagsAuthRequiredFlag : Z := 1.
Definition AccountFlagsAuthRevocableFlag : Z := 2.
Definition AccountFlagsAuthImmutableFlag : Z := 4.

(** Ledger entries and their change records. *)
Inductive LedgerEntryData : Type :=
| EntryAccount (account : AccountId) (balance : Z)
| EntryTrustLine (account : AccountId) (asset : Asset) (balance : Z)
| EntryOffer (seller : AccountId) (offer : Z)
| EntryData (account : AccountId) (name : string).

Inductive LedgerEntryChange : Type :=
| ChangeCreated (e : LedgerEntryData)
| ChangeUpdated (e : LedgerEntryData)
| ChangeRemoved (e : LedgerEntryData).

Record OperationMeta : Type := { OperationMeta_Changes : list LedgerEntryChange }.

(** The transaction meta is a union over its version: the legacy arm holds
    the operations list itself, version 1 a record with that list, and any
    later version holds neither. *)
Inductive TransactionMeta : Type :=
| MetaOperations (ops : list OperationMeta)
| MetaV1 (txChanges : list LedgerEntryChange) (ops : list OperationMeta)
| MetaLater (v : Z).

(** [GetV1] answers the version-1 record's operations list. *)
Definition GetV1 (m : TransactionMeta) : option (list OperationMeta) :=
  match m with
  | MetaV1 _ ops => Some ops
  | _ => None
  end.

(** [GetOperations]; on a miss Go's result is the nil slice and [ok] false. *)
Definition GetOperations (m : TransactionMeta) : list OperationMeta * bool :=
  match m with
  | MetaOperations ops => (ops, true)
  | _ => ([], false)
  end.

Record Transaction : Type := {
  Transaction_SourceAccount : AccountId;
  Transaction_Memo : option string;
  Transaction_Operations : list Operation
}.

Record TransactionEnvelope : Type := { TransactionEnvelope_Tx : Transaction }.

(** [Results] is a pointer to a slice: nil unless the transaction ran. *)
Record TransactionResultResult : Type := {
  TransactionResultResult_Code : Z;
  TransactionResultResult_Results : option (list OperationResult)
}.

Record TransactionResult : Type := {
  TransactionResult_FeeCharged : Z;
  TransactionResult_Result : TransactionResultResult
}.

Record TransactionResultPair : Type := {
  TransactionResultPair_Result : TransactionResult
}.

End xdr.

(* ================================================================= *)
(** ** The raw rows (package db) *)

Module db.

Record LedgerHeaderRow : Type := {
  LedgerHeaderRow_Hash : string;
  LedgerHeaderRow_LedgerSeq : Z;
  LedgerHeaderRow_CloseTime : Go.Time
}.

Record TxHistoryRow : Type := {
  TxHistoryRow_ID : string;
  TxHistoryRow_LedgerSeq : Z;
  TxHistoryRow_Index : Z;
  TxHistoryRow_Envelope : xdr.TransactionEnvelope;
  TxHistoryRow_Result : xdr.TransactionResultPair;
  TxHistoryRow_Meta : xdr.TransactionMeta
}.

Record TxFeeHistoryRow : Type := {
  TxFeeHistoryRow_TxID : string;
  TxFeeHistoryRow_LedgerSeq : Z;
  TxFeeHistoryRow_Index : Z;
  TxFeeHistoryRow_Changes : list xdr.LedgerEntryChange
}.

(** [row.Envelope.Tx.Operations] and [row.Result.Result.Result.Results]. *)
Definition Operations (row : TxHistoryRow) : list xdr.Operation :=
  xdr.Transaction_Operations
    (xdr.TransactionEnvelope_Tx (TxHistoryRow_Envelope row)).

Definition Results (row : TxHistoryRow) : option (list xdr.OperationResult) :=
  xdr.TransactionResultResult_Results
    (xdr.TransactionResult_Result
       (xdr.TransactionResultPair_Result (TxHistoryRow_Result row))).

End db.

(* ================================================================= *)
(** ** The document model and the builder (package es) *)

Module es.

Import Go.

Module Asset.
Record t : Type := mk { Code : string; Issuer : string; Key : string }.
End Asset.

Module Price.
Record t : Type := mk { N : Z; D : Z }.
End Price.

(** The fields of [Thresholds] are pointers: [None] is the nil pointer. *)
Module Thresholds.
Record t : Type := mk {
  Low : option Z;
  Medium : option Z;
  High : option Z;
  Master : option Z
}.
End Thresholds.

Module AccountFlags.
Record t : Type := mk {
  AuthRequired : bool;
  AuthRevocable : bool;
  AuthImmutable : bool
}.
End AccountFlags.

Module Memo.
Record t : Type := mk { Value : string }.
End Memo.

(** [Operation]: the field [Type] is spelled [Type_] here. *)
Module Operation.
Record t : Type := mk {
  TxID : string;
  TxIndex : Z;
  Index : Z;
  Seq : Z;
  Order : string;
  CloseTime : Time;
  Succesful : bool;
  ResultCode : Z;
  TxSourceAccountID : string;
  Type_ : string;
  SourceAccountID : string;
  SourceAsset : option Asset.t;
  SourceAmount : Z;
  DestinationAccountID : string;
  DestinationAsset : option Asset.t;
  DestinationAmount : Z;
  OfferPrice : float64;
  OfferPriceND : Price.t;
  OfferID : Z;
  TrustLimit : Z;
  Authorize : bool;
  BumpTo : Z;
  Path : list Asset.t;
  Thresholds : option Thresholds.t;
  HomeDomain : string;
  InflationDest : string;
  SetFlags : option AccountFlags.t;
  ClearFlags : option AccountFlags.t;
  Memo : option Memo.t
}.

Definition set_Succesful (v : bool) (op : t) : t :=
  mk (TxID op) (TxIndex op) (Index op) (Seq op) (Order op) (CloseTime op) v
    (ResultCode op) (TxSourceAccountID op) (Type_ op) (SourceAccountID op)
    (SourceAsset op) (SourceAmount op) (DestinationAccountID op)
    (DestinationAsset op) (DestinationAmount op) (OfferPrice op)
    (OfferPriceND op) (OfferID op) (TrustLimit op) (Authorize op) (BumpTo op)
    (Path op) (Thresholds op) (HomeDomain op) (InflationDest op) (SetFlags op)
    (ClearFlags op) (Memo op).

Definition set_ResultCode (v : Z) (op : t) : t :=
  mk (TxID op) (TxIndex op) (Index op) (Seq op) (Order op) (CloseTime op)
    (Succesful op) v (TxSourceAccountID op) (Type_ op) (SourceAccountID op)
    (SourceAsset op) (SourceAmount op) (DestinationAccountID op)
    (DestinationAsset op) (DestinationAmount op) (OfferPrice op)
    (OfferPriceND op) (OfferID op) (TrustLimit op) (Authorize op) (BumpTo op)
    (Path op) (Thresholds op) (HomeDomain op) (InflationDest op) (SetFlags op)
    (ClearFlags op) (Memo op).

Definition set_SourceAsset (v : option Asset.t) (op : t) : t :=
  mk (TxID op) (TxIndex op) (Index op) (Seq op) (Order op) (CloseTime op)
    (Succesful op) (ResultCode op) (TxSourceAccountID op) (Type_ op)
    (SourceAccountID op) v (SourceAmount op) (DestinationAccountID op)
    (DestinationAsset op) (DestinationAmount op) (OfferPrice op)
    (OfferPriceND op) (OfferID op) (TrustLimit op) (Authorize op) (BumpTo op)
    (Path op) (Thresholds op) (HomeDomain op) (InflationDest op) (SetFlags op)
    (ClearFlags op) (Memo op).

Definition set_SourceAmount (v : Z) (op : t) : t :=
  mk (TxID op) (TxIndex op) (Index op) (Seq op) (Order op) (CloseTime op)
    (Succesful op) (ResultCode op) (TxSourceAccountID op) (Type_ op)
    (SourceAccountID op) (SourceAsset op) v (DestinationAccountID op)
    (DestinationAsset op) (DestinationAmount op) (OfferPrice op)
    (OfferPriceND op) (OfferID op) (TrustLimit op) (Authorize op) (BumpTo op)
    (Path op) (Thresholds op) (HomeDomain op) (InflationDest op) (SetFlags op)
    (ClearFlags op) (Memo op).

Definition set_DestinationAccountID (v : string) (op : t) : t :=
  mk (TxID op) (TxIndex op) (Index op) (Seq op) (Order op) (CloseTime op)
    (Succesful op) (ResultCode op) (TxSourceAccountID op) (Type_ op)
    (SourceAccountID op) (SourceAsset op) (SourceAmount op) v
    (DestinationAsset op) (DestinationAmount op) (OfferPrice op)
    (OfferPriceND op) (OfferID op) (TrustLimit op) (Authorize op) (BumpTo op)
    (Path op) (Thresholds op) (HomeDomain op) (InflationDest op) (SetFlags op)
    (ClearFlags op) (Memo op).

Definition set_DestinationAsset (v : option Asset.t) (op : t) : t :=
  mk (TxID op) (TxIndex op) (Index op) (Seq op) (Order op) (CloseTime op)
    (Succesful op) (ResultCode op) (TxSourceAccountID op) (Type_ op)
    (SourceAccountID op) (SourceAsset op) (SourceAmount op)
    (DestinationAccountID op) v (DestinationAmount op) (OfferPrice op)
    (OfferPriceND op) (OfferID op) (TrustLimit op) (Authorize op) (BumpTo op)
    (Path op) (Thresholds op) (HomeDomain op) (InflationDest op) (SetFlags op)
    (ClearFlags op) (Memo op).

Definition set_DestinationAmount (v : Z) (op : t) : t :=
  mk (TxID op) (TxIndex op) (Index op) (Seq op) (Order op) (CloseTime op)
    (Succesful op) (ResultCode op) (TxSourceAccountID op) (Type_ op)
    (SourceAccountID op) (SourceAsset op) (SourceAmount op)
    (DestinationAccountID op) (DestinationAsset op) v (OfferPrice op)
    (OfferPriceND op) (OfferID op) (TrustLimit op) (Authorize op) (BumpTo op)
    (Path op) (Thresholds op) (HomeDomain op) (InflationDest op) (SetFlags op)
    (ClearFlags op) (Memo op).

Definition set_OfferPrice (v : float64) (op : t) : t :=
  mk (TxID op) (TxIndex op) (Index op) (Seq op) (Order op) (CloseTime op)
    (Succesful op) (ResultCode op) (TxSourceAccountID op) (Type_ op)
    (SourceAccountID op) (SourceAsset op) (SourceAmount op)
    (DestinationAccountID op) (DestinationAsset op) (DestinationAmount op) v
    (OfferPriceND op) (OfferID op) (TrustLimit op) (Authorize op) (BumpTo op)
    (Path op) (Thresholds op) (HomeDomain op) (InflationDest op) (SetFlags op)
    (ClearFlags op) (Memo op).

Definition set_OfferPriceND (v : Price.t) (op : t) : t :=
  mk (TxID op) (TxIndex op) (Index op) (Seq op) (Order op) (CloseTime op)
    (Succesful op) (ResultCode op) (TxSourceAccountID op) (Type_ op)
    (SourceAccountID op) (SourceAsset op) (SourceAmount op)
    (DestinationAccountID op) (DestinationAsset op) (DestinationAmount op)
    (OfferPrice op) v (OfferID op) (TrustLimit op) (Authorize op) (BumpTo op)
    (Path op) (Thresholds op) (HomeDomain op) (InflationDest op) (SetFlags op)
    (ClearFlags op) (Memo op).

Definition set_OfferID (v : Z) (op : t) : t :=
  mk (TxID op) (TxIndex op) (Index op) (Seq op) (Order op) (CloseTime op)
    (Succesful op) (ResultCode op) (TxSourceAccountID op) (Type_ op)
    (SourceAccountID op) (SourceAsset op) (SourceAmount op)
    (DestinationAccountID op) (DestinationAsset op) (DestinationAmount op)
    (OfferPrice op) (OfferPriceND op) v (TrustLimit op) (Authorize op)
    (BumpTo op) (Path op) (Thresholds op) (HomeDomain op) (InflationDest op)
    (SetFlags op) (ClearFlags op) (Memo op).

Definition set_Path (v : list Asset.t) (op : t) : t :=
  mk (TxID op) (TxIndex op) (Index op) (Seq op) (Order op) (CloseTime op)
    (Succesful op) (ResultCode op) (TxSourceAccountID op) (Type_ op)
    (SourceAccountID op) (SourceAsset op) (SourceAmount op)
    (DestinationAccountID op) (DestinationAsset op) (DestinationAmount op)
    (OfferPrice op) (OfferPriceND op) (OfferID op) (TrustLimit op)
    (Authorize op) (BumpTo op) v (Thresholds op) (HomeDomain op)
    (InflationDest op) (SetFlags op) (ClearFlags op) (Memo op).

Definition set_Thresholds (v : option Thresholds.t) (op : t) : t :=
  mk (TxID op) (TxIndex op) (Index op) (Seq op) (Order op) (CloseTime op)
    (Succesful op) (ResultCode op) (TxSourceAccountID op) (Type_ op)
    (SourceAccountID op) (SourceAsset op) (SourceAmount op)
    (DestinationAccountID op) (DestinationAsset op) (DestinationAmount op)
    (OfferPrice op) (OfferPriceND op) (OfferID op) (TrustLimit op)
    (Authorize op) (BumpTo op) (Path op) v (HomeDomain op) (InflationDest op)
    (SetFlags op) (ClearFlags op) (Memo op).

Definition set_HomeDomain (v : string) (op : t) : t :=
  mk (TxID op) (TxIndex op) (Index op) (Seq op) (Order op) (CloseTime op)
    (Succesful op) (ResultCode op) (TxSourceAccountID op) (Type_ op)
    (SourceAccountID op) (SourceAsset op) (SourceAmount op)
    (DestinationAccountID op) (DestinationAsset op) (DestinationAmount op)
    (OfferPrice op) (OfferPriceND op) (OfferID op) (TrustLimit op)
    (Authorize op) (BumpTo op) (Path op) (Thresholds op) v (InflationDest op)
    (SetFlags op) (ClearFlags op) (Memo op).

Definition set_InflationDest (v : string) (op : t) : t :=
  mk (TxID op) (TxIndex op) (Index op) (Seq op) (Order op) (CloseTime op)
    (Succesful op) (ResultCode op) (TxSourceAccountID op) (Type_ op)
    (SourceAccountID op) (SourceAsset op) (SourceAmount op)
    (DestinationAccountID op) (DestinationAsset op) (DestinationAmount op)
    (OfferPrice op) (OfferPriceND op) (OfferID op) (TrustLimit op)
    (Authorize op) (BumpTo op) (Path op) (Thresholds op) (HomeDomain op) v
    (SetFlags op) (ClearFlags op) (Memo op).

Definition set_SetFlags (v : option AccountFlags.t) (op : t) : t :=
  mk (TxID op) (TxIndex op) (Index op) (Seq op) (Order op) (CloseTime op)
    (Succesful op) (ResultCode op) (TxSourceAccountID op) (Type_ op)
    (SourceAccountID op) (SourceAsset op) (SourceAmount op)
    (DestinationAccountID op) (DestinationAsset op) (DestinationAmount op)
    (OfferPrice op) (OfferPriceND op) (OfferID op) (TrustLimit op)
    (Authorize op) (BumpTo op) (Path op) (Thresholds op) (HomeDomain op)
    (InflationDest op) v (ClearFlags op) (Memo op).

Definition set_ClearFlags (v : option AccountFlags.t) (op : t) : t :=
  mk (TxID op) (TxIndex op) (Index op) (Seq op) (Order op) (CloseTime op)
    (Succesful op) (ResultCode op) (TxSourceAccountID op) (Type_ op)
    (SourceAccountID op) (SourceAsset op) (SourceAmount op)
    (DestinationAccountID op) (DestinationAsset op) (DestinationAmount op)
    (OfferPrice op) (OfferPriceND op) (OfferID op) (TrustLimit op)
    (Authorize op) (BumpTo op) (Path op) (Thresholds op) (HomeDomain op)
    (InflationDest op) (SetFlags op) v (Memo op).

End Operation.

Module LedgerHeader.
Record t : Type := mk { Seq : Z; CloseTime : Time }.
End LedgerHeader.

Module Transaction.
Record t : Type := mk {
  ID : string;
  Index : Z;
  Seq : Z;
  Order : string;
  CloseTime : Time;
  Succesful : bool;
  ResultCode : Z;
  SourceAccountID : string;
  Memo : option Memo.t
}.
End Transaction.

Module PagingToken.
Record t : Type := mk {
  LedgerSeq : Z;
  TransactionOrder : Z;
  OperationOrder : Z;
  AuxOrder1 : Z
}.
End PagingToken.

Inductive BalanceSource : Type :=
| BalanceSourceMeta
| BalanceSourceFee.

Module Balance.
Record t : Type := mk {
  AccountID : string;
  Asset : Asset.t;
  Value : Z;
  Source : BalanceSource;
  CloseTime : Time;
  PagingToken : PagingToken.t
}.
End Balance.

Definition fakeOperationIndex : Z := 255.
Definition balanceFromMetaAuxOrder : Z := 1.
Definition balanceFromFeeAuxOrder : Z := 2.

(** *** The bulk buffer *)

(** One entry of the bulk buffer: the action line and the body line of a
    document, kept as the document itself. *)
Inductive Document : Type :=
| DocLedgerHeader (h : LedgerHeader.t)
| DocTransaction (t : Transaction.t)
| DocOperation (op : Operation.t)
| DocBalance (b : Balance.t).

Definition Buffer : Type := list Document.

(** A builder step writes to the buffer it was given and may panic; what
    was written before the panic stays written. *)
Definition Bulk (A : Type) : Type := Buffer -> outcome A * Buffer.

Definition ret {A} (a : A) : Bulk A := fun b => (Done a, b).

Definition bind {A B} (m : Bulk A) (k : A -> Bulk B) : Bulk B :=
  fun b =>
    match m b with
    | (Done a, b') => k a b'
    | (Panic msg, b') => (Panic msg, b')
    end.

Definition lift {A} (x : outcome A) : Bulk A := fun b => (x, b).

Declare Scope bulk_scope.
Delimit Scope bulk_scope with bulk.
Notation "x <- c ;; k" := (bind c (fun x => k))
  (at level 61, c at next level, right associativity) : bulk_scope.
Notation "c ;; k" := (bind c (fun _ => k))
  (at level 61, right associativity) : bulk_scope.

(** Modelled from the spec: [SerializeForBulk] is not among the sources.
    It appends the bulk form of one document (action line, then body line)
    to the buffer. *)
Definition SerializeForBulk (d : Document) : Bulk unit :=
  fun b => (Done tt, b ++ [d]).

(** [for i, x := range xs { body }], and [for i := 0; i < len(xs); i++]. *)
Fixpoint forRangeFrom {A} (i : Z) (xs : list A) (body : Z -> A -> Bulk unit)
  : Bulk unit :=
  match xs with
  | [] => ret tt
  | x :: rest => (body i x ;; forRangeFrom (i + 1) rest body)%bulk
  end.

Definition forRange {A} (xs : list A) (body : Z -> A -> Bulk unit) : Bulk unit :=
  forRangeFrom 0 xs body.

(** *** Collaborators that are not among the sources *)

(** Modelled from the spec: [NewLedgerHeader] is not among the sources.  A
    ledger header document carries the sequence number and the close time
    of its row. *)
Definition NewLedgerHeader (r : db.LedgerHeaderRow) : LedgerHeader.t :=
  LedgerHeader.mk (db.LedgerHeaderRow_LedgerSeq r) (db.LedgerHeaderRow_CloseTime r).

(** Modelled from the spec: [NewTransaction] is not among the sources.  A
    transaction document carries its id, its index within the ledger, the
    ledger sequence, the order string "<ledgerSeq>:<txIndex>", the close
    time of its ledger, the success flag and result code, the source account
    and the optional memo. *)
Definition NewTransaction (row : db.TxHistoryRow) (closeTime : Time)
  : Transaction.t :=
  let tx := xdr.TransactionEnvelope_Tx (db.TxHistoryRow_Envelope row) in
  let code :=
    xdr.TransactionResultResult_Code
      (xdr.TransactionResult_Result
         (xdr.TransactionResultPair_Result (db.TxHistoryRow_Result row))) in
  Transaction.mk
    (db.TxHistoryRow_ID row)
    (uint8 (db.TxHistoryRow_Index row))
    (db.TxHistoryRow_LedgerSeq row)
    (itoa (db.TxHistoryRow_LedgerSeq row) ++ ":"
       ++ itoa (uint8 (db.TxHistoryRow_Index row)))%string
    closeTime
    (code =? 0)
    code
    (xdr.Transaction_SourceAccount tx)
    (option_map Memo.mk (xdr.Transaction_Memo tx)).

(** Modelled from the spec: [AppendResult] is not among the sources.  It
    merges the result of an operation into the document already built: the
    result code and the success flag. *)
Definition AppendResult (op : Operation.t) (r : xdr.OperationResult)
  : Operation.t :=
  Operation.set_Succesful (xdr.OperationResult_Code r =? 0)
    (Operation.set_ResultCode (int (xdr.OperationResult_Code r)) op).

(** *** The operation decoder *)

Definition asset (a : xdr.Asset) : Asset.t :=
  let '(t, c, i) := xdr.MustExtract a in
  if String.eqb t "native" then Asset.mk "native" EmptyString "native"
  else Asset.mk c i (c ++ "-" ++ i)%string.

Definition flags (f : Z) : AccountFlags.t :=
  let l := int32 f in
  AccountFlags.mk
    (negb (Z.land l xdr.AccountFlagsAuthRequiredFlag =? 0))
    (negb (Z.land l xdr.AccountFlagsAuthRevocableFlag =? 0))
    (negb (Z.land l xdr.AccountFlagsAuthImmutableFlag =? 0)).

(** [big.NewRat(n, d).Float64()]: [NewRat] panics on a zero denominator. *)
Definition NewRat_Float64 (n d : Z) : outcome float64 :=
  if d =? 0 then Panic division_by_zero else Done (FloatOfRat n d).

Definition newCreateAccount (o : xdr.CreateAccountOp) (op : Operation.t)
  : outcome Operation.t :=
  let op := Operation.set_SourceAmount (int (xdr.CreateAccountOp_StartingBalance o)) op in
  let op := Operation.set_DestinationAccountID
              (xdr.Address (Some (xdr.CreateAccountOp_Destination o))) op in
  Done op.

Definition newPayment (o : xdr.PaymentOp) (op : Operation.t)
  : outcome Operation.t :=
  let op := Operation.set_SourceAmount (int (xdr.PaymentOp_Amount o)) op in
  let op := Operation.set_DestinationAccountID
              (xdr.Address (Some (xdr.PaymentOp_Destination o))) op in
  let op := Operation.set_SourceAsset (Some (asset (xdr.PaymentOp_Asset o))) op in
  Done op.

Definition newPathPayment (o : xdr.PathPaymentOp) (op : Operation.t)
  : outcome Operation.t :=
  let op := Operation.set_DestinationAccountID
              (xdr.Address (Some (xdr.PathPaymentOp_Destination o))) op in
  let op := Operation.set_DestinationAmount (int (xdr.PathPaymentOp_DestAmount o)) op in
  let op := Operation.set_DestinationAsset
              (Some (asset (xdr.PathPaymentOp_DestAsset o))) op in
  let op := Operation.set_SourceAmount (int (xdr.PathPaymentOp_SendMax o)) op in
  let op := Operation.set_SourceAsset
              (Some (asset (xdr.PathPaymentOp_SendAsset o))) op in
  let op := Operation.set_Path (map asset (xdr.PathPaymentOp_Path o)) op in
  Done op.

Definition newManageOffer (o : xdr.ManageOfferOp) (op : Operation.t)
  : outcome Operation.t :=
  let op := Operation.set_SourceAmount (int (xdr.ManageOfferOp_Amount o)) op in
  let op := Operation.set_SourceAsset
              (Some (asset (xdr.ManageOfferOp_Buying o))) op in
  let op := Operation.set_OfferID (int (xdr.ManageOfferOp_OfferId o)) op in
  price <-! NewRat_Float64 (xdr.Price_N (xdr.ManageOfferOp_Price o))
                           (xdr.Price_D (xdr.ManageOfferOp_Price o)) ;;
  let op := Operation.set_OfferPrice price op in
  let op := Operation.set_DestinationAsset
              (Some (asset (xdr.ManageOfferOp_Selling o))) op in
  Done op.

Definition newCreatePassiveOffer (o : xdr.CreatePassiveOfferOp) (op : Operation.t)
  : outcome Operation.t :=
  let op := Operation.set_SourceAmount
              (int (xdr.CreatePassiveOfferOp_Amount o)) op in
  let op := Operation.set_SourceAsset
              (Some (asset (xdr.CreatePassiveOfferOp_Buying o))) op in
  price <-! NewRat_Float64 (xdr.Price_N (xdr.CreatePassiveOfferOp_Price o))
                           (xdr.Price_D (xdr.CreatePassiveOfferOp_Price o)) ;;
  let op := Operation.set_OfferPrice price op in
  let op := Operation.set_OfferPriceND
              (Price.mk (int (xdr.Price_N (xdr.CreatePassiveOfferOp_Price o)))
                        (int (xdr.Price_D (xdr.CreatePassiveOfferOp_Price o)))) op in
  let op := Operation.set_DestinationAsset
              (Some (asset (xdr.CreatePassiveOfferOp_Selling o))) op in
  Done op.

Definition isSome {A} (p : option A) : bool :=
  match p with
  | Some _ => true
  | None => false
  end.

(** [op.Thresholds = &Thresholds{}] allocates the struct with its four
    pointer fields nil; each copy below then stores through one of them. *)
Definition newSetOptions_thresholds (o : xdr.SetOptionsOp)
  : outcome Thresholds.t :=
  let th := Thresholds.mk None None None None in
  th <-! (if isSome (xdr.SetOptionsOp_LowThreshold o) then
            v <-! deref (xdr.SetOptionsOp_LowThreshold o) ;;
            p <-! store (Thresholds.Low th) (int v) ;;
            Done (Thresholds.mk p (Thresholds.Medium th) (Thresholds.High th)
                    (Thresholds.Master th))
          else Done th) ;;
  th <-! (if isSome (xdr.SetOptionsOp_LowThreshold o) then
            v <-! deref (xdr.SetOptionsOp_MedThreshold o) ;;
            p <-! store (Thresholds.Medium th) (int v) ;;
            Done (Thresholds.mk (Thresholds.Low th) p (Thresholds.High th)
                    (Thresholds.Master th))
          else Done th) ;;
  th <-! (if isSome (xdr.SetOptionsOp_LowThreshold o) then
            v <-! deref (xdr.SetOptionsOp_HighThreshold o) ;;
            p <-! store (Thresholds.High th) (int v) ;;
            Done (Thresholds.mk (Thresholds.Low th) (Thresholds.Medium th) p
                    (Thresholds.Master th))
          else Done th) ;;
  th <-! (if isSome (xdr.SetOptionsOp_MasterWeight o) then
            v <-! deref (xdr.SetOptionsOp_MasterWeight o) ;;
            p <-! store (Thresholds.Master th) (int v) ;;
            Done (Thresholds.mk (Thresholds.Low th) (Thresholds.Medium th)
                    (Thresholds.High th) p)
          else Done th) ;;
  Done th.

Definition newSetOptions (o : xdr.SetOptionsOp) (op : Operation.t)
  : outcome Operation.t :=
  let op := Operation.set_InflationDest
              (xdr.Address (xdr.SetOptionsOp_InflationDest o)) op in
  hd <-! deref (xdr.SetOptionsOp_HomeDomain o) ;;
  let op := Operation.set_HomeDomain hd op in
  op <-! (if isSome (xdr.SetOptionsOp_LowThreshold o)
             || isSome (xdr.SetOptionsOp_MedThreshold o)
             || isSome (xdr.SetOptionsOp_HighThreshold o)
             || isSome (xdr.SetOptionsOp_MasterWeight o)
          then
            th <-! newSetOptions_thresholds o ;;
            Done (Operation.set_Thresholds (Some th) op)
          else Done op) ;;
  op <-! (if isSome (Operation.SetFlags op) then
            v <-! deref (xdr.SetOptionsOp_SetFlags o) ;;
            Done (Operation.set_SetFlags (Some (flags (int v))) op)
          else Done op) ;;
  op <-! (if isSome (Operation.ClearFlags op) then
            v <-! deref (xdr.SetOptionsOp_ClearFlags o) ;;
            Done (Operation.set_ClearFlags (Some (flags (int v))) op)
          else Done op) ;;
  Done op.

Definition NewOperation (t : Transaction.t) (o : xdr.Operation) (n : Z)
  : outcome Operation.t :=
  let sourceAccountID :=
    match xdr.Operation_SourceAccount o with
    | Some a => xdr.Address (Some a)
    | None => Transaction.SourceAccountID t
    end in
  let op :=
    {| Operation.TxID := Transaction.ID t;
       Operation.TxIndex := Transaction.Index t;
       Operation.Index := n;
       Operation.Seq := Transaction.Seq t;
       Operation.Order := (Transaction.Order t ++ ":" ++ itoa n)%string;
       Operation.CloseTime := Transaction.CloseTime t;
       Operation.Succesful := true;
       Operation.ResultCode := 0;
       Operation.TxSourceAccountID := Transaction.SourceAccountID t;
       Operation.Type_ :=
         xdr.OperationType_String (xdr.Body_Type (xdr.Operation_Body o));
       Operation.SourceAccountID := sourceAccountID;
       Operation.Memo := Transaction.Memo t;
       (* the fields the literal leaves out, at their zero values *)
       Operation.SourceAsset := None;
       Operation.SourceAmount := 0;
       Operation.DestinationAccountID := EmptyString;
       Operation.DestinationAsset := None;
       Operation.DestinationAmount := 0;
       Operation.OfferPrice := FloatZero;
       Operation.OfferPriceND := Price.mk 0 0;
       Operation.OfferID := 0;
       Operation.TrustLimit := 0;
       Operation.Authorize := false;
       Operation.BumpTo := 0;
       Operation.Path := [];
       Operation.Thresholds := None;
       Operation.HomeDomain := EmptyString;
       Operation.InflationDest := EmptyString;
       Operation.SetFlags := None;
       Operation.ClearFlags := None |} in
  match xdr.Operation_Body o with
  | xdr.BodyCreateAccount b => newCreateAccount b op
  | xdr.BodyPayment b => newPayment b op
  | xdr.BodyPathPayment b => newPathPayment b op
  | xdr.BodyManageOffer b => newManageOffer b op
  | xdr.BodyCreatePassiveOffer b => newCreatePassiveOffer b op
  | xdr.BodySetOptions b => newSetOptions b op
  | xdr.BodyOther _ => Done op
  end.

(** [DocID]: the identifier of an operation document in the index. *)
Definition DocID (op : Operation.t) : string := Operation.Order op.

(** *** The balance extractor *)

Definition nativeAsset : Asset.t := Asset.mk "native" EmptyString "native".

(** Modelled from the spec: [NewBalanceExtractor(...).Extract] is not among
    the sources.  Every created or updated entry that bears a balance (an
    account's native balance, a trustline's balance) yields one Balance with
    the value after the change, the close time and the paging token it was
    given; a removed entry yields none; the order of the changes is kept. *)
Definition balanceOfEntry (closeTime : Time) (source : BalanceSource)
  (token : PagingToken.t) (e : xdr.LedgerEntryData) : list Balance.t :=
  match e with
  | xdr.EntryAccount a v =>
      [Balance.mk (xdr.Address (Some a)) nativeAsset v source closeTime token]
  | xdr.EntryTrustLine a c v =>
      [Balance.mk (xdr.Address (Some a)) (asset c) v source closeTime token]
  | _ => []
  end.

Definition Extract (changes : list xdr.LedgerEntryChange) (closeTime : Time)
  (source : BalanceSource) (token : PagingToken.t) : list Balance.t :=
  flat_map
    (fun c =>
       match c with
       | xdr.ChangeCreated e => balanceOfEntry closeTime source token e
       | xdr.ChangeUpdated e => balanceOfEntry closeTime source token e
       | xdr.ChangeRemoved _ => []
       end)
    changes.

Definition serializeBalances (bl : list Balance.t) : Bulk unit :=
  forRange bl (fun _ balance => SerializeForBulk (DocBalance balance)).

(** *** MakeBulk *)

(** The operations list [MakeBulk] reads from a row's meta: the result of a
    missed [GetOperations] is the nil slice. *)
Definition MakeBulk_metas (m : xdr.TransactionMeta) : list xdr.OperationMeta :=
  match xdr.GetV1 m with
  | Some ops => ops
  | None => fst (xdr.GetOperations m)
  end.

Definition MakeBulk_operations (tx : Transaction.t) (ops : list xdr.Operation)
  (results : option (list xdr.OperationResult)) : Bulk unit :=
  forRange ops (fun o x =>
    (op <- lift (NewOperation tx x (uint8 o)) ;;
     op <- match results with
           | Some rs => (r <- lift (index rs o) ;; ret (AppendResult op r))
           | None => ret op
           end ;;
     SerializeForBulk (DocOperation op))%bulk).

Definition MakeBulk_balances (h : LedgerHeader.t) (tx : Transaction.t)
  (metas : list xdr.OperationMeta) : Bulk unit :=
  forRange metas (fun o meta =>
    let pagingToken :=
      PagingToken.mk (LedgerHeader.Seq h) (Transaction.Index tx) (uint8 (o + 1)) 1 in
    let bl := Extract (xdr.OperationMeta_Changes meta) (LedgerHeader.CloseTime h)
                BalanceSourceMeta pagingToken in
    serializeBalances bl).

Definition MakeBulk_transaction (h : LedgerHeader.t) (txRow : db.TxHistoryRow)
  : Bulk unit :=
  let ops := db.Operations txRow in
  let results := db.Results txRow in
  let metas := MakeBulk_metas (db.TxHistoryRow_Meta txRow) in
  let tx := NewTransaction txRow (LedgerHeader.CloseTime h) in
  (SerializeForBulk (DocTransaction tx) ;;
   MakeBulk_operations tx ops results ;;
   MakeBulk_balances h tx metas)%bulk.

Definition MakeBulk_fees (h : LedgerHeader.t) (fees : list db.TxFeeHistoryRow)
  : Bulk unit :=
  forRange fees (fun o fee =>
    let pagingToken := PagingToken.mk (LedgerHeader.Seq h) (uint8 o) 255 2 in
    let bl := Extract (db.TxFeeHistoryRow_Changes fee) (LedgerHeader.CloseTime h)
                BalanceSourceFee pagingToken in
    serializeBalances bl).

Definition MakeBulk (r : db.LedgerHeaderRow) (txs : list db.TxHistoryRow)
  (fees : list db.TxFeeHistoryRow) : Bulk unit :=
  let h := NewLedgerHeader r in
  (SerializeForBulk (DocLedgerHeader h) ;;
   forRange txs (fun _ txRow => MakeBulk_transaction h txRow) ;;
   MakeBulk_fees h fees)%bulk.

(** *** BulkMaker *)

Module BulkMaker.
Record t : Type := mk {
  ledgerRow : db.LedgerHeaderRow;
  ledgerHeader : LedgerHeader.t;
  seq : Z;
  closeTime : Time;
  transactionRows : list db.TxHistoryRow;
  transactions : list Transaction.t;
  fees : list db.TxFeeHistoryRow
}.
End BulkMaker.

Definition NewBulkMaker (l : db.LedgerHeaderRow) (t : list db.TxHistoryRow)
  (f : list db.TxFeeHistoryRow) : BulkMaker.t :=
  let h := NewLedgerHeader l in
  let txs := map (fun row => NewTransaction row (LedgerHeader.CloseTime h)) t in
  BulkMaker.mk l h (LedgerHeader.Seq h) (LedgerHeader.CloseTime h) t txs f.

Definition makeLedger (m : BulkMaker.t) : Bulk unit :=
  SerializeForBulk (DocLedgerHeader (BulkMaker.ledgerHeader m)).

Definition makeTransactions (m : BulkMaker.t) : Bulk unit :=
  forRange (BulkMaker.transactions m) (fun _ transaction =>
    SerializeForBulk (DocTransaction transaction)).

Definition makeOperationsWithResults_operations (t : Transaction.t)
  (operations : list xdr.Operation)
  (results : option (list xdr.OperationResult)) : Bulk unit :=
  forRange operations (fun oIndex o =>
    (op <- lift (NewOperation t o (uint8 oIndex)) ;;
     op <- match results with
           | Some rs => (r <- lift (index rs oIndex) ;; ret (AppendResult op r))
           | None => ret op
           end ;;
     SerializeForBulk (DocOperation op))%bulk).

Definition makeOperationsWithResults (m : BulkMaker.t) : Bulk unit :=
  forRange (BulkMaker.transactions m) (fun tIndex t =>
    (row <- lift (index (BulkMaker.transactionRows m) tIndex) ;;
     let operations := db.Operations row in
     let results := db.Results row in
     makeOperationsWithResults_operations t operations results)%bulk).

(** The operations list [makeBalancesFromMetas] reads from a row's meta,
    with the [ok] of the lookup that produced it. *)
Definition makeBalancesFromMetas_metas (m : xdr.TransactionMeta)
  : list xdr.OperationMeta * bool :=
  match xdr.GetV1 m with
  | Some ops => (ops, true)
  | None => xdr.GetOperations m
  end.

Definition makeBalancesFromMetas_row (m : BulkMaker.t) (tIndex : Z)
  (metas : list xdr.OperationMeta) : Bulk unit :=
  forRange metas (fun oIndex e =>
    let pagingToken :=
      PagingToken.mk (BulkMaker.seq m) (uint8 (tIndex + 1)) (uint8 (oIndex + 1))
        balanceFromMetaAuxOrder in
    let b := Extract (xdr.OperationMeta_Changes e) (BulkMaker.closeTime m)
               BalanceSourceMeta pagingToken in
    serializeBalances b).

(** The loop over the rows; the [return] inside it leaves the function. *)
Fixpoint makeBalancesFromMetas_from (m : BulkMaker.t) (tIndex : Z)
  (rows : list db.TxHistoryRow) : Bulk unit :=
  match rows with
  | [] => ret tt
  | row :: rest =>
      let '(metas, ok) := makeBalancesFromMetas_metas (db.TxHistoryRow_Meta row) in
      if negb ok then ret tt
      else (makeBalancesFromMetas_row m tIndex metas ;;
            makeBalancesFromMetas_from m (tIndex + 1) rest)%bulk
  end.

Definition makeBalancesFromMetas (m : BulkMaker.t) : Bulk unit :=
  makeBalancesFromMetas_from m 0 (BulkMaker.transactionRows m).

Definition makeBalancesFromFeeHistory (m : BulkMaker.t) : Bulk unit :=
  forRange (BulkMaker.fees m) (fun tIndex fee =>
    let pagingToken :=
      PagingToken.mk (BulkMaker.seq m) (uint8 (tIndex + 1)) fakeOperationIndex
        balanceFromFeeAuxOrder in
    let bl := Extract (db.TxFeeHistoryRow_Changes fee) (BulkMaker.closeTime m)
                BalanceSourceFee pagingToken in
    serializeBalances bl).

Definition Make (m : BulkMaker.t) : Bulk unit :=
  (makeLedger m ;;
   makeTransactions m ;;
   makeOperationsWithResults m ;;
   makeBalancesFromMetas m ;;
   makeBalancesFromFeeHistory m)%bulk.

End es.

(* ================================================================= *)
(** ** The export command (package commands) *)

Module commands.

Record ExportCommandConfig : Type := {
  Start : Z;
  Count : Z;
  RetryCount : Z;
  DryRun : bool;
  BatchSize : Z
}.

(** A ledger-close record of the source stream: the sequence number of its
    header ([meta.V0.LedgerHeader.Header.LedgerSeq], an unsigned 32-bit
    number) and the rows of the ledger. *)
Record LedgerCloseMeta : Type := {
  LedgerCloseMeta_LedgerSeq : Z;
  LedgerCloseMeta_Header : db.LedgerHeaderRow;
  LedgerCloseMeta_Txs : list db.TxHistoryRow;
  LedgerCloseMeta_Fees : list db.TxFeeHistoryRow
}.

(** The collaborators of the command, none of them among the sources:
    - [StreamLedgers first last], the records the source stream yields
      before it is closed;
    - [SerializeLedgerFromHistory], the builder run on one record;
    - [BulkInsert k b], the answer of the index sink to the call that
      follows [k] earlier calls; the sink reads the buffer and leaves it
      as it is;
    - [RandSource k], the [k]-th draw of the random source. *)
Record Collaborators : Type := {
  StreamLedgers : Z -> Z -> list LedgerCloseMeta;
  SerializeLedgerFromHistory : LedgerCloseMeta -> es.Bulk unit;
  BulkInsert : nat -> es.Buffer -> bool;
  RandSource : nat -> Z
}.

(** [rand.Intn(n)] for a positive [n]: a number in [0, n). *)
Definition Intn (c : Collaborators) (k : nat) (n : Z) : Z := RandSource c k mod n.

(** What the process does that the outside can see.  The lines written by
    [log.Println] are left out. *)
Inductive Event : Type :=
| EvStreamLedgers (first last : Z)
| EvSerializeLedger (seq : Z)
| EvBulkInsert (b : es.Buffer)
| EvSleep (seconds : Z)
| EvFatal (msg : string).

(** How a call ends: it returns, [log.Fatal] exits the process, or a panic
    unwinds it. *)
Inductive Exit : Type :=
| Returned
| Fatal
| Panicked (msg : string).

Record ExportCommand : Type := {
  Config : ExportCommandConfig;
  firstLedger : Z;
  lastLedger : Z
}.

(** The body of the loop over the stream, with the buffer [b] and the
    events so far. *)
Fixpoint Execute_stream (c : Collaborators) (first last : Z)
  (metas : list LedgerCloseMeta) (b : es.Buffer) (events : list Event)
  : Go.outcome unit * es.Buffer * list Event :=
  match metas with
  | [] => (Go.Done tt, b, events)
  | meta :: rest =>
      let seq := Go.int (LedgerCloseMeta_LedgerSeq meta) in
      if (seq <? first) || (seq >? last) then
        Execute_stream c first last rest b events
      else
        match SerializeLedgerFromHistory c meta b with
        | (Go.Done _, b') =>
            Execute_stream c first last rest b' (events ++ [EvSerializeLedger seq])
        | (Go.Panic msg, b') =>
            (Go.Panic msg, b', events ++ [EvSerializeLedger seq])
        end
  end.

Definition Execute (c : Collaborators) (cmd : ExportCommand)
  : list Event * Exit :=
  let total := Count (Config cmd) in
  let first := Start (Config cmd) in
  let last := Go.add first (Count (Config cmd)) in
  if total =? 0 then
    ([EvFatal "Nothing to export within given range!"], Fatal)
  else
    match Execute_stream c first last (StreamLedgers c first last) []
            [EvStreamLedgers first last] with
    | (Go.Panic msg, _, events) => (events, Panicked msg)
    | (Go.Done _, b, events) =>
        let indexed := BulkInsert c 0%nat b in
        if negb indexed then
          (events ++ [EvBulkInsert b; EvFatal "Cannot bulk insert"], Fatal)
        else (events ++ [EvBulkInsert b], Returned)
    end.

(** [index] calls itself after every failed submission; [fuel] bounds the
    depth of the calls, [calls] and [draws] count the earlier calls of the
    sink and of the random source. *)
Fixpoint index (fuel : nat) (c : Collaborators) (cmd : ExportCommand)
  (b : es.Buffer) (retry : Z) (calls draws : nat)
  : option (list Event * Exit) :=
  match fuel with
  | O => None
  | S fuel' =>
      let indexed := BulkInsert c calls b in
      if negb indexed then
        if retry >? RetryCount (Config cmd) then
          Some ([EvBulkInsert b; EvFatal "Retries for bulk failed, aborting"],
                Fatal)
        else
          let delay := Intn c draws 10 + 5 in
          match index fuel' c cmd b (Go.add retry 1) (S calls) (S draws) with
          | Some (events, e) =>
              Some (EvBulkInsert b :: EvSleep delay :: events, e)
          | None => None
          end
      else Some ([EvBulkInsert b], Returned)
  end.

Definition blockCount (cmd : ExportCommand) (count : Z) : Go.outcome Z :=
  blocks <-! Go.div count (BatchSize (Config cmd)) ;;
  r <-! Go.rem count (BatchSize (Config cmd)) ;;
  if r >? 0 then Go.Done (Go.add blocks 1) else Go.Done blocks.

Definition isBulkInsert (e : Event) : bool :=
  match e with
  | EvBulkInsert _ => true
  | _ => false
  end.

Definition isSerializeLedger (e : Event) : bool :=
  match e with
  | EvSerializeLedger _ => true
  | _ => false
  end.

Definition isStreamLedgers (e : Event) : bool :=
  match e with
  | EvStreamLedgers _ _ => true
  | _ => false
  end.

Definition isSleep (e : Event) : bool :=
  match e with
  | EvSleep _ => true
  | _ => false
  end.

(** The number of submissions in a run. *)
Definition submissions (events : list Event) : nat :=
  List.length (filter isBulkInsert events).

(** The bound check of the loop over the stream, as a predicate on the
    record. *)
Definition keeps (first last : Z) (meta : LedgerCloseMeta) : bool :=
  let seq := Go.int (LedgerCloseMeta_LedgerSeq meta) in
  negb ((seq <? first) || (seq >? last)).

(** What a run of [index] against a failing sink may contain: submissions
    of the buffer [b], sleeps of 5 to 14 seconds, the fatal log line. *)
Definition retryEvent (b : es.Buffer) (e : Event) : Prop :=
  match e with
  | EvBulkInsert x => x = b
  | EvSleep s => 5 <= s <= 14
  | EvFatal _ => True
  | _ => False
  end.

End commands.


(* ================================================================= *)
(** ** The contents of the buffer, as lists *)

(** What the loops of the builder leave in the buffer, written as list
    functions, to state the emission order against. *)
Module Emitted.

Import Go es.

(** [f i x] for every element [x] at index [i], counted from [i0]. *)
Fixpoint imapFrom {A B} (i0 : Z) (f : Z -> A -> B) (xs : list A) : list B :=
  match xs with
  | [] => []
  | x :: rest => f i0 x :: imapFrom (i0 + 1) f rest
  end.

Definition imap {A B} (f : Z -> A -> B) (xs : list A) : list B :=
  imapFrom 0 f xs.

Inductive Kind : Type :=
| KLedgerHeader
| KTransaction
| KOperation
| KBalance.

Definition kind (d : Document) : Kind :=
  match d with
  | DocLedgerHeader _ => KLedgerHeader
  | DocTransaction _ => KTransaction
  | DocOperation _ => KOperation
  | DocBalance _ => KBalance
  end.

(** The paging tokens of the fee-derived and of the meta-derived balances
    of a buffer, in buffer order. *)
Definition tokensOf (source : BalanceSource) (b : Buffer) : list PagingToken.t :=
  flat_map
    (fun d =>
       match d with
       | DocBalance bal =>
           match source, Balance.Source bal with
           | BalanceSourceMeta, BalanceSourceMeta => [Balance.PagingToken bal]
           | BalanceSourceFee, BalanceSourceFee => [Balance.PagingToken bal]
           | _, _ => []
           end
       | _ => []
       end)
    b.

(** The document of the operation at index [o]: decoded, then merged with
    its result when the transaction has results. *)
Definition decodeOperation (tx : Transaction.t)
  (results : option (list xdr.OperationResult)) (o : Z) (x : xdr.Operation)
  : outcome Operation.t :=
  op <-! NewOperation tx x (uint8 o) ;;
  match results with
  | Some rs => r <-! index rs o ;; Done (AppendResult op r)
  | None => Done op
  end.

Fixpoint decodeOperationsFrom (tx : Transaction.t)
  (results : option (list xdr.OperationResult)) (o : Z)
  (ops : list xdr.Operation) : outcome (list Operation.t) :=
  match ops with
  | [] => Done []
  | x :: rest =>
      op <-! decodeOperation tx results o x ;;
      docs <-! decodeOperationsFrom tx results (o + 1) rest ;;
      Done (op :: docs)
  end.

(** The operation documents of a row, when every one of them decodes. *)
Definition decodeOperations (closeTime : Time) (row : db.TxHistoryRow)
  : outcome (list Operation.t) :=
  decodeOperationsFrom (NewTransaction row closeTime) (db.Results row) 0
    (db.Operations row).

(** The close time every document of the ledger of [r] inherits. *)
Definition closeTimeOf (r : db.LedgerHeaderRow) : Time :=
  LedgerHeader.CloseTime (NewLedgerHeader r).

(** Every operation of [row] decodes, into the documents [docs]. *)
Definition decodes (r : db.LedgerHeaderRow) (row : db.TxHistoryRow)
  (docs : list Operation.t) : Prop :=
  decodeOperations (closeTimeOf r) row = Done docs.

(** The balances of one list of operation metas, under the token
    [token o] for the meta at index [o]. *)
Definition metaBalances (closeTime : Time) (token : Z -> PagingToken.t)
  (metas : list xdr.OperationMeta) : list Balance.t :=
  List.concat (imap (fun o e =>
                  Extract (xdr.OperationMeta_Changes e) closeTime
                    BalanceSourceMeta (token o))
               metas).

(** The balances of the fee rows, under the token [token i] for the row at
    index [i]. *)
Definition feeBalances (closeTime : Time) (token : Z -> PagingToken.t)
  (fees : list db.TxFeeHistoryRow) : list Balance.t :=
  List.concat (imap (fun i fee =>
                  Extract (db.TxFeeHistoryRow_Changes fee) closeTime
                    BalanceSourceFee (token i))
               fees).

(** The tokens of [BulkMaker]. *)
Definition metaToken (seq tIndex oIndex : Z) : PagingToken.t :=
  PagingToken.mk seq (uint8 (tIndex + 1)) (uint8 (oIndex + 1)) 1.

Definition feeToken (seq tIndex : Z) : PagingToken.t :=
  PagingToken.mk seq (uint8 (tIndex + 1)) 255 2.

(** A row has an operations list when its meta is of version 1 or of the
    legacy form. *)
Definition hasOperationsMeta (row : db.TxHistoryRow) : bool :=
  snd (makeBalancesFromMetas_metas (db.TxHistoryRow_Meta row)).

(** The meta-derived balances of [BulkMaker]: those of the rows before the
    first row without an operations list. *)
Fixpoint BulkMaker_metaBalancesFrom (seq : Z) (closeTime : Time) (tIndex : Z)
  (rows : list db.TxHistoryRow) : list Balance.t :=
  match rows with
  | [] => []
  | row :: rest =>
      if hasOperationsMeta row then
        metaBalances closeTime (metaToken seq tIndex)
          (fst (makeBalancesFromMetas_metas (db.TxHistoryRow_Meta row)))
        ++ BulkMaker_metaBalancesFrom seq closeTime (tIndex + 1) rest
      else []
  end.

(** What [BulkMaker] appends for a ledger whose operation documents are
    [opss], row by row. *)
Definition BulkMaker_documents (r : db.LedgerHeaderRow)
  (txs : list db.TxHistoryRow) (fees : list db.TxFeeHistoryRow)
  (opss : list (list Operation.t)) : list Document :=
  let h := NewLedgerHeader r in
  let closeTime := LedgerHeader.CloseTime h in
  let seq := LedgerHeader.Seq h in
  [DocLedgerHeader h]
  ++ map (fun row => DocTransaction (NewTransaction row closeTime)) txs
  ++ map DocOperation (List.concat opss)
  ++ map DocBalance (BulkMaker_metaBalancesFrom seq closeTime 0 txs)
  ++ map DocBalance (feeBalances closeTime (feeToken seq) fees).

(** What [MakeBulk] appends for one row whose operation documents are
    [docs], and for a ledger. *)
Definition MakeBulk_rowDocuments (h : LedgerHeader.t)
  (row : db.TxHistoryRow) (docs : list Operation.t) : list Document :=
  let tx := NewTransaction row (LedgerHeader.CloseTime h) in
  DocTransaction tx
  :: map DocOperation docs
  ++ map DocBalance
       (metaBalances (LedgerHeader.CloseTime h)
          (fun o => PagingToken.mk (LedgerHeader.Seq h) (Transaction.Index tx)
                      (uint8 (o + 1)) 1)
          (MakeBulk_metas (db.TxHistoryRow_Meta row))).

Definition MakeBulk_documents (r : db.LedgerHeaderRow)
  (txs : list db.TxHistoryRow) (fees : list db.TxFeeHistoryRow)
  (opss : list (list Operation.t)) : list Document :=
  let h := NewLedgerHeader r in
  [DocLedgerHeader h]
  ++ flat_map (fun p => MakeBulk_rowDocuments h (fst p) (snd p)) (combine txs opss)
  ++ map DocBalance
       (feeBalances (LedgerHeader.CloseTime h)
          (fun o => PagingToken.mk (LedgerHeader.Seq h) (uint8 o) 255 2) fees).

(** The order of the kinds that the specification prescribes for a ledger:
    the header; for each transaction, the transaction and its operations;
    for each transaction, its meta-derived balances; for each fee row, its
    balances. *)
Definition prescribedKinds (r : db.LedgerHeaderRow)
  (txs : list db.TxHistoryRow) (fees : list db.TxFeeHistoryRow) : list Kind :=
  let h := NewLedgerHeader r in
  let closeTime := LedgerHeader.CloseTime h in
  [KLedgerHeader]
  ++ flat_map (fun row =>
                 KTransaction
                 :: map (fun _ => KOperation) (db.Operations row)) txs
  ++ flat_map (fun row =>
                 map (fun _ => KBalance)
                   (metaBalances closeTime (metaToken 0 0)
                      (MakeBulk_metas (db.TxHistoryRow_Meta row)))) txs
  ++ flat_map (fun fee =>
                 map (fun _ => KBalance)
                   (Extract (db.TxFeeHistoryRow_Changes fee) closeTime
                      BalanceSourceFee (feeToken 0 0))) fees.

End Emitted.

(* ================================================================= *)
(** ** What a builder step may do to the buffer *)

Module Invariants.

Import Go es.

(** A step only appends: its outcome and the documents it adds are the
    same whatever the buffer holds, and every added document satisfies
    [P]. *)
Definition appends {A} (P : Document -> Prop) (m : Bulk A) : Prop :=
  exists (o : outcome A) (docs : list Document),
    Forall P docs /\ forall b, m b = (o, b ++ docs).

(** What may follow the header of the ledger of sequence [seq] closed at
    [closeTime]: no second header; balances with the sequence and the close
    time of the ledger, the auxiliary order 1 and an operation order of
    eight bits when they come from the metas, the auxiliary order 2 and the
    operation order 255 when they come from the fee history. *)
Definition follows (seq : Z) (closeTime : Time) (d : Document) : Prop :=
  match d with
  | DocLedgerHeader _ => False
  | DocTransaction _ => True
  | DocOperation _ => True
  | DocBalance bal =>
      PagingToken.LedgerSeq (Balance.PagingToken bal) = seq
      /\ Balance.CloseTime bal = closeTime
      /\ 0 <= PagingToken.TransactionOrder (Balance.PagingToken bal) < 256
      /\ match Balance.Source bal with
         | BalanceSourceMeta =>
             PagingToken.AuxOrder1 (Balance.PagingToken bal) = 1
             /\ 0 <= PagingToken.OperationOrder (Balance.PagingToken bal) < 256
         | BalanceSourceFee =>
             PagingToken.AuxOrder1 (Balance.PagingToken bal) = 2
             /\ PagingToken.OperationOrder (Balance.PagingToken bal) = 255
         end
  end.

(** The documents of one kind. *)
Definition ofKind (k : Emitted.Kind) (d : Document) : bool :=
  match k, Emitted.kind d with
  | Emitted.KLedgerHeader, Emitted.KLedgerHeader => true
  | Emitted.KTransaction, Emitted.KTransaction => true
  | Emitted.KOperation, Emitted.KOperation => true
  | Emitted.KBalance, Emitted.KBalance => true
  | _, _ => false
  end.

End Invariants.
(* ================================================================= *)
(** ** Concrete inputs *)

Module Examples.

Import commands.

Definition headerRow (seq : Z) : db.LedgerHeaderRow :=
  {| db.LedgerHeaderRow_Hash := "hash";
     db.LedgerHeaderRow_LedgerSeq := seq;
     db.LedgerHeaderRow_CloseTime := 1000 |}.

Definition closeMeta (seq : Z) : LedgerCloseMeta :=
  {| LedgerCloseMeta_LedgerSeq := seq;
     LedgerCloseMeta_Header := headerRow seq;
     LedgerCloseMeta_Txs := [];
     LedgerCloseMeta_Fees := [] |}.

(** A source stream that is off by one record on either side of the range
    it was asked for, the builder of this repository on every record, a
    sink with a fixed answer. *)
Definition world (sinkAnswer : bool) : Collaborators :=
  {| StreamLedgers := fun first last =>
       map closeMeta [first - 1; first; last; last + 1];
     SerializeLedgerFromHistory := fun meta =>
       es.Make (es.NewBulkMaker (LedgerCloseMeta_Header meta)
                  (LedgerCloseMeta_Txs meta) (LedgerCloseMeta_Fees meta));
     BulkInsert := fun _ _ => sinkAnswer;
     RandSource := fun k => Z.of_nat k * 7 |}.

Definition export (start count retries : Z) : ExportCommand :=
  {| Config := {| Start := start; Count := count; RetryCount := retries;
                  DryRun := false; BatchSize := 50 |};
     firstLedger := 0;
     lastLedger := 0 |}.

Definition ledgerDoc (seq : Z) : es.Document :=
  es.DocLedgerHeader (es.LedgerHeader.mk seq 1000).

(** *** Inputs of the decoder and of the builder *)

Definition usd : xdr.Asset := xdr.AssetCreditAlphanum4 "USD" "GISSUER".

Definition tx0 : es.Transaction.t :=
  es.Transaction.mk "txhash" 1 7 "7:1" 1000 true 0 "GSOURCE" None.

(** A set-options operation that sets the master weight and nothing else;
    the home domain is present because the decoder reads through it. *)
Definition setMasterWeight : xdr.SetOptionsOp :=
  {| xdr.SetOptionsOp_InflationDest := None;
     xdr.SetOptionsOp_ClearFlags := None;
     xdr.SetOptionsOp_SetFlags := None;
     xdr.SetOptionsOp_MasterWeight := Some 5;
     xdr.SetOptionsOp_LowThreshold := None;
     xdr.SetOptionsOp_MedThreshold := None;
     xdr.SetOptionsOp_HighThreshold := None;
     xdr.SetOptionsOp_HomeDomain := Some "example.org" |}.

(** A set-options operation that sets the flags and nothing else. *)
Definition setAuthRequired : xdr.SetOptionsOp :=
  {| xdr.SetOptionsOp_InflationDest := None;
     xdr.SetOptionsOp_ClearFlags := None;
     xdr.SetOptionsOp_SetFlags := Some 1;
     xdr.SetOptionsOp_MasterWeight := None;
     xdr.SetOptionsOp_LowThreshold := None;
     xdr.SetOptionsOp_MedThreshold := None;
     xdr.SetOptionsOp_HighThreshold := None;
     xdr.SetOptionsOp_HomeDomain := Some "example.org" |}.

Definition operation (body : xdr.OperationBody) : xdr.Operation :=
  {| xdr.Operation_SourceAccount := None; xdr.Operation_Body := body |}.

(** An offer that sells the native asset for USD at the price 1/2. *)
Definition manageOffer : xdr.ManageOfferOp :=
  {| xdr.ManageOfferOp_Selling := xdr.AssetNative;
     xdr.ManageOfferOp_Buying := usd;
     xdr.ManageOfferOp_Amount := 100;
     xdr.ManageOfferOp_Price := {| xdr.Price_N := 1; xdr.Price_D := 2 |};
     xdr.ManageOfferOp_OfferId := 42 |}.

Definition createPassiveOffer : xdr.CreatePassiveOfferOp :=
  {| xdr.CreatePassiveOfferOp_Selling := xdr.AssetNative;
     xdr.CreatePassiveOfferOp_Buying := usd;
     xdr.CreatePassiveOfferOp_Amount := 100;
     xdr.CreatePassiveOfferOp_Price := {| xdr.Price_N := 1; xdr.Price_D := 2 |} |}.

(** The kind 9 (inflation) is not one the decoder dispatches on. *)
Definition inflation : xdr.Operation := operation (xdr.BodyOther 9).

Definition createAccount (dest : string) : xdr.Operation :=
  operation (xdr.BodyCreateAccount
               {| xdr.CreateAccountOp_Destination := dest;
                  xdr.CreateAccountOp_StartingBalance := 500 |}).

Definition txRow (index : Z) (ops : list xdr.Operation)
  (results : option (list xdr.OperationResult)) (meta : xdr.TransactionMeta)
  : db.TxHistoryRow :=
  {| db.TxHistoryRow_ID := "txhash";
     db.TxHistoryRow_LedgerSeq := 7;
     db.TxHistoryRow_Index := index;
     db.TxHistoryRow_Envelope :=
       {| xdr.TransactionEnvelope_Tx :=
            {| xdr.Transaction_SourceAccount := "GSOURCE";
               xdr.Transaction_Memo := None;
               xdr.Transaction_Operations := ops |} |};
     db.TxHistoryRow_Result :=
       {| xdr.TransactionResultPair_Result :=
            {| xdr.TransactionResult_FeeCharged := 100;
               xdr.TransactionResult_Result :=
                 {| xdr.TransactionResultResult_Code := 0;
                    xdr.TransactionResultResult_Results := results |} |} |};
     db.TxHistoryRow_Meta := meta |}.

(** The changes of one operation: the balance of [account] becomes [v]. *)
Definition accountUpdated (account : string) (v : Z) : xdr.OperationMeta :=
  {| xdr.OperationMeta_Changes := [xdr.ChangeUpdated (xdr.EntryAccount account v)] |}.

Definition feeRow (index : Z) (account : string) (v : Z) : db.TxFeeHistoryRow :=
  {| db.TxFeeHistoryRow_TxID := "txhash";
     db.TxFeeHistoryRow_LedgerSeq := 7;
     db.TxFeeHistoryRow_Index := index;
     db.TxFeeHistoryRow_Changes := [xdr.ChangeUpdated (xdr.EntryAccount account v)] |}.

(** Two operations, one result. *)
Definition shortResults : db.TxHistoryRow :=
  txRow 1 [inflation; inflation] (Some [{| xdr.OperationResult_Code := 0 |}])
    (xdr.MetaOperations []).

(** A ledger of two transactions with one operation and one changed
    balance each, and the two fee charges. *)
Definition twoTransactions : list db.TxHistoryRow :=
  [txRow 1 [createAccount "GA"] None (xdr.MetaOperations [accountUpdated "GA" 500]);
   txRow 2 [createAccount "GB"] None (xdr.MetaV1 [] [accountUpdated "GB" 500])].

Definition twoFees : list db.TxFeeHistoryRow :=
  [feeRow 1 "GSOURCE" 900; feeRow 2 "GSOURCE" 800].

(** A ledger whose second transaction has a meta of a later version. *)
Definition laterMeta : db.TxHistoryRow :=
  txRow 2 [createAccount "GB"] None (xdr.MetaLater 2).

Definition firstRow : db.TxHistoryRow :=
  txRow 1 [createAccount "GA"] None (xdr.MetaOperations [accountUpdated "GA" 500]).

Definition thirdRow : db.TxHistoryRow :=
  txRow 3 [createAccount "GC"] None (xdr.MetaV1 [] [accountUpdated "GC" 300]).

(** The operation documents of a row of a ledger closed at time 1000. *)
Definition operationsOf (row : db.TxHistoryRow) : list es.Operation.t :=
  match Emitted.decodeOperations 1000 row with
  | Go.Done docs => docs
  | Go.Panic _ => []
  end.

(** A sink that rejects the first [n] calls and accepts from then on. *)
Definition worldAcceptingAfter (n : nat) : Collaborators :=
  {| StreamLedgers := StreamLedgers (world true);
     SerializeLedgerFromHistory := SerializeLedgerFromHistory (world true);
     BulkInsert := fun k _ => (n <=? k)%nat;
     RandSource := RandSource (world true) |}.

(** A record whose only transaction has two operations and one result. *)
Definition brokenMeta (seq : Z) : LedgerCloseMeta :=
  {| LedgerCloseMeta_LedgerSeq := seq;
     LedgerCloseMeta_Header := headerRow seq;
     LedgerCloseMeta_Txs := [shortResults];
     LedgerCloseMeta_Fees := [] |}.

(** A stream with a broken record between two sound ones. *)
Definition worldWithBrokenRecord : Collaborators :=
  {| StreamLedgers := fun first last =>
       [closeMeta first] ++ brokenMeta (first + 1) :: [closeMeta last];
     SerializeLedgerFromHistory := SerializeLedgerFromHistory (world true);
     BulkInsert := BulkInsert (world true);
     RandSource := RandSource (world true) |}.

Definition metaBalance : es.Balance.t :=
  es.Balance.mk "GA" es.nativeAsset 500 es.BalanceSourceMeta 1000
    (es.PagingToken.mk 7 1 1 1).

Definition feeBalance : es.Balance.t :=
  es.Balance.mk "GSOURCE" es.nativeAsset 900 es.BalanceSourceFee 1000
    (es.PagingToken.mk 7 1 255 2).

(** A set-options operation that sets the medium threshold and a flag. *)
Definition setMediumThreshold : xdr.SetOptionsOp :=
  {| xdr.SetOptionsOp_InflationDest := Some "GINFLATION";
     xdr.SetOptionsOp_ClearFlags := None;
     xdr.SetOptionsOp_SetFlags := Some 1;
     xdr.SetOptionsOp_MasterWeight := None;
     xdr.SetOptionsOp_LowThreshold := None;
     xdr.SetOptionsOp_MedThreshold := Some 2;
     xdr.SetOptionsOp_HighThreshold := None;
     xdr.SetOptionsOp_HomeDomain := Some "example.org" |}.

(** An offer at the price 1/0. *)
Definition offerAtNoPrice : xdr.ManageOfferOp :=
  {| xdr.ManageOfferOp_Selling := xdr.AssetNative;
     xdr.ManageOfferOp_Buying := usd;
     xdr.ManageOfferOp_Amount := 100;
     xdr.ManageOfferOp_Price := {| xdr.Price_N := 1; xdr.Price_D := 0 |};
     xdr.ManageOfferOp_OfferId := 42 |}.

(** A row whose second operation is that offer. *)
Definition rowWithNoPrice : db.TxHistoryRow :=
  txRow 2 [createAccount "GB"; operation (xdr.BodyManageOffer offerAtNoPrice)]
    None (xdr.MetaOperations []).

End Examples.

(* ================================================================= *)
(** ** Properties of the Go primitives *)

Lemma int_id (x : Z) : - 2 ^ 63 <= x < 2 ^ 63 -> Go.int x = x.
Proof.
  intros Hx. unfold Go.int.
  rewrite Z.mod_small by lia. lia.
Qed.

Lemma uint8_range (x : Z) : 0 <= Go.uint8 x < 256.
Proof. unfold Go.uint8. apply Z.mod_pos_bound. lia. Qed.

Lemma uint8_id (x : Z) : 0 <= x < 256 -> Go.uint8 x = x.
Proof. intros Hx. unfold Go.uint8. apply Z.mod_small. exact Hx. Qed.

(* ================================================================= *)
(** ** The export command *)

Section ExportCommand.

Import commands.

Variable c : Collaborators.

(** The loop over the stream only ever adds serialisation events, one for
    each record it lets through, and lets through the records whose
    sequence is neither below [first] nor above [last]. *)
Lemma Execute_stream_events (first last : Z) (metas : list LedgerCloseMeta) :
  forall b events b' events',
    Execute_stream c first last metas b events = (Go.Done tt, b', events') ->
    events' =
      events ++ map (fun m => EvSerializeLedger (Go.int (LedgerCloseMeta_LedgerSeq m)))
                    (filter (keeps first last) metas).
Proof.
  induction metas as [|meta rest IH]; intros b events b' events' Hrun; simpl in Hrun.
  - inversion Hrun; subst. simpl. now rewrite app_nil_r.
  - unfold keeps at 1. simpl.
    destruct ((Go.int (LedgerCloseMeta_LedgerSeq meta) <? first)
              || (Go.int (LedgerCloseMeta_LedgerSeq meta) >? last)) eqn:Hout; simpl.
    + eauto.
    + destruct (SerializeLedgerFromHistory c meta b) as [[u|msg] b1] eqn:Hser.
      * apply IH in Hrun. rewrite Hrun, <- app_assoc. reflexivity.
      * discriminate.
Qed.

(** A record at [first + count] passes the bound check. *)
Lemma keeps_upper_bound (first count : Z) (meta : LedgerCloseMeta) :
  0 <= count -> - 2 ^ 63 <= first -> first + count < 2 ^ 63 ->
  0 <= first + count < 2 ^ 32 ->
  LedgerCloseMeta_LedgerSeq meta = first + count ->
  keeps first (Go.add first count) meta = true.
Proof.
  intros Hc Hlo Hhi H32 Hseq. unfold keeps, Go.add.
  rewrite Hseq, !int_id by lia.
  apply negb_true_iff, orb_false_iff.
  split; [apply Z.ltb_ge | rewrite Z.gtb_ltb; apply Z.ltb_ge]; lia.
Qed.

(** Against a sink that rejects every call, [index] submits the same
    buffer once more than there are retry numbers from [retry] up to the
    ceiling plus one, sleeps between 5 and 14 seconds after each of them
    but the last, and ends in [log.Fatal]. *)
Lemma index_always_failing (cmd : ExportCommand) (b : es.Buffer) :
  (forall k x, BulkInsert c k x = false) ->
  RetryCount (Config cmd) < 2 ^ 63 - 1 ->
  forall (n : nat) (retry : Z) (calls draws extra : nat),
    - 2 ^ 63 <= retry ->
    RetryCount (Config cmd) + 1 - retry = Z.of_nat n ->
    exists events,
      index (S n + extra) c cmd b retry calls draws = Some (events, Fatal)
      /\ submissions events = S n
      /\ Forall (retryEvent b) events.
Proof.
  intros Hsink Hceil n.
  induction n as [|n IH]; intros retry calls draws extra Hlo Hn.
  - exists [EvBulkInsert b; EvFatal "Retries for bulk failed, aborting"].
    simpl. rewrite Hsink. simpl.
    assert (Hgt : (retry >? RetryCount (Config cmd)) = true)
      by (rewrite Z.gtb_ltb; apply Z.ltb_lt; lia).
    rewrite Hgt. repeat split. repeat constructor.
  - assert (Hle : (retry >? RetryCount (Config cmd)) = false)
      by (rewrite Z.gtb_ltb; apply Z.ltb_ge; lia).
    destruct (IH (retry + 1) (S calls) (S draws) extra)
      as (events & Hrun & Hcount & Hall);
      [lia | lia |].
    exists (EvBulkInsert b :: EvSleep (Intn c draws 10 + 5) :: events).
    change (S (S n) + extra)%nat with (S (S n + extra)).
    cbn [index]. rewrite Hsink. cbn [negb]. rewrite Hle.
    unfold Go.add. rewrite int_id by lia. rewrite Hrun.
    repeat split.
    + unfold submissions in *. simpl. now rewrite Hcount.
    + constructor; [reflexivity|]. constructor; [|exact Hall].
      simpl. unfold Intn.
      pose proof (Z.mod_pos_bound (RandSource c draws) 10 ltac:(lia)). lia.
Qed.

End ExportCommand.

(** C9: with a count of zero, whatever the start, [Execute] ends in
    [log.Fatal] before anything else happens: the source stream is not
    opened, no ledger is serialised and the sink is never called. *)
Theorem Execute_zero_count_fails_fast
  (c : commands.Collaborators) (cmd : commands.ExportCommand) :
  commands.Count (commands.Config cmd) = 0 ->
  commands.Execute c cmd
    = ([commands.EvFatal "Nothing to export within given range!"], commands.Fatal)
  /\ filter commands.isStreamLedgers (fst (commands.Execute c cmd)) = []
  /\ filter commands.isSerializeLedger (fst (commands.Execute c cmd)) = []
  /\ commands.submissions (fst (commands.Execute c cmd)) = 0%nat.
Proof.
  intros Hcount. unfold commands.Execute. rewrite Hcount. simpl.
  repeat split.
Qed.

Lemma Execute_zero_count_fails_fast_witness :
  commands.Execute (Examples.world true) (Examples.export 100 0 25)
    = ([commands.EvFatal "Nothing to export within given range!"], commands.Fatal)
  /\ filter commands.isStreamLedgers
       (fst (commands.Execute (Examples.world true) (Examples.export 100 0 25))) = []
  /\ filter commands.isSerializeLedger
       (fst (commands.Execute (Examples.world true) (Examples.export 100 0 25))) = []
  /\ commands.submissions
       (fst (commands.Execute (Examples.world true) (Examples.export 100 0 25))) = 0%nat.
Proof.
  apply (Execute_zero_count_fails_fast (Examples.world true) (Examples.export 100 0 25)).
  reflexivity.
Defined.

(** C3: on the range that starts at 100 and counts 50 ledgers, a record
    of sequence 150 streamed by the source is serialised into the buffer,
    although 150 lies outside [100, 150); the records 99 and 151 are
    dropped. *)
Theorem Execute_serialises_ledger_past_range :
  commands.Execute (Examples.world true) (Examples.export 100 50 25)
  = ([commands.EvStreamLedgers 100 150;
      commands.EvSerializeLedger 100;
      commands.EvSerializeLedger 150;
      commands.EvBulkInsert [Examples.ledgerDoc 100; Examples.ledgerDoc 150]],
     commands.Returned).
Proof. vm_compute. reflexivity. Qed.

(** C4: with a retry ceiling of 25 and a sink that rejects every call,
    [Execute] submits the buffer once, never sleeps, and ends in
    [log.Fatal]; [index], the only function that retries, called with the
    retry number 0, submits 27 times. *)
Theorem Execute_submits_once_when_sink_fails :
  commands.Execute (Examples.world false) (Examples.export 100 1 25)
  = ([commands.EvStreamLedgers 100 101;
      commands.EvSerializeLedger 100;
      commands.EvSerializeLedger 101;
      commands.EvBulkInsert [Examples.ledgerDoc 100; Examples.ledgerDoc 101];
      commands.EvFatal "Cannot bulk insert"],
     commands.Fatal)
  /\ commands.submissions
       (fst (commands.Execute (Examples.world false) (Examples.export 100 1 25))) = 1%nat
  /\ filter commands.isSleep
       (fst (commands.Execute (Examples.world false) (Examples.export 100 1 25))) = []
  /\ option_map (fun r => (commands.submissions (fst r), snd r))
       (commands.index 100 (Examples.world false) (Examples.export 100 1 25)
          [Examples.ledgerDoc 100] 0 0 0)
     = Some (27%nat, commands.Fatal).
Proof. vm_compute. repeat split. Qed.

(* ================================================================= *)
(** ** The operation decoder *)

Section Decoder.

Import es.

(** Whatever the kind, a decoded operation still has the defaults of the
    success flag and of the result code. *)
Lemma NewOperation_defaults (t : Transaction.t) (o : xdr.Operation) (n : Z)
  (op : Operation.t) :
  NewOperation t o n = Go.Done op ->
  Operation.Succesful op = true /\ Operation.ResultCode op = 0.
Proof.
  unfold NewOperation.
  destruct (xdr.Operation_Body o) as [b|b|b|b|b|b|tag]; intros Hop.
  - inversion Hop; subst. split; reflexivity.
  - inversion Hop; subst. split; reflexivity.
  - inversion Hop; subst. split; reflexivity.
  - unfold newManageOffer in Hop.
    destruct (NewRat_Float64 _ _); simpl in Hop; [|discriminate].
    inversion Hop; subst. split; reflexivity.
  - unfold newCreatePassiveOffer in Hop.
    destruct (NewRat_Float64 _ _); simpl in Hop; [|discriminate].
    inversion Hop; subst. split; reflexivity.
  - unfold newSetOptions, newSetOptions_thresholds in Hop.
    destruct b as [infl cf sf mw lo me hi hd].
    destruct hd, lo, me, hi, mw; simpl in Hop; try discriminate;
      inversion Hop; subst; split; reflexivity.
  - inversion Hop; subst. split; reflexivity.
Qed.

(** No run of the threshold copies that returns has copied anything. *)
Lemma newSetOptions_thresholds_empty (o : xdr.SetOptionsOp) (th : Thresholds.t) :
  newSetOptions_thresholds o = Go.Done th ->
  th = Thresholds.mk None None None None.
Proof.
  unfold newSetOptions_thresholds.
  destruct o as [infl cf sf mw lo me hi hd].
  destruct lo, mw; simpl; intros Hth; try discriminate.
  now inversion Hth.
Qed.

(** No run of [newSetOptions] that returns has copied a threshold: the
    document keeps the thresholds it had, or gets the empty object. *)
Lemma newSetOptions_copies_no_threshold (o : xdr.SetOptionsOp)
  (op op' : Operation.t) :
  newSetOptions o op = Go.Done op' ->
  Operation.Thresholds op' = Operation.Thresholds op
  \/ Operation.Thresholds op' = Some (Thresholds.mk None None None None).
Proof.
  unfold newSetOptions.
  destruct (Go.deref (xdr.SetOptionsOp_HomeDomain o)) as [hd|msg];
    simpl; [|discriminate].
  set (op1 := Operation.set_HomeDomain hd _).
  assert (Hstep : forall op2,
    (if isSome (xdr.SetOptionsOp_LowThreshold o)
        || isSome (xdr.SetOptionsOp_MedThreshold o)
        || isSome (xdr.SetOptionsOp_HighThreshold o)
        || isSome (xdr.SetOptionsOp_MasterWeight o)
     then Go.obind (newSetOptions_thresholds o)
            (fun th => Go.Done (Operation.set_Thresholds (Some th) op1))
     else Go.Done op1) = Go.Done op2 ->
    Operation.Thresholds op2 = Operation.Thresholds op
    \/ Operation.Thresholds op2 = Some (Thresholds.mk None None None None)).
  { intros op2.
    match goal with |- context [if ?c then _ else _] => destruct c end.
    - destruct (newSetOptions_thresholds o) as [th|msg] eqn:Hth; simpl;
        intros Hop2; [|discriminate].
      apply newSetOptions_thresholds_empty in Hth. inversion Hop2; subst.
      right. reflexivity.
    - intros Hop2. inversion Hop2; subst. left. reflexivity. }
  match goal with
  | H : forall op2, ?e = Go.Done op2 -> _ |- _ =>
      destruct e as [op2|msg]; simpl; [|discriminate]
  end.
  specialize (Hstep op2 eq_refl).
  destruct (isSome (Operation.SetFlags op2)).
  - destruct (Go.deref (xdr.SetOptionsOp_SetFlags o)) as [v|msg]; simpl; [|discriminate].
    destruct (isSome (Operation.ClearFlags _)).
    + destruct (Go.deref (xdr.SetOptionsOp_ClearFlags o)) as [w|msg]; simpl;
        intros Hop; [|discriminate].
      inversion Hop; subst. exact Hstep.
    + simpl. intros Hop. inversion Hop; subst. exact Hstep.
  - simpl. destruct (isSome (Operation.ClearFlags op2)).
    + destruct (Go.deref (xdr.SetOptionsOp_ClearFlags o)) as [w|msg]; simpl;
        intros Hop; [|discriminate].
      inversion Hop; subst. exact Hstep.
    + simpl. intros Hop. inversion Hop; subst. exact Hstep.
Qed.

(** [newManageOffer] leaves the rational pair as it found it, and
    [newCreatePassiveOffer] writes it. *)
Lemma newManageOffer_keeps_OfferPriceND (o : xdr.ManageOfferOp)
  (op op' : Operation.t) :
  newManageOffer o op = Go.Done op' ->
  Operation.OfferPriceND op' = Operation.OfferPriceND op.
Proof.
  unfold newManageOffer.
  destruct (NewRat_Float64 _ _); simpl; intros Hop; [|discriminate].
  inversion Hop; subst. reflexivity.
Qed.

Lemma newCreatePassiveOffer_fields (o : xdr.CreatePassiveOfferOp)
  (op : Operation.t) :
  xdr.Price_D (xdr.CreatePassiveOfferOp_Price o) <> 0 ->
  exists op',
    newCreatePassiveOffer o op = Go.Done op'
    /\ Operation.SourceAsset op' = Some (asset (xdr.CreatePassiveOfferOp_Buying o))
    /\ Operation.DestinationAsset op' = Some (asset (xdr.CreatePassiveOfferOp_Selling o))
    /\ Operation.OfferPriceND op'
       = Price.mk (Go.int (xdr.Price_N (xdr.CreatePassiveOfferOp_Price o)))
                  (Go.int (xdr.Price_D (xdr.CreatePassiveOfferOp_Price o)))
    /\ Operation.OfferPrice op'
       = Go.FloatOfRat (xdr.Price_N (xdr.CreatePassiveOfferOp_Price o))
                       (xdr.Price_D (xdr.CreatePassiveOfferOp_Price o)).
Proof.
  intros Hd. unfold newCreatePassiveOffer, NewRat_Float64.
  apply Z.eqb_neq in Hd. rewrite Hd. simpl.
  eexists. split; [reflexivity|]. repeat split.
Qed.

(** A zero denominator makes both offer decoders panic. *)
Lemma offer_zero_denominator_panics (op : Operation.t) :
  (forall o, xdr.Price_D (xdr.ManageOfferOp_Price o) = 0 ->
             newManageOffer o op = Go.Panic Go.division_by_zero)
  /\ (forall o, xdr.Price_D (xdr.CreatePassiveOfferOp_Price o) = 0 ->
                newCreatePassiveOffer o op = Go.Panic Go.division_by_zero).
Proof.
  split; intros o Hd.
  - unfold newManageOffer, NewRat_Float64. rewrite Hd. reflexivity.
  - unfold newCreatePassiveOffer, NewRat_Float64. rewrite Hd. reflexivity.
Qed.

End Decoder.

(** C6: decoding the set-options operation that sets only the master
    weight panics on the store through the nil [Master] pointer of the
    fresh [Thresholds], so no document is produced; and on the operation
    that sets only the flags the decoder returns a document without
    [SetFlags]. *)
Theorem NewOperation_set_master_weight_panics :
  es.NewOperation Examples.tx0
    (Examples.operation (xdr.BodySetOptions Examples.setMasterWeight)) 0
  = Go.Panic Go.nil_dereference
  /\ (exists op,
        es.NewOperation Examples.tx0
          (Examples.operation (xdr.BodySetOptions Examples.setAuthRequired)) 0
        = Go.Done op
        /\ es.Operation.SetFlags op = None).
Proof.
  split; [reflexivity|].
  eexists. split; reflexivity.
Qed.

(** C7: the manage-offer operation at the price 1/2 is decoded into a
    document with the buying asset as source asset, the selling asset as
    destination asset and the decimal price of 1/2, but with the rational
    pair (0, 0); the create-passive-offer operation at the same price
    carries the pair (1, 2). *)
Theorem NewOperation_manage_offer_lacks_rational_price :
  (exists op,
     es.NewOperation Examples.tx0
       (Examples.operation (xdr.BodyManageOffer Examples.manageOffer)) 0 = Go.Done op
     /\ es.Operation.SourceAsset op = Some (es.asset Examples.usd)
     /\ es.Operation.DestinationAsset op = Some (es.asset xdr.AssetNative)
     /\ es.Operation.OfferPrice op = Go.FloatOfRat 1 2
     /\ es.Operation.OfferPriceND op = es.Price.mk 0 0)
  /\ (exists op,
        es.NewOperation Examples.tx0
          (Examples.operation (xdr.BodyCreatePassiveOffer Examples.createPassiveOffer)) 0
        = Go.Done op
        /\ es.Operation.OfferPriceND op = es.Price.mk 1 2).
Proof.
  split; eexists; (split; [reflexivity|]); repeat split.
Qed.

(** C8: for an operation whose kind is none of the six the decoder
    dispatches on, [NewOperation] returns a document that carries the
    shared fields (the linkage to the transaction and the ledger, the order
    string, the kind tag, the source account, the memo and the close time of
    the transaction, the default success flag and result code) and leaves
    every other field at its zero value; it does not panic. *)
Theorem NewOperation_unknown_kind
  (t : es.Transaction.t) (src : option xdr.AccountId) (tag n : Z) :
  xdr.known_kind tag = false ->
  es.NewOperation t
    {| xdr.Operation_SourceAccount := src; xdr.Operation_Body := xdr.BodyOther tag |} n
  = Go.Done
      {| es.Operation.TxID := es.Transaction.ID t;
         es.Operation.TxIndex := es.Transaction.Index t;
         es.Operation.Index := n;
         es.Operation.Seq := es.Transaction.Seq t;
         es.Operation.Order := (es.Transaction.Order t ++ ":" ++ Go.itoa n)%string;
         es.Operation.CloseTime := es.Transaction.CloseTime t;
         es.Operation.Succesful := true;
         es.Operation.ResultCode := 0;
         es.Operation.TxSourceAccountID := es.Transaction.SourceAccountID t;
         es.Operation.Type_ := xdr.OperationType_String tag;
         es.Operation.SourceAccountID :=
           match src with
           | Some a => a
           | None => es.Transaction.SourceAccountID t
           end;
         es.Operation.Memo := es.Transaction.Memo t;
         es.Operation.SourceAsset := None;
         es.Operation.SourceAmount := 0;
         es.Operation.DestinationAccountID := EmptyString;
         es.Operation.DestinationAsset := None;
         es.Operation.DestinationAmount := 0;
         es.Operation.OfferPrice := Go.FloatZero;
         es.Operation.OfferPriceND := es.Price.mk 0 0;
         es.Operation.OfferID := 0;
         es.Operation.TrustLimit := 0;
         es.Operation.Authorize := false;
         es.Operation.BumpTo := 0;
         es.Operation.Path := [];
         es.Operation.Thresholds := None;
         es.Operation.HomeDomain := EmptyString;
         es.Operation.InflationDest := EmptyString;
         es.Operation.SetFlags := None;
         es.Operation.ClearFlags := None |}.
Proof.
  intros _. unfold es.NewOperation. simpl.
  destruct src; reflexivity.
Qed.

Lemma NewOperation_unknown_kind_witness :
  es.NewOperation Examples.tx0
    {| xdr.Operation_SourceAccount := Some "GOTHER";
       xdr.Operation_Body := xdr.BodyOther 9 |} 3
  = Go.Done
      {| es.Operation.TxID := "txhash";
         es.Operation.TxIndex := 1;
         es.Operation.Index := 3;
         es.Operation.Seq := 7;
         es.Operation.Order := "7:1:3";
         es.Operation.CloseTime := 1000;
         es.Operation.Succesful := true;
         es.Operation.ResultCode := 0;
         es.Operation.TxSourceAccountID := "GSOURCE";
         es.Operation.Type_ := "OperationTypeInflation";
         es.Operation.SourceAccountID := "GOTHER";
         es.Operation.Memo := None;
         es.Operation.SourceAsset := None;
         es.Operation.SourceAmount := 0;
         es.Operation.DestinationAccountID := EmptyString;
         es.Operation.DestinationAsset := None;
         es.Operation.DestinationAmount := 0;
         es.Operation.OfferPrice := Go.FloatZero;
         es.Operation.OfferPriceND := es.Price.mk 0 0;
         es.Operation.OfferID := 0;
         es.Operation.TrustLimit := 0;
         es.Operation.Authorize := false;
         es.Operation.BumpTo := 0;
         es.Operation.Path := [];
         es.Operation.Thresholds := None;
         es.Operation.HomeDomain := EmptyString;
         es.Operation.InflationDest := EmptyString;
         es.Operation.SetFlags := None;
         es.Operation.ClearFlags := None |}.
Proof.
  apply (NewOperation_unknown_kind Examples.tx0 (Some "GOTHER") 9 3).
  reflexivity.
Defined.

(* ================================================================= *)
(** ** The loops of the builder *)

Section Loops.

Import Go es Emitted.

Lemma imapFrom_app {A B} (f : Z -> A -> B) (xs ys : list A) :
  forall i,
    imapFrom i f (xs ++ ys)
    = imapFrom i f xs ++ imapFrom (i + Z.of_nat (List.length xs)) f ys.
Proof.
  induction xs as [|x xs IH]; intros i; simpl.
  - now rewrite Z.add_0_r.
  - rewrite IH. do 3 f_equal. lia.
Qed.

Lemma concat_imapFrom_singleton {A B} (g : A -> B) (xs : list A) :
  forall i, List.concat (imapFrom i (fun _ x => [g x]) xs) = map g xs.
Proof.
  induction xs as [|x xs IH]; intros i; simpl; [reflexivity|].
  now rewrite IH.
Qed.

Lemma concat_imapFrom_map {A B C} (g : B -> C) (h : Z -> A -> list B)
  (xs : list A) :
  forall i,
    List.concat (imapFrom i (fun o x => map g (h o x)) xs)
    = map g (List.concat (imapFrom i h xs)).
Proof.
  induction xs as [|x xs IH]; intros i; simpl; [reflexivity|].
  now rewrite IH, map_app.
Qed.

(** A loop whose body always returns, after appending [f i x], returns
    after appending all of them in order. *)
Lemma forRangeFrom_appends {A} (f : Z -> A -> list Document)
  (body : Z -> A -> Bulk unit) :
  (forall i x b, body i x b = (Done tt, b ++ f i x)) ->
  forall xs i b,
    forRangeFrom i xs body b = (Done tt, b ++ List.concat (imapFrom i f xs)).
Proof.
  intros Hbody xs.
  induction xs as [|x xs IH]; intros i b; simpl.
  - unfold ret. now rewrite app_nil_r.
  - unfold bind. rewrite Hbody, IH, <- app_assoc. reflexivity.
Qed.

Lemma run_serializeBalances (bl : list Balance.t) (b : Buffer) :
  serializeBalances bl b = (Done tt, b ++ map DocBalance bl).
Proof.
  unfold serializeBalances, forRange.
  rewrite (forRangeFrom_appends (fun _ x => [DocBalance x])) by reflexivity.
  now rewrite concat_imapFrom_singleton.
Qed.

(** The balances of the operation metas of one row. *)
Lemma run_balances_of_metas (closeTime : Time) (token : Z -> PagingToken.t)
  (metas : list xdr.OperationMeta) (b : Buffer) :
  forRange metas
    (fun o e =>
       serializeBalances
         (Extract (xdr.OperationMeta_Changes e) closeTime BalanceSourceMeta (token o)))
    b
  = (Done tt, b ++ map DocBalance (metaBalances closeTime token metas)).
Proof.
  unfold forRange, metaBalances, imap.
  rewrite (forRangeFrom_appends
             (fun o e => map DocBalance
                           (Extract (xdr.OperationMeta_Changes e) closeTime
                              BalanceSourceMeta (token o))))
    by (intros; apply run_serializeBalances).
  now rewrite concat_imapFrom_map.
Qed.

Lemma run_balances_of_fees (closeTime : Time) (token : Z -> PagingToken.t)
  (fees : list db.TxFeeHistoryRow) (b : Buffer) :
  forRange fees
    (fun i fee =>
       serializeBalances
         (Extract (db.TxFeeHistoryRow_Changes fee) closeTime BalanceSourceFee (token i)))
    b
  = (Done tt, b ++ map DocBalance (feeBalances closeTime token fees)).
Proof.
  unfold forRange, feeBalances, imap.
  rewrite (forRangeFrom_appends
             (fun i fee => map DocBalance
                             (Extract (db.TxFeeHistoryRow_Changes fee) closeTime
                                BalanceSourceFee (token i))))
    by (intros; apply run_serializeBalances).
  now rewrite concat_imapFrom_map.
Qed.

(** The loop over the operations of one transaction: when every document
    decodes, they are appended in order; the two builders share the body. *)
Lemma run_operations (tx : Transaction.t)
  (results : option (list xdr.OperationResult)) (ops : list xdr.Operation) :
  forall o docs b,
    decodeOperationsFrom tx results o ops = Done docs ->
    forRangeFrom o ops
      (fun o x =>
         (op <- lift (NewOperation tx x (uint8 o)) ;;
          op <- match results with
                | Some rs => (r <- lift (index rs o) ;; ret (AppendResult op r))
                | None => ret op
                end ;;
          SerializeForBulk (DocOperation op))%bulk)
      b
    = (Done tt, b ++ map DocOperation docs).
Proof.
  induction ops as [|x rest IH]; intros o docs b Hdec; simpl in Hdec.
  - inversion Hdec; subst. simpl. unfold ret. now rewrite app_nil_r.
  - unfold decodeOperation in Hdec.
    cbn [forRangeFrom]. unfold bind at 1 2, lift.
    destruct (NewOperation tx x (uint8 o)) as [op|msg]; simpl in Hdec; [|discriminate].
    destruct results as [rs|].
    + unfold bind at 1 2, lift.
      destruct (index rs o) as [r|msg]; simpl in Hdec; [|discriminate].
      unfold ret, bind at 1. unfold SerializeForBulk at 1.
      destruct (decodeOperationsFrom tx (Some rs) (o + 1) rest) as [docs'|msg] eqn:Hrest;
        simpl in Hdec; [|discriminate].
      inversion Hdec; subst.
      rewrite (IH (o + 1) docs') by exact Hrest.
      simpl. now rewrite <- app_assoc.
    + unfold ret, bind at 1. unfold SerializeForBulk at 1.
      destruct (decodeOperationsFrom tx None (o + 1) rest) as [docs'|msg] eqn:Hrest;
        simpl in Hdec; [|discriminate].
      inversion Hdec; subst.
      rewrite (IH (o + 1) docs') by exact Hrest.
      simpl. now rewrite <- app_assoc.
Qed.

End Loops.

(* ================================================================= *)
(** ** BulkMaker and MakeBulk, pass by pass *)

Section Passes.

Import Go es Emitted.

Variable r : db.LedgerHeaderRow.
Variable fees : list db.TxFeeHistoryRow.

Lemma index_middle {A} (pre : list A) (x : A) (post : list A) :
  index (pre ++ x :: post) (Z.of_nat (List.length pre)) = Done x.
Proof.
  unfold index.
  destruct (Z.of_nat (List.length pre) <? 0) eqn:Hneg.
  - apply Z.ltb_lt in Hneg. lia.
  - rewrite Nat2Z.id, nth_error_app2 by lia.
    now rewrite Nat.sub_diag.
Qed.

Lemma run_makeTransactions (txs : list db.TxHistoryRow) (b : Buffer) :
  makeTransactions (NewBulkMaker r txs fees) b
  = (Done tt,
     b ++ map (fun row => DocTransaction (NewTransaction row (closeTimeOf r))) txs).
Proof.
  unfold makeTransactions, forRange. simpl.
  rewrite (forRangeFrom_appends (fun _ t => [DocTransaction t])) by reflexivity.
  now rewrite concat_imapFrom_singleton, map_map.
Qed.

(** The pass over the operations looks the row of each transaction up by
    its index; the transactions were built from the rows, so the lookup
    never misses. *)
Lemma run_operations_pass (txs : list db.TxHistoryRow) :
  forall (rest pre : list db.TxHistoryRow) (opss : list (list Operation.t)) (b : Buffer),
    txs = pre ++ rest ->
    Forall2 (decodes r) rest opss ->
    forRangeFrom (Z.of_nat (List.length pre))
      (map (fun row => NewTransaction row (closeTimeOf r)) rest)
      (fun tIndex t =>
         (row <- lift (index txs tIndex) ;;
          makeOperationsWithResults_operations t (db.Operations row)
            (db.Results row))%bulk)
      b
    = (Done tt, b ++ map DocOperation (List.concat opss)).
Proof.
  induction rest as [|row rest IH]; intros pre opss b Htxs Hall.
  - inversion Hall; subst. simpl. unfold ret. now rewrite app_nil_r.
  - inversion Hall as [|row' docs rest' opss' Hrow Hrest]; subst.
    cbn [map forRangeFrom]. unfold bind at 1 2, lift.
    rewrite index_middle.
    unfold makeOperationsWithResults_operations, forRange.
    rewrite (run_operations _ _ _ 0 docs) by exact Hrow.
    replace (Z.of_nat (List.length pre) + 1)
      with (Z.of_nat (List.length (pre ++ [row])))
      by (rewrite length_app; simpl; lia).
    rewrite (IH (pre ++ [row]) opss') by (try rewrite <- app_assoc; auto).
    simpl. now rewrite map_app, app_assoc.
Qed.

Lemma run_makeOperationsWithResults (txs : list db.TxHistoryRow)
  (opss : list (list Operation.t)) (b : Buffer) :
  Forall2 (decodes r) txs opss ->
  makeOperationsWithResults (NewBulkMaker r txs fees) b
  = (Done tt, b ++ map DocOperation (List.concat opss)).
Proof.
  intros Hall. unfold makeOperationsWithResults, forRange. simpl.
  exact (run_operations_pass txs txs [] opss b eq_refl Hall).
Qed.

(** The pass over the metas always returns. *)
Lemma run_makeBalancesFromMetas_from (m : BulkMaker.t)
  (rows : list db.TxHistoryRow) :
  forall tIndex b,
    makeBalancesFromMetas_from m tIndex rows b
    = (Done tt,
       b ++ map DocBalance
              (BulkMaker_metaBalancesFrom (BulkMaker.seq m) (BulkMaker.closeTime m)
                 tIndex rows)).
Proof.
  induction rows as [|row rest IH]; intros tIndex b; simpl.
  - unfold ret. now rewrite app_nil_r.
  - unfold hasOperationsMeta.
    destruct (makeBalancesFromMetas_metas (db.TxHistoryRow_Meta row))
      as [metas [|]]; simpl.
    + unfold bind, makeBalancesFromMetas_row.
      rewrite (run_balances_of_metas (BulkMaker.closeTime m)
                 (metaToken (BulkMaker.seq m) tIndex)).
      rewrite IH, map_app, app_assoc. reflexivity.
    + unfold ret. now rewrite app_nil_r.
Qed.

Lemma run_makeBalancesFromFeeHistory (m : BulkMaker.t) (b : Buffer) :
  makeBalancesFromFeeHistory m b
  = (Done tt,
     b ++ map DocBalance
            (feeBalances (BulkMaker.closeTime m) (feeToken (BulkMaker.seq m))
               (BulkMaker.fees m))).
Proof.
  unfold makeBalancesFromFeeHistory.
  exact (run_balances_of_fees (BulkMaker.closeTime m) (feeToken (BulkMaker.seq m))
           (BulkMaker.fees m) b).
Qed.

Lemma run_Make (txs : list db.TxHistoryRow) (opss : list (list Operation.t))
  (b : Buffer) :
  Forall2 (decodes r) txs opss ->
  Make (NewBulkMaker r txs fees) b
  = (Done tt, b ++ BulkMaker_documents r txs fees opss).
Proof.
  intros Hall. unfold Make, bind.
  unfold makeLedger at 1, SerializeForBulk at 1.
  rewrite run_makeTransactions.
  rewrite (run_makeOperationsWithResults txs opss) by exact Hall.
  unfold makeBalancesFromMetas. rewrite run_makeBalancesFromMetas_from.
  rewrite run_makeBalancesFromFeeHistory.
  unfold BulkMaker_documents. simpl.
  now rewrite <- !app_assoc.
Qed.

Lemma run_MakeBulk_transaction (row : db.TxHistoryRow) (docs : list Operation.t)
  (b : Buffer) :
  decodes r row docs ->
  MakeBulk_transaction (NewLedgerHeader r) row b
  = (Done tt, b ++ MakeBulk_rowDocuments (NewLedgerHeader r) row docs).
Proof.
  intros Hrow. unfold MakeBulk_transaction, bind.
  unfold SerializeForBulk at 1.
  unfold MakeBulk_operations, forRange.
  rewrite (run_operations _ _ _ 0 docs) by exact Hrow.
  unfold MakeBulk_balances.
  rewrite (run_balances_of_metas (closeTimeOf r)
             (fun o => PagingToken.mk (LedgerHeader.Seq (NewLedgerHeader r))
                         (Transaction.Index (NewTransaction row (closeTimeOf r)))
                         (uint8 (o + 1)) 1)).
  unfold MakeBulk_rowDocuments. simpl.
  now rewrite <- !app_assoc.
Qed.

Lemma run_MakeBulk_transactions (txs : list db.TxHistoryRow) :
  forall (opss : list (list Operation.t)) (i : Z) (b : Buffer),
    Forall2 (decodes r) txs opss ->
    forRangeFrom i txs (fun _ txRow => MakeBulk_transaction (NewLedgerHeader r) txRow) b
    = (Done tt,
       b ++ flat_map (fun p => MakeBulk_rowDocuments (NewLedgerHeader r) (fst p) (snd p))
              (combine txs opss)).
Proof.
  induction txs as [|row rest IH]; intros opss i b Hall.
  - simpl. unfold ret. now rewrite app_nil_r.
  - inversion Hall as [|row' docs rest' opss' Hrow Hrest]; subst.
    cbn [forRangeFrom combine flat_map fst snd]. unfold bind.
    rewrite (run_MakeBulk_transaction row docs) by exact Hrow.
    rewrite (IH opss') by exact Hrest.
    now rewrite <- app_assoc.
Qed.

Lemma run_MakeBulk (txs : list db.TxHistoryRow) (opss : list (list Operation.t))
  (b : Buffer) :
  Forall2 (decodes r) txs opss ->
  MakeBulk r txs fees b = (Done tt, b ++ MakeBulk_documents r txs fees opss).
Proof.
  intros Hall. unfold MakeBulk, bind.
  unfold SerializeForBulk at 1. unfold forRange.
  rewrite (run_MakeBulk_transactions txs opss) by exact Hall.
  unfold MakeBulk_fees.
  rewrite (run_balances_of_fees (closeTimeOf r)
             (fun o => PagingToken.mk (LedgerHeader.Seq (NewLedgerHeader r))
                         (uint8 o) 255 2)).
  unfold MakeBulk_documents. simpl.
  now rewrite <- !app_assoc.
Qed.

End Passes.

(* ================================================================= *)
(** ** The builder: paging tokens, emission order, results, metas *)

(** Every balance of the extractor carries the token, the close time and
    the source tag it was called with. *)
Lemma Extract_stamps (changes : list xdr.LedgerEntryChange) (closeTime : Go.Time)
  (source : es.BalanceSource) (token : es.PagingToken.t) :
  Forall (fun bal => es.Balance.PagingToken bal = token
                     /\ es.Balance.CloseTime bal = closeTime
                     /\ es.Balance.Source bal = source)
         (es.Extract changes closeTime source token).
Proof.
  unfold es.Extract. apply Forall_flat_map, Forall_forall.
  intros [e|e|e] _; try constructor;
    destruct e; simpl; repeat constructor.
Qed.

(** C1: on a ledger of sequence 7 with one transaction and its fee row,
    [MakeBulk] stamps the fee-derived balance with the transaction order 0,
    the 0-based index of the row, where [BulkMaker] stamps it with 1; the
    meta-derived balance gets (7, 1, 1, 1) from both. *)
Theorem MakeBulk_fee_token_is_zero_based :
  Emitted.tokensOf es.BalanceSourceFee
    (snd (es.MakeBulk (Examples.headerRow 7) [Examples.firstRow]
            [Examples.feeRow 1 "GSOURCE" 900] []))
  = [es.PagingToken.mk 7 0 255 2]
  /\ Emitted.tokensOf es.BalanceSourceFee
       (snd (es.Make (es.NewBulkMaker (Examples.headerRow 7) [Examples.firstRow]
                        [Examples.feeRow 1 "GSOURCE" 900]) []))
     = [es.PagingToken.mk 7 1 255 2]
  /\ Emitted.tokensOf es.BalanceSourceMeta
       (snd (es.MakeBulk (Examples.headerRow 7) [Examples.firstRow]
               [Examples.feeRow 1 "GSOURCE" 900] []))
     = [es.PagingToken.mk 7 1 1 1]
  /\ Emitted.tokensOf es.BalanceSourceMeta
       (snd (es.Make (es.NewBulkMaker (Examples.headerRow 7) [Examples.firstRow]
                        [Examples.feeRow 1 "GSOURCE" 900]) []))
     = [es.PagingToken.mk 7 1 1 1].
Proof. vm_compute. repeat split. Qed.

(** C2: on a ledger of two transactions with one operation and one
    changed balance each, and two fee charges, the prescribed order is
    header, transaction, operation, transaction, operation, then the four
    balances.  [MakeBulk] writes the balance of the first transaction before
    the second transaction and its operation, so a balance precedes an
    operation; [BulkMaker] writes both transactions before the first
    operation.  Each keeps the half of the order the other breaks. *)
Theorem builders_emit_out_of_prescribed_order :
  Emitted.prescribedKinds (Examples.headerRow 7) Examples.twoTransactions
    Examples.twoFees
  = [Emitted.KLedgerHeader;
     Emitted.KTransaction; Emitted.KOperation;
     Emitted.KTransaction; Emitted.KOperation;
     Emitted.KBalance; Emitted.KBalance; Emitted.KBalance; Emitted.KBalance]
  /\ fst (es.MakeBulk (Examples.headerRow 7) Examples.twoTransactions
            Examples.twoFees [])
     = Go.Done tt
  /\ map Emitted.kind
       (snd (es.MakeBulk (Examples.headerRow 7) Examples.twoTransactions
               Examples.twoFees []))
     = [Emitted.KLedgerHeader;
        Emitted.KTransaction; Emitted.KOperation; Emitted.KBalance;
        Emitted.KTransaction; Emitted.KOperation; Emitted.KBalance;
        Emitted.KBalance; Emitted.KBalance]
  /\ fst (es.Make (es.NewBulkMaker (Examples.headerRow 7)
                     Examples.twoTransactions Examples.twoFees) [])
     = Go.Done tt
  /\ map Emitted.kind
       (snd (es.Make (es.NewBulkMaker (Examples.headerRow 7)
                        Examples.twoTransactions Examples.twoFees) []))
     = [Emitted.KLedgerHeader;
        Emitted.KTransaction; Emitted.KTransaction;
        Emitted.KOperation; Emitted.KOperation;
        Emitted.KBalance; Emitted.KBalance; Emitted.KBalance; Emitted.KBalance].
Proof. vm_compute. repeat split. Qed.

(** On that ledger neither builder leaves the kinds of documents in the
    prescribed order. *)
Lemma builders_break_prescribed_order :
  map Emitted.kind
    (snd (es.Make (es.NewBulkMaker (Examples.headerRow 7) Examples.twoTransactions
                     Examples.twoFees) []))
  <> Emitted.prescribedKinds (Examples.headerRow 7) Examples.twoTransactions
       Examples.twoFees
  /\ map Emitted.kind
       (snd (es.MakeBulk (Examples.headerRow 7) Examples.twoTransactions
               Examples.twoFees []))
     <> Emitted.prescribedKinds (Examples.headerRow 7) Examples.twoTransactions
          Examples.twoFees.
Proof. split; vm_compute; discriminate. Qed.

(** The documents of a ledger, in full.  When every operation of the
    ledger decodes, [BulkMaker]
    appends the header, then every transaction, then the operations
    transaction by transaction, then the meta-derived balances of the rows
    before the first row without an operations list, then the fee-derived
    balances, so that no balance comes before an operation; [MakeBulk]
    appends the header, then for each transaction the transaction, its
    operations and its meta-derived balances, then the fee-derived
    balances. *)
Theorem builders_emission_order
  (r : db.LedgerHeaderRow) (txs : list db.TxHistoryRow)
  (fees : list db.TxFeeHistoryRow) (opss : list (list es.Operation.t))
  (b : es.Buffer) :
  Forall2 (Emitted.decodes r) txs opss ->
  es.Make (es.NewBulkMaker r txs fees) b
  = (Go.Done tt, b ++ Emitted.BulkMaker_documents r txs fees opss)
  /\ es.MakeBulk r txs fees b
     = (Go.Done tt, b ++ Emitted.MakeBulk_documents r txs fees opss)
  /\ exists structural derived,
       Emitted.BulkMaker_documents r txs fees opss = structural ++ derived
       /\ Forall (fun d => Emitted.kind d <> Emitted.KBalance) structural
       /\ Forall (fun d => Emitted.kind d = Emitted.KBalance) derived.
Proof.
  intros Hall. split; [|split].
  - apply run_Make. exact Hall.
  - apply run_MakeBulk. exact Hall.
  - unfold Emitted.BulkMaker_documents.
    set (h := es.NewLedgerHeader r).
    exists ([es.DocLedgerHeader h]
            ++ map (fun row => es.DocTransaction
                                 (es.NewTransaction row (es.LedgerHeader.CloseTime h))) txs
            ++ map es.DocOperation (List.concat opss)).
    eexists. split; [|split].
    + rewrite <- !app_assoc. reflexivity.
    + apply Forall_app; split; [|apply Forall_app; split].
      * constructor; [discriminate | constructor].
      * apply Forall_map, Forall_forall. intros; discriminate.
      * apply Forall_map, Forall_forall. intros; discriminate.
    + rewrite <- map_app. apply Forall_map, Forall_forall. intros; reflexivity.
Qed.

Lemma builders_emission_order_witness :
  Forall2 (Emitted.decodes (Examples.headerRow 7))
    Examples.twoTransactions (map Examples.operationsOf Examples.twoTransactions)
  /\ (es.Make (es.NewBulkMaker (Examples.headerRow 7) Examples.twoTransactions
                 Examples.twoFees) []
      = (Go.Done tt,
         [] ++ Emitted.BulkMaker_documents (Examples.headerRow 7)
                 Examples.twoTransactions Examples.twoFees
                 (map Examples.operationsOf Examples.twoTransactions))
      /\ es.MakeBulk (Examples.headerRow 7) Examples.twoTransactions Examples.twoFees []
         = (Go.Done tt,
            [] ++ Emitted.MakeBulk_documents (Examples.headerRow 7)
                    Examples.twoTransactions Examples.twoFees
                    (map Examples.operationsOf Examples.twoTransactions))
      /\ exists structural derived,
           Emitted.BulkMaker_documents (Examples.headerRow 7)
             Examples.twoTransactions Examples.twoFees
             (map Examples.operationsOf Examples.twoTransactions)
           = structural ++ derived
           /\ Forall (fun d => Emitted.kind d <> Emitted.KBalance) structural
           /\ Forall (fun d => Emitted.kind d = Emitted.KBalance) derived).
Proof.
  assert (Hall :
    Forall2 (Emitted.decodes (Examples.headerRow 7))
      Examples.twoTransactions (map Examples.operationsOf Examples.twoTransactions)).
  { simpl. repeat constructor. }
  split; [exact Hall|].
  apply (builders_emission_order (Examples.headerRow 7) Examples.twoTransactions
           Examples.twoFees (map Examples.operationsOf Examples.twoTransactions) []).
  exact Hall.
Defined.

(** With no results, every operation document keeps the defaults; with
    results, the document at index [o] takes the result at index [o],
    however many results follow it. *)
Lemma decodeOperation_without_results (tx : es.Transaction.t) (o : Z)
  (x : xdr.Operation) (op : es.Operation.t) :
  Emitted.decodeOperation tx None o x = Go.Done op ->
  es.Operation.Succesful op = true /\ es.Operation.ResultCode op = 0.
Proof.
  unfold Emitted.decodeOperation.
  destruct (es.NewOperation tx x (Go.uint8 o)) as [op'|msg] eqn:Hop; simpl;
    intros Hdone; [|discriminate].
  inversion Hdone; subst. eapply NewOperation_defaults; eauto.
Qed.

Lemma decodeOperation_with_result (tx : es.Transaction.t)
  (rs : list xdr.OperationResult) (o : nat) (x : xdr.Operation)
  (op : es.Operation.t) (res : xdr.OperationResult) :
  es.NewOperation tx x (Go.uint8 (Z.of_nat o)) = Go.Done op ->
  nth_error rs o = Some res ->
  Emitted.decodeOperation tx (Some rs) (Z.of_nat o) x
  = Go.Done (es.AppendResult op res).
Proof.
  intros Hop Hres. unfold Emitted.decodeOperation, Go.index.
  rewrite Hop. simpl.
  destruct (Z.of_nat o <? 0) eqn:Hneg; [apply Z.ltb_lt in Hneg; lia|].
  now rewrite Nat2Z.id, Hres.
Qed.

(** C5: on a transaction of two operations whose result array holds one
    result, both builders panic with an index out of range at the second
    operation, after they wrote the first operation document. *)
Theorem short_results_panic :
  fst (es.MakeBulk (Examples.headerRow 7) [Examples.shortResults] [] [])
  = Go.Panic Go.index_out_of_range
  /\ map Emitted.kind
       (snd (es.MakeBulk (Examples.headerRow 7) [Examples.shortResults] [] []))
     = [Emitted.KLedgerHeader; Emitted.KTransaction; Emitted.KOperation]
  /\ fst (es.Make (es.NewBulkMaker (Examples.headerRow 7) [Examples.shortResults] []) [])
     = Go.Panic Go.index_out_of_range
  /\ map Emitted.kind
       (snd (es.Make (es.NewBulkMaker (Examples.headerRow 7) [Examples.shortResults] [])
               []))
     = [Emitted.KLedgerHeader; Emitted.KTransaction; Emitted.KOperation].
Proof. vm_compute. repeat split. Qed.

Lemma BulkMaker_metaBalancesFrom_stops (seq : Z) (closeTime : Go.Time)
  (row : db.TxHistoryRow) (post : list db.TxHistoryRow) :
  Emitted.hasOperationsMeta row = false ->
  forall pre tIndex,
    Emitted.BulkMaker_metaBalancesFrom seq closeTime tIndex (pre ++ row :: post)
    = Emitted.BulkMaker_metaBalancesFrom seq closeTime tIndex pre.
Proof.
  intros Hrow pre.
  induction pre as [|p pre IH]; intros tIndex; simpl.
  - now rewrite Hrow.
  - destruct (Emitted.hasOperationsMeta p); [|reflexivity].
    now rewrite IH.
Qed.

Lemma combine_middle {A B} (pre : list A) (x : A) (post : list A)
  (pre' : list B) (y : B) (post' : list B) :
  List.length pre = List.length pre' ->
  combine (pre ++ x :: post) (pre' ++ y :: post')
  = combine pre pre' ++ (x, y) :: combine post post'.
Proof.
  revert pre'.
  induction pre as [|a pre IH]; intros [|b pre'] Hlen; simpl in *;
    try discriminate; [reflexivity|].
  f_equal. apply IH. lia.
Qed.

(** C10: let the meta of [row] hold neither a version-1 record nor a
    legacy operations list, in a ledger whose operations all decode.  In
    [BulkMaker] the pass over the metas writes the balances of the rows
    before [row] and nothing for [row] or for a later row, and [Make] still
    ends with all the fee-derived balances.  [MakeBulk] writes the
    transaction and the operations of [row] with no balance, and goes on
    with the rows after it, balances included. *)
Theorem missing_operations_meta
  (r : db.LedgerHeaderRow) (pre post : list db.TxHistoryRow)
  (row : db.TxHistoryRow) (fees : list db.TxFeeHistoryRow)
  (opsPre opsPost : list (list es.Operation.t)) (docs : list es.Operation.t)
  (b : es.Buffer) :
  let h := es.NewLedgerHeader r in
  let closeTime := es.LedgerHeader.CloseTime h in
  let seq := es.LedgerHeader.Seq h in
  xdr.GetV1 (db.TxHistoryRow_Meta row) = None ->
  snd (xdr.GetOperations (db.TxHistoryRow_Meta row)) = false ->
  Forall2 (Emitted.decodes r) pre opsPre ->
  Emitted.decodes r row docs ->
  Forall2 (Emitted.decodes r) post opsPost ->
  es.makeBalancesFromMetas (es.NewBulkMaker r (pre ++ row :: post) fees) b
  = (Go.Done tt,
     b ++ map es.DocBalance (Emitted.BulkMaker_metaBalancesFrom seq closeTime 0 pre))
  /\ es.Make (es.NewBulkMaker r (pre ++ row :: post) fees) b
     = (Go.Done tt,
        b ++ [es.DocLedgerHeader h]
          ++ map (fun row => es.DocTransaction (es.NewTransaction row closeTime))
               (pre ++ row :: post)
          ++ map es.DocOperation (List.concat (opsPre ++ docs :: opsPost))
          ++ map es.DocBalance (Emitted.BulkMaker_metaBalancesFrom seq closeTime 0 pre)
          ++ map es.DocBalance
               (Emitted.feeBalances closeTime (Emitted.feeToken seq) fees))
  /\ es.MakeBulk r (pre ++ row :: post) fees b
     = (Go.Done tt,
        b ++ [es.DocLedgerHeader h]
          ++ flat_map (fun p => Emitted.MakeBulk_rowDocuments h (fst p) (snd p))
               (combine pre opsPre)
          ++ (es.DocTransaction (es.NewTransaction row closeTime)
              :: map es.DocOperation docs)
          ++ flat_map (fun p => Emitted.MakeBulk_rowDocuments h (fst p) (snd p))
               (combine post opsPost)
          ++ map es.DocBalance
               (Emitted.feeBalances closeTime
                  (fun o => es.PagingToken.mk seq (Go.uint8 o) 255 2) fees)).
Proof.
  intros h closeTime seq Hv1 Hops Hpre Hrow Hpost.
  assert (Hno : Emitted.hasOperationsMeta row = false).
  { unfold Emitted.hasOperationsMeta, es.makeBalancesFromMetas_metas.
    now rewrite Hv1. }
  assert (Hmetas :
    es.makeBalancesFromMetas (es.NewBulkMaker r (pre ++ row :: post) fees) b
    = (Go.Done tt,
       b ++ map es.DocBalance (Emitted.BulkMaker_metaBalancesFrom seq closeTime 0 pre))).
  { unfold es.makeBalancesFromMetas.
    rewrite run_makeBalancesFromMetas_from. simpl.
    now rewrite BulkMaker_metaBalancesFrom_stops. }
  assert (Hall : Forall2 (Emitted.decodes r) (pre ++ row :: post)
                   (opsPre ++ docs :: opsPost))
    by (apply Forall2_app; [exact Hpre | constructor; assumption]).
  split; [exact Hmetas|split].
  - rewrite (run_Make r fees (pre ++ row :: post) (opsPre ++ docs :: opsPost))
      by exact Hall.
    unfold Emitted.BulkMaker_documents.
    now rewrite BulkMaker_metaBalancesFrom_stops.
  - rewrite (run_MakeBulk r fees (pre ++ row :: post) (opsPre ++ docs :: opsPost))
      by exact Hall.
    unfold Emitted.MakeBulk_documents.
    rewrite combine_middle by (eapply Forall2_length; eauto).
    rewrite flat_map_app. cbn [flat_map fst snd].
    unfold Emitted.MakeBulk_rowDocuments at 2.
    assert (Hnil : es.MakeBulk_metas (db.TxHistoryRow_Meta row) = []).
    { unfold es.MakeBulk_metas. rewrite Hv1.
      destruct (db.TxHistoryRow_Meta row); simpl in *; try reflexivity; discriminate. }
    rewrite Hnil. unfold Emitted.metaBalances, Emitted.imap. simpl.
    rewrite app_nil_r.
    repeat (rewrite <- app_assoc || rewrite <- app_comm_cons).
    reflexivity.
Qed.

Lemma missing_operations_meta_witness :
  es.makeBalancesFromMetas
    (es.NewBulkMaker (Examples.headerRow 7)
       ([Examples.firstRow] ++ Examples.laterMeta :: [Examples.thirdRow])
       Examples.twoFees) []
  = (Go.Done tt,
     [] ++ map es.DocBalance
             (Emitted.BulkMaker_metaBalancesFrom 7 1000 0 [Examples.firstRow]))
  /\ es.Make
       (es.NewBulkMaker (Examples.headerRow 7)
          ([Examples.firstRow] ++ Examples.laterMeta :: [Examples.thirdRow])
          Examples.twoFees) []
     = (Go.Done tt,
        [] ++ [es.DocLedgerHeader (es.NewLedgerHeader (Examples.headerRow 7))]
           ++ map (fun row => es.DocTransaction (es.NewTransaction row 1000))
                ([Examples.firstRow] ++ Examples.laterMeta :: [Examples.thirdRow])
           ++ map es.DocOperation
                (List.concat
                   ([Examples.operationsOf Examples.firstRow]
                    ++ Examples.operationsOf Examples.laterMeta
                       :: [Examples.operationsOf Examples.thirdRow]))
           ++ map es.DocBalance
                (Emitted.BulkMaker_metaBalancesFrom 7 1000 0 [Examples.firstRow])
           ++ map es.DocBalance
                (Emitted.feeBalances 1000 (Emitted.feeToken 7) Examples.twoFees))
  /\ es.MakeBulk (Examples.headerRow 7)
       ([Examples.firstRow] ++ Examples.laterMeta :: [Examples.thirdRow])
       Examples.twoFees []
     = (Go.Done tt,
        [] ++ [es.DocLedgerHeader (es.NewLedgerHeader (Examples.headerRow 7))]
           ++ flat_map
                (fun p => Emitted.MakeBulk_rowDocuments
                            (es.NewLedgerHeader (Examples.headerRow 7)) (fst p) (snd p))
                (combine [Examples.firstRow] [Examples.operationsOf Examples.firstRow])
           ++ (es.DocTransaction (es.NewTransaction Examples.laterMeta 1000)
               :: map es.DocOperation (Examples.operationsOf Examples.laterMeta))
           ++ flat_map
                (fun p => Emitted.MakeBulk_rowDocuments
                            (es.NewLedgerHeader (Examples.headerRow 7)) (fst p) (snd p))
                (combine [Examples.thirdRow] [Examples.operationsOf Examples.thirdRow])
           ++ map es.DocBalance
                (Emitted.feeBalances 1000
                   (fun o => es.PagingToken.mk 7 (Go.uint8 o) 255 2)
                   Examples.twoFees)).
Proof.
  apply (missing_operations_meta (Examples.headerRow 7) [Examples.firstRow]
           [Examples.thirdRow] Examples.laterMeta Examples.twoFees
           [Examples.operationsOf Examples.firstRow]
           [Examples.operationsOf Examples.thirdRow]
           (Examples.operationsOf Examples.laterMeta) []).
  - reflexivity.
  - reflexivity.
  - repeat constructor.
  - reflexivity.
  - repeat constructor.
Defined.

(* ================================================================= *)
(** ** Steps that only append *)

Section Appends.

Import Go es Invariants.

Variable P : Document -> Prop.

Lemma appends_ret {A} (a : A) : appends P (ret a).
Proof.
  exists (Done a), []. split; [constructor|].
  intros b. unfold ret. now rewrite app_nil_r.
Qed.

Lemma appends_lift {A} (x : outcome A) : appends P (lift x).
Proof.
  exists x, []. split; [constructor|].
  intros b. unfold lift. now rewrite app_nil_r.
Qed.

Lemma appends_SerializeForBulk (d : Document) :
  P d -> appends P (SerializeForBulk d).
Proof.
  intros Hd. exists (Done tt), [d]. split; [now repeat constructor|].
  reflexivity.
Qed.

Lemma appends_bind {A B} (m : Bulk A) (k : A -> Bulk B) :
  appends P m -> (forall a, appends P (k a)) -> appends P (bind m k).
Proof.
  intros (o & docs & Hdocs & Hm) Hk.
  destruct o as [a|msg].
  - destruct (Hk a) as (o' & docs' & Hdocs' & Hka).
    exists o', (docs ++ docs'). split; [now apply Forall_app|].
    intros b. unfold bind. rewrite Hm, Hka, app_assoc. reflexivity.
  - exists (Panic msg), docs. split; [exact Hdocs|].
    intros b. unfold bind. now rewrite Hm.
Qed.

Lemma appends_forRangeFrom {A} (body : Z -> A -> Bulk unit) (xs : list A) :
  (forall i x, appends P (body i x)) ->
  forall i, appends P (forRangeFrom i xs body).
Proof.
  intros Hbody.
  induction xs as [|x xs IH]; intros i; simpl.
  - apply appends_ret.
  - apply appends_bind; [apply Hbody | intros _; apply IH].
Qed.

Lemma appends_serializeBalances (bl : list Balance.t) :
  Forall (fun bal => P (DocBalance bal)) bl -> appends P (serializeBalances bl).
Proof.
  intros Hbl. exists (Done tt), (map DocBalance bl).
  split; [now apply Forall_map | apply run_serializeBalances].
Qed.

(** The loop over the operations of a transaction, for the two builders. *)
Lemma appends_operations (tx : Transaction.t) (ops : list xdr.Operation)
  (results : option (list xdr.OperationResult)) :
  (forall op, P (DocOperation op)) ->
  appends P (MakeBulk_operations tx ops results).
Proof.
  intros Hop. unfold MakeBulk_operations, forRange.
  apply appends_forRangeFrom. intros o x.
  apply appends_bind; [apply appends_lift|]. intros op.
  apply appends_bind.
  - destruct results as [rs|]; [|apply appends_ret].
    apply appends_bind; [apply appends_lift | intros r; apply appends_ret].
  - intros op'. apply appends_SerializeForBulk, Hop.
Qed.

End Appends.

Section Follows.

Import Go es Invariants.

Variable r : db.LedgerHeaderRow.

Lemma follows_meta_balances (tIndex o : Z) (changes : list xdr.LedgerEntryChange) :
  0 <= tIndex < 256 ->
  Forall (fun bal => follows (db.LedgerHeaderRow_LedgerSeq r)
                       (db.LedgerHeaderRow_CloseTime r) (DocBalance bal))
    (Extract changes (db.LedgerHeaderRow_CloseTime r) BalanceSourceMeta
       (PagingToken.mk (db.LedgerHeaderRow_LedgerSeq r) tIndex (uint8 (o + 1)) 1)).
Proof.
  intros Ht.
  eapply Forall_impl; [|apply Extract_stamps].
  intros bal (Htok & Hct & Hsrc). simpl.
  rewrite Htok, Hct, Hsrc. simpl.
  pose proof (uint8_range (o + 1)). repeat split; lia.
Qed.

Lemma follows_fee_balances (tIndex : Z) (changes : list xdr.LedgerEntryChange) :
  0 <= tIndex < 256 ->
  Forall (fun bal => follows (db.LedgerHeaderRow_LedgerSeq r)
                       (db.LedgerHeaderRow_CloseTime r) (DocBalance bal))
    (Extract changes (db.LedgerHeaderRow_CloseTime r) BalanceSourceFee
       (PagingToken.mk (db.LedgerHeaderRow_LedgerSeq r) tIndex 255 2)).
Proof.
  intros Ht.
  eapply Forall_impl; [|apply Extract_stamps].
  intros bal (Htok & Hct & Hsrc). simpl.
  rewrite Htok, Hct, Hsrc. simpl. repeat split; lia.
Qed.

Lemma appends_MakeBulk_rest (txs : list db.TxHistoryRow)
  (fees : list db.TxFeeHistoryRow) :
  appends (follows (db.LedgerHeaderRow_LedgerSeq r) (db.LedgerHeaderRow_CloseTime r))
    (bind (forRange txs (fun _ txRow => MakeBulk_transaction (NewLedgerHeader r) txRow))
       (fun _ => MakeBulk_fees (NewLedgerHeader r) fees)).
Proof.
  apply appends_bind.
  - unfold forRange. apply appends_forRangeFrom. intros _ row.
    unfold MakeBulk_transaction.
    apply appends_bind; [now apply appends_SerializeForBulk|]. intros _.
    apply appends_bind; [now apply appends_operations|]. intros _.
    unfold MakeBulk_balances, forRange.
    apply appends_forRangeFrom. intros o meta.
    apply appends_serializeBalances.
    apply follows_meta_balances. unfold NewTransaction. simpl.
    apply uint8_range.
  - intros _. unfold MakeBulk_fees, forRange.
    apply appends_forRangeFrom. intros o fee.
    apply appends_serializeBalances.
    apply follows_fee_balances, uint8_range.
Qed.

Lemma appends_makeBalancesFromMetas_from (m : BulkMaker.t)
  (rows : list db.TxHistoryRow) :
  BulkMaker.seq m = db.LedgerHeaderRow_LedgerSeq r ->
  BulkMaker.closeTime m = db.LedgerHeaderRow_CloseTime r ->
  forall tIndex,
    appends (follows (db.LedgerHeaderRow_LedgerSeq r) (db.LedgerHeaderRow_CloseTime r))
      (makeBalancesFromMetas_from m tIndex rows).
Proof.
  intros Hseq Hct.
  induction rows as [|row rest IH]; intros tIndex; simpl.
  - apply appends_ret.
  - destruct (makeBalancesFromMetas_metas (db.TxHistoryRow_Meta row))
      as [metas [|]]; simpl; [|apply appends_ret].
    apply appends_bind; [|intros _; apply IH].
    unfold makeBalancesFromMetas_row, forRange.
    apply appends_forRangeFrom. intros o e.
    apply appends_serializeBalances.
    rewrite Hseq, Hct. apply follows_meta_balances, uint8_range.
Qed.

Lemma appends_Make_rest (txs : list db.TxHistoryRow)
  (fees : list db.TxFeeHistoryRow) :
  appends (follows (db.LedgerHeaderRow_LedgerSeq r) (db.LedgerHeaderRow_CloseTime r))
    (bind (makeTransactions (NewBulkMaker r txs fees))
       (fun _ =>
          bind (makeOperationsWithResults (NewBulkMaker r txs fees))
            (fun _ =>
               bind (makeBalancesFromMetas (NewBulkMaker r txs fees))
                 (fun _ => makeBalancesFromFeeHistory (NewBulkMaker r txs fees))))).
Proof.
  apply appends_bind.
  - unfold makeTransactions, forRange. apply appends_forRangeFrom.
    intros _ t. now apply appends_SerializeForBulk.
  - intros _. apply appends_bind.
    + unfold makeOperationsWithResults, forRange. apply appends_forRangeFrom.
      intros tIndex t.
      apply appends_bind; [apply appends_lift|]. intros row.
      now apply (appends_operations _ t (db.Operations row) (db.Results row)).
    + intros _. apply appends_bind.
      * unfold makeBalancesFromMetas.
        now apply appends_makeBalancesFromMetas_from.
      * intros _. unfold makeBalancesFromFeeHistory, forRange.
        apply appends_forRangeFrom. intros o fee.
        apply appends_serializeBalances. simpl.
        apply follows_fee_balances, uint8_range.
Qed.

End Follows.

(** Whatever the rows hold, and whether or not it panics, each builder
    appends to the buffer without reading it: the header of the ledger
    first, then documents among which there is no second header, and the
    outcome and the documents are the same for every buffer. *)
Theorem builders_append_header_first
  (r : db.LedgerHeaderRow) (txs : list db.TxHistoryRow)
  (fees : list db.TxFeeHistoryRow) :
  (exists o docs,
     Forall (fun d => Emitted.kind d <> Emitted.KLedgerHeader) docs
     /\ forall b,
          es.MakeBulk r txs fees b
          = (o, b ++ es.DocLedgerHeader (es.NewLedgerHeader r) :: docs))
  /\ (exists o docs,
        Forall (fun d => Emitted.kind d <> Emitted.KLedgerHeader) docs
        /\ forall b,
             es.Make (es.NewBulkMaker r txs fees) b
             = (o, b ++ es.DocLedgerHeader (es.NewLedgerHeader r) :: docs)).
Proof.
  assert (Hkind : forall d,
            Invariants.follows (db.LedgerHeaderRow_LedgerSeq r)
              (db.LedgerHeaderRow_CloseTime r) d ->
            Emitted.kind d <> Emitted.KLedgerHeader).
  { intros [h|t|op|bal] Hd; simpl in *; [contradiction | discriminate ..]. }
  split.
  - destruct (appends_MakeBulk_rest r txs fees) as (o & docs & Hdocs & Hrun).
    exists o, docs. split; [eapply Forall_impl; eauto|].
    intros b. unfold es.MakeBulk.
    unfold es.bind at 1. unfold es.SerializeForBulk at 1.
    rewrite Hrun, <- app_assoc. reflexivity.
  - destruct (appends_Make_rest r txs fees) as (o & docs & Hdocs & Hrun).
    exists o, docs. split; [eapply Forall_impl; eauto|].
    intros b. unfold es.Make.
    unfold es.bind at 1. unfold es.makeLedger at 1, es.SerializeForBulk at 1.
    rewrite Hrun, <- app_assoc. reflexivity.
Qed.

(** The two buffers built from the empty one, document by document. *)
Lemma stamped_buffers
  (r : db.LedgerHeaderRow) (txs : list db.TxHistoryRow)
  (fees : list db.TxFeeHistoryRow) :
  Forall (fun d => d = es.DocLedgerHeader (es.NewLedgerHeader r)
                   \/ Invariants.follows (db.LedgerHeaderRow_LedgerSeq r)
                        (db.LedgerHeaderRow_CloseTime r) d)
    (snd (es.MakeBulk r txs fees []))
  /\ Forall (fun d => d = es.DocLedgerHeader (es.NewLedgerHeader r)
                      \/ Invariants.follows (db.LedgerHeaderRow_LedgerSeq r)
                           (db.LedgerHeaderRow_CloseTime r) d)
       (snd (es.Make (es.NewBulkMaker r txs fees) [])).
Proof.
  split.
  - destruct (appends_MakeBulk_rest r txs fees) as (o & docs & Hdocs & Hrun).
    unfold es.MakeBulk.
    unfold es.bind at 1. unfold es.SerializeForBulk at 1.
    rewrite Hrun. simpl.
    constructor; [now left|].
    eapply Forall_impl; [|exact Hdocs]. intros d Hd. now right.
  - destruct (appends_Make_rest r txs fees) as (o & docs & Hdocs & Hrun).
    unfold es.Make.
    unfold es.bind at 1. unfold es.makeLedger at 1, es.SerializeForBulk at 1.
    rewrite Hrun. simpl.
    constructor; [now left|].
    eapply Forall_impl; [|exact Hdocs]. intros d Hd. now right.
Qed.

(** Any document either builder leaves in an empty buffer, on any input,
    is the header of the ledger or a document that may follow it: for a
    balance, the sequence and the close time of the ledger, a transaction
    order of eight bits, and the auxiliary order 1 (metas) or the auxiliary
    order 2 with the operation order 255 (fee history). *)
Theorem builders_stamp_balances
  (r : db.LedgerHeaderRow) (txs : list db.TxHistoryRow)
  (fees : list db.TxFeeHistoryRow) (d : es.Document) :
  In d (snd (es.MakeBulk r txs fees []))
  \/ In d (snd (es.Make (es.NewBulkMaker r txs fees) [])) ->
  d = es.DocLedgerHeader (es.NewLedgerHeader r)
  \/ Invariants.follows (db.LedgerHeaderRow_LedgerSeq r)
       (db.LedgerHeaderRow_CloseTime r) d.
Proof.
  intros Hin.
  destruct (stamped_buffers r txs fees) as [H1 H2].
  rewrite Forall_forall in H1, H2.
  destruct Hin; auto.
Qed.

(** A balance from the metas and a balance from the fee history, written
    by the same builder for the same ledger, never carry the same paging
    token. *)
Theorem balances_of_two_sources_differ_in_token
  (r : db.LedgerHeaderRow) (txs : list db.TxHistoryRow)
  (fees : list db.TxFeeHistoryRow) (out : es.Buffer) (bal1 bal2 : es.Balance.t) :
  out = snd (es.MakeBulk r txs fees [])
  \/ out = snd (es.Make (es.NewBulkMaker r txs fees) []) ->
  In (es.DocBalance bal1) out ->
  In (es.DocBalance bal2) out ->
  es.Balance.Source bal1 <> es.Balance.Source bal2 ->
  es.Balance.PagingToken bal1 <> es.Balance.PagingToken bal2.
Proof.
  intros Hout Hin1 Hin2 Hsrc Htok.
  assert (Hall :
    Forall (fun d => d = es.DocLedgerHeader (es.NewLedgerHeader r)
                     \/ Invariants.follows (db.LedgerHeaderRow_LedgerSeq r)
                          (db.LedgerHeaderRow_CloseTime r) d) out).
  { destruct Hout; subst out; apply stamped_buffers. }
  rewrite Forall_forall in Hall.
  destruct (Hall _ Hin1) as [Habs|H1]; [discriminate|].
  destruct (Hall _ Hin2) as [Habs|H2]; [discriminate|].
  simpl in H1, H2. rewrite Htok in H1.
  destruct (es.Balance.Source bal1), (es.Balance.Source bal2);
    try (now apply Hsrc); lia.
Qed.

(* ================================================================= *)
(** ** The export command, on every input *)

Section ExecuteRuns.

Import commands.

Variable c : Collaborators.

(** The buffer after the builder ran on the records [metas] in turn. *)
Lemma Execute_stream_returns (first last : Z) (metas : list LedgerCloseMeta) :
  Forall (fun meta =>
            keeps first last meta = true ->
            forall b, fst (SerializeLedgerFromHistory c meta b) = Go.Done tt) metas ->
  forall b events,
    Execute_stream c first last metas b events
    = (Go.Done tt,
       fold_left (fun b meta => snd (SerializeLedgerFromHistory c meta b))
         (filter (keeps first last) metas) b,
       events ++ map (fun m => EvSerializeLedger (Go.int (LedgerCloseMeta_LedgerSeq m)))
                   (filter (keeps first last) metas)).
Proof.
  induction metas as [|meta rest IH]; intros Hall b events; simpl.
  - now rewrite app_nil_r.
  - inversion Hall as [|meta' rest' Hmeta Hrest]; subst.
    assert (Hk : keeps first last meta
                 = negb ((Go.int (LedgerCloseMeta_LedgerSeq meta) <? first)
                         || (Go.int (LedgerCloseMeta_LedgerSeq meta) >? last)))
      by reflexivity.
    rewrite Hk in *.
    destruct ((Go.int (LedgerCloseMeta_LedgerSeq meta) <? first)
              || (Go.int (LedgerCloseMeta_LedgerSeq meta) >? last)); simpl.
    + now apply IH.
    + specialize (Hmeta eq_refl b).
      destruct (SerializeLedgerFromHistory c meta b) as [[[]|msg] b1];
        simpl in Hmeta; [|discriminate].
      rewrite (IH Hrest). simpl. now rewrite <- app_assoc.
Qed.

(** The loop stops at the first record on which the builder panics. *)
Lemma Execute_stream_panics (first last : Z) (pre : list LedgerCloseMeta)
  (meta : LedgerCloseMeta) (post : list LedgerCloseMeta) (msg : string) :
  Forall (fun meta =>
            keeps first last meta = true ->
            forall b, fst (SerializeLedgerFromHistory c meta b) = Go.Done tt) pre ->
  keeps first last meta = true ->
  (forall b, fst (SerializeLedgerFromHistory c meta b) = Go.Panic msg) ->
  forall b events,
    exists b',
      Execute_stream c first last (pre ++ meta :: post) b events
      = (Go.Panic msg, b',
         events ++ map (fun m => EvSerializeLedger (Go.int (LedgerCloseMeta_LedgerSeq m)))
                     (filter (keeps first last) pre ++ [meta])).
Proof.
  intros Hpre Hkeep Hpanic.
  induction pre as [|p pre IH]; intros b events; simpl.
  - unfold keeps in Hkeep. cbn zeta in Hkeep.
    apply negb_true_iff in Hkeep. rewrite Hkeep.
    specialize (Hpanic b).
    destruct (SerializeLedgerFromHistory c meta b) as [[u|msg'] b1];
      simpl in Hpanic; [discriminate|].
    inversion Hpanic; subst. now exists b1.
  - inversion Hpre as [|p' pre' Hp Hrest]; subst.
    assert (Hk : keeps first last p
                 = negb ((Go.int (LedgerCloseMeta_LedgerSeq p) <? first)
                         || (Go.int (LedgerCloseMeta_LedgerSeq p) >? last)))
      by reflexivity.
    rewrite Hk in *.
    destruct ((Go.int (LedgerCloseMeta_LedgerSeq p) <? first)
              || (Go.int (LedgerCloseMeta_LedgerSeq p) >? last)); simpl.
    + now apply IH.
    + specialize (Hp eq_refl b).
      destruct (SerializeLedgerFromHistory c p b) as [[[]|msg'] b1];
        simpl in Hp; [|discriminate].
      destruct (IH Hrest b1
                  (events ++ [EvSerializeLedger (Go.int (LedgerCloseMeta_LedgerSeq p))]))
        as (b' & Hrun).
      exists b'. rewrite Hrun. simpl. now rewrite <- app_assoc.
Qed.

End ExecuteRuns.

(** The run of [Execute] when the builder returns on every kept record. *)
Lemma Execute_runs
  (c : commands.Collaborators) (cmd : commands.ExportCommand) :
  let first := commands.Start (commands.Config cmd) in
  let last := Go.add first (commands.Count (commands.Config cmd)) in
  let kept := filter (commands.keeps first last) (commands.StreamLedgers c first last) in
  let b := fold_left (fun b meta => snd (commands.SerializeLedgerFromHistory c meta b))
             kept [] in
  commands.Count (commands.Config cmd) <> 0 ->
  Forall (fun meta => forall b,
            fst (commands.SerializeLedgerFromHistory c meta b) = Go.Done tt) kept ->
  commands.Execute c cmd
  = (commands.EvStreamLedgers first last
     :: map (fun m => commands.EvSerializeLedger
                        (Go.int (commands.LedgerCloseMeta_LedgerSeq m))) kept
     ++ commands.EvBulkInsert b
     :: (if commands.BulkInsert c 0%nat b then []
         else [commands.EvFatal "Cannot bulk insert"]),
     if commands.BulkInsert c 0%nat b then commands.Returned else commands.Fatal).
Proof.
  intros first last kept b Hcount Hser.
  unfold commands.Execute.
  apply Z.eqb_neq in Hcount. rewrite Hcount.
  rewrite (Execute_stream_returns c).
  2:{ apply Forall_forall. intros meta Hin Hkeep b0.
      rewrite Forall_forall in Hser. apply Hser.
      apply filter_In. split; assumption. }
  fold first last kept b.
  destruct (commands.BulkInsert c 0%nat b); simpl;
    repeat (rewrite <- app_assoc; simpl); reflexivity.
Qed.

(** With a count other than zero and a builder that returns on every
    record of the range, [Execute] opens the stream once, serialises the
    records whose sequence lies between the start and start + count, both
    included, in the order of the stream, submits the buffer they produce
    exactly once and never sleeps; it returns when the sink accepts and ends
    in [log.Fatal] when it rejects. *)
Theorem Execute_trace
  (c : commands.Collaborators) (cmd : commands.ExportCommand) :
  let first := commands.Start (commands.Config cmd) in
  let last := Go.add first (commands.Count (commands.Config cmd)) in
  let kept := filter (commands.keeps first last) (commands.StreamLedgers c first last) in
  let b := fold_left (fun b meta => snd (commands.SerializeLedgerFromHistory c meta b))
             kept [] in
  commands.Count (commands.Config cmd) <> 0 ->
  Forall (fun meta => forall b,
            fst (commands.SerializeLedgerFromHistory c meta b) = Go.Done tt) kept ->
  commands.Execute c cmd
  = (commands.EvStreamLedgers first last
     :: map (fun m => commands.EvSerializeLedger
                        (Go.int (commands.LedgerCloseMeta_LedgerSeq m))) kept
     ++ commands.EvBulkInsert b
     :: (if commands.BulkInsert c 0%nat b then []
         else [commands.EvFatal "Cannot bulk insert"]),
     if commands.BulkInsert c 0%nat b then commands.Returned else commands.Fatal).
Proof. exact (Execute_runs c cmd). Qed.

(** When the builder panics on a record of the range, [Execute] ends with
    that panic right after the record: the records after it are not
    serialised and nothing is submitted. *)
Theorem Execute_panics_without_submitting
  (c : commands.Collaborators) (cmd : commands.ExportCommand)
  (pre post : list commands.LedgerCloseMeta) (meta : commands.LedgerCloseMeta)
  (msg : string) :
  let first := commands.Start (commands.Config cmd) in
  let last := Go.add first (commands.Count (commands.Config cmd)) in
  commands.Count (commands.Config cmd) <> 0 ->
  commands.StreamLedgers c first last = pre ++ meta :: post ->
  Forall (fun m => forall b,
            fst (commands.SerializeLedgerFromHistory c m b) = Go.Done tt) pre ->
  commands.keeps first last meta = true ->
  (forall b, fst (commands.SerializeLedgerFromHistory c meta b) = Go.Panic msg) ->
  commands.Execute c cmd
  = (commands.EvStreamLedgers first last
     :: map (fun m => commands.EvSerializeLedger
                        (Go.int (commands.LedgerCloseMeta_LedgerSeq m)))
          (filter (commands.keeps first last) pre ++ [meta]),
     commands.Panicked msg)
  /\ commands.submissions (fst (commands.Execute c cmd)) = 0%nat.
Proof.
  intros first last Hcount Hstream Hpre Hkeep Hpanic.
  assert (Hrun :
    commands.Execute c cmd
    = (commands.EvStreamLedgers first last
       :: map (fun m => commands.EvSerializeLedger
                          (Go.int (commands.LedgerCloseMeta_LedgerSeq m)))
            (filter (commands.keeps first last) pre ++ [meta]),
       commands.Panicked msg)).
  { unfold commands.Execute.
    apply Z.eqb_neq in Hcount. rewrite Hcount.
    fold first last. rewrite Hstream.
    destruct (Execute_stream_panics c first last pre meta post msg) with
      (b := @nil es.Document) (events := [commands.EvStreamLedgers first last])
      as (b' & Hloop); auto.
    { eapply Forall_impl; [|exact Hpre]. intros m Hm _. exact Hm. }
    rewrite Hloop. reflexivity. }
  split; [exact Hrun|].
  rewrite Hrun. unfold commands.submissions. simpl.
  rewrite map_app, filter_app. simpl.
  assert (Hnone : forall ms,
    filter commands.isBulkInsert
      (map (fun m => commands.EvSerializeLedger
                       (Go.int (commands.LedgerCloseMeta_LedgerSeq m))) ms) = []).
  { induction ms; simpl; auto. }
  now rewrite Hnone.
Qed.

(** [index] against a sink that rejects the next [n] calls and accepts
    the one after them, with [n] retries left under the ceiling: it submits
    the same buffer [n + 1] times, sleeps between 5 and 14 seconds after
    each rejection, and returns. *)
Theorem index_returns_once_accepted
  (c : commands.Collaborators) (cmd : commands.ExportCommand) (b : es.Buffer)
  (n : nat) (retry : Z) (calls draws extra : nat) :
  (forall k, (k < n)%nat -> commands.BulkInsert c (calls + k) b = false) ->
  commands.BulkInsert c (calls + n) b = true ->
  Z.of_nat n <= commands.RetryCount (commands.Config cmd) + 1 - retry ->
  - 2 ^ 63 <= retry ->
  commands.RetryCount (commands.Config cmd) < 2 ^ 63 - 1 ->
  exists events,
    commands.index (S n + extra) c cmd b retry calls draws
    = Some (events, commands.Returned)
    /\ commands.submissions events = S n
    /\ List.length (filter commands.isSleep events) = n
    /\ Forall (commands.retryEvent b) events.
Proof.
  revert retry calls draws.
  induction n as [|n IH]; intros retry calls draws Hfail Hok Hleft Hlo Hceil.
  - exists [commands.EvBulkInsert b].
    simpl. rewrite Nat.add_0_r in Hok. rewrite Hok. simpl.
    repeat split. repeat constructor.
  - assert (Hfirst : commands.BulkInsert c calls b = false).
    { rewrite <- (Nat.add_0_r calls). apply Hfail. lia. }
    assert (Hle : (retry >? commands.RetryCount (commands.Config cmd)) = false)
      by (rewrite Z.gtb_ltb; apply Z.ltb_ge; lia).
    destruct (IH (retry + 1) (S calls) (S draws)) as (events & Hrun & Hsub & Hsleep & Hall).
    + intros k Hk. replace (S calls + k)%nat with (calls + S k)%nat by lia.
      apply Hfail. lia.
    + replace (S calls + n)%nat with (calls + S n)%nat by lia. exact Hok.
    + lia.
    + lia.
    + exact Hceil.
    + exists (commands.EvBulkInsert b
              :: commands.EvSleep (commands.Intn c draws 10 + 5) :: events).
      change (S (S n) + extra)%nat with (S (S n + extra)).
      cbn [commands.index]. rewrite Hfirst. cbn [negb]. rewrite Hle.
      unfold Go.add. rewrite int_id by lia. rewrite Hrun.
      repeat split.
      * unfold commands.submissions in *. simpl. now rewrite Hsub.
      * simpl. now rewrite Hsleep.
      * constructor; [reflexivity|]. constructor; [|exact Hall].
        simpl. unfold commands.Intn.
        pose proof (Z.mod_pos_bound (commands.RandSource c draws) 10 ltac:(lia)). lia.
Qed.

(** The run of [index] against a sink that rejects every call, event by
    event. *)
Lemma index_failing_trace
  (c : commands.Collaborators) (cmd : commands.ExportCommand) (b : es.Buffer) :
  (forall k x, commands.BulkInsert c k x = false) ->
  commands.RetryCount (commands.Config cmd) < 2 ^ 63 - 1 ->
  forall (n : nat) (retry : Z) (calls draws extra : nat),
    - 2 ^ 63 <= retry ->
    commands.RetryCount (commands.Config cmd) + 1 - retry = Z.of_nat n ->
    exists events,
      commands.index (S n + extra) c cmd b retry calls draws
      = Some (events, commands.Fatal)
      /\ events
         = flat_map (fun k => [commands.EvBulkInsert b;
                               commands.EvSleep (commands.Intn c k 10 + 5)])
             (seq draws n)
           ++ [commands.EvBulkInsert b;
               commands.EvFatal "Retries for bulk failed, aborting"]
      /\ commands.submissions events = S n
      /\ List.length (filter commands.isSleep events) = n
      /\ Forall (commands.retryEvent b) events.
Proof.
  intros Hsink Hceil n.
  induction n as [|n IH]; intros retry calls draws extra Hlo Hn.
  - exists [commands.EvBulkInsert b;
            commands.EvFatal "Retries for bulk failed, aborting"].
    simpl. rewrite Hsink. simpl.
    assert (Hgt : (retry >? commands.RetryCount (commands.Config cmd)) = true)
      by (rewrite Z.gtb_ltb; apply Z.ltb_lt; lia).
    rewrite Hgt. repeat split. repeat constructor.
  - assert (Hle : (retry >? commands.RetryCount (commands.Config cmd)) = false)
      by (rewrite Z.gtb_ltb; apply Z.ltb_ge; lia).
    destruct (IH (retry + 1) (S calls) (S draws) extra)
      as (events & Hrun & Hevents & Hcount & Hsleeps & Hall); [lia | lia |].
    exists (commands.EvBulkInsert b
            :: commands.EvSleep (commands.Intn c draws 10 + 5) :: events).
    change (S (S n) + extra)%nat with (S (S n + extra)).
    cbn [commands.index]. rewrite Hsink. cbn [negb]. rewrite Hle.
    unfold Go.add. rewrite int_id by lia. rewrite Hrun.
    split; [reflexivity|]. split; [|split; [|split]].
    + rewrite Hevents. reflexivity.
    + unfold commands.submissions in *. simpl. now rewrite Hcount.
    + simpl. now rewrite Hsleeps.
    + constructor; [reflexivity|]. constructor; [|exact Hall].
      simpl. unfold commands.Intn.
      pose proof (Z.mod_pos_bound (commands.RandSource c draws) 10 ltac:(lia)). lia.
Qed.

(** [index] against a sink that rejects every call, started at the retry
    number [retry] with [n] = RetryCount + 1 - retry retry numbers left: its
    events are, [n] times over, a submission of the buffer followed by a
    sleep of 5 + rand.Intn(10) seconds, then one last submission and
    [log.Fatal].  It submits the same buffer [n + 1] times, sleeps [n] times
    (after every submission but the last), each time between 5 and 14
    seconds, and ends in [log.Fatal]. *)
Theorem index_gives_up_past_ceiling
  (c : commands.Collaborators) (cmd : commands.ExportCommand) (b : es.Buffer)
  (n : nat) (retry : Z) (calls draws extra : nat) :
  (forall k x, commands.BulkInsert c k x = false) ->
  commands.RetryCount (commands.Config cmd) < 2 ^ 63 - 1 ->
  - 2 ^ 63 <= retry ->
  commands.RetryCount (commands.Config cmd) + 1 - retry = Z.of_nat n ->
  exists events,
    commands.index (S n + extra) c cmd b retry calls draws
    = Some (events, commands.Fatal)
    /\ events
       = flat_map (fun k => [commands.EvBulkInsert b;
                             commands.EvSleep (commands.Intn c k 10 + 5)])
           (seq draws n)
         ++ [commands.EvBulkInsert b;
             commands.EvFatal "Retries for bulk failed, aborting"]
    /\ commands.submissions events = S n
    /\ List.length (filter commands.isSleep events) = n
    /\ Forall (commands.retryEvent b) events.
Proof.
  intros Hsink Hceil Hlo Hn.
  exact (index_failing_trace c cmd b Hsink Hceil n retry calls draws extra Hlo Hn).
Qed.

(** [blockCount] with a positive batch size and a count that is not
    negative: the number of batches that cover the count, the last one
    possibly short. *)
Theorem blockCount_covers
  (cmd : commands.ExportCommand) (count : Z) :
  0 < commands.BatchSize (commands.Config cmd) ->
  0 <= count < 2 ^ 63 ->
  exists blocks,
    commands.blockCount cmd count = Go.Done blocks
    /\ (blocks - 1) * commands.BatchSize (commands.Config cmd) < count
        <= blocks * commands.BatchSize (commands.Config cmd).
Proof.
  intros Hbatch Hcount.
  set (B := commands.BatchSize (commands.Config cmd)) in *.
  pose proof (Z.quot_rem' count B) as Hqr.
  pose proof (Z.rem_bound_pos count B ltac:(lia) Hbatch) as Hrem.
  pose proof (Z.quot_pos count B ltac:(lia) Hbatch) as Hquot.
  assert (Hq : Z.quot count B <= count) by nia.
  unfold commands.blockCount, Go.div, Go.rem. fold B.
  assert (HB : (B =? 0) = false) by (apply Z.eqb_neq; lia).
  rewrite HB. simpl. rewrite int_id by lia.
  destruct (Z.rem count B >? 0) eqn:Hpos.
  - rewrite Z.gtb_ltb in Hpos. apply Z.ltb_lt in Hpos.
    assert (Hq1 : Z.quot count B + 1 <= count) by nia.
    exists (Z.quot count B + 1). unfold Go.add. rewrite int_id by lia.
    split; [reflexivity | nia].
  - rewrite Z.gtb_ltb in Hpos. apply Z.ltb_ge in Hpos.
    exists (Z.quot count B). split; [reflexivity | nia].
Qed.

(* ================================================================= *)
(** ** The decoder, on every operation *)

Section DecoderFacts.

Import es.

(** The shared fields, whatever the kind. *)
Lemma NewOperation_shared (t : Transaction.t) (o : xdr.Operation) (n : Z)
  (op : Operation.t) :
  NewOperation t o n = Go.Done op ->
  Operation.TxID op = Transaction.ID t
  /\ Operation.TxIndex op = Transaction.Index t
  /\ Operation.Index op = n
  /\ Operation.Seq op = Transaction.Seq t
  /\ Operation.Order op = (Transaction.Order t ++ ":" ++ Go.itoa n)%string
  /\ Operation.CloseTime op = Transaction.CloseTime t
  /\ Operation.TxSourceAccountID op = Transaction.SourceAccountID t
  /\ Operation.Type_ op
     = xdr.OperationType_String (xdr.Body_Type (xdr.Operation_Body o))
  /\ Operation.SourceAccountID op
     = match xdr.Operation_SourceAccount o with
       | Some a => a
       | None => Transaction.SourceAccountID t
       end
  /\ Operation.Memo op = Transaction.Memo t.
Proof.
  unfold NewOperation.
  destruct (xdr.Operation_SourceAccount o) as [a|];
    destruct (xdr.Operation_Body o) as [b|b|b|b|b|b|tag]; intros Hop;
    try (inversion Hop; subst; repeat split; reflexivity);
    try (unfold newManageOffer, newCreatePassiveOffer in Hop;
         destruct (NewRat_Float64 _ _); simpl in Hop; [|discriminate];
         inversion Hop; subst; repeat split; reflexivity);
    (unfold newSetOptions, newSetOptions_thresholds in Hop;
     destruct b as [infl cf sf mw lo me hi hd];
     destruct hd, lo, me, hi, mw; simpl in Hop; try discriminate;
     inversion Hop; subst; repeat split; reflexivity).
Qed.

Lemma land_pow2_eqb (x k : Z) :
  0 <= k -> (Z.land x (2 ^ k) =? 0) = negb (Z.testbit x k).
Proof.
  intros Hk.
  destruct (Z.testbit x k) eqn:Hbit; simpl.
  - apply Z.eqb_neq. intros Hzero.
    assert (Hk' : Z.testbit (Z.land x (2 ^ k)) k = true)
      by (rewrite Z.land_spec, Hbit, Z.pow2_bits_true; auto).
    rewrite Hzero, Z.bits_0 in Hk'. discriminate.
  - apply Z.eqb_eq, Z.bits_inj'. intros i Hi.
    rewrite Z.land_spec, Z.bits_0, Z.pow2_bits_eqb by lia.
    destruct (Z.eqb_spec k i); [subst; now rewrite Hbit | apply andb_false_r].
Qed.

Lemma int32_low_bits (f k : Z) :
  0 <= k < 32 -> Z.testbit (Go.int32 f) k = Z.testbit f k.
Proof.
  intros Hk. unfold Go.int32.
  rewrite <- (Z.mod_pow2_bits_low _ 32 k) by lia.
  rewrite <- (Z.mod_pow2_bits_low f 32 k) by lia.
  f_equal.
  rewrite Zminus_mod, Z.mod_mod by lia.
  rewrite <- Zminus_mod. f_equal. lia.
Qed.

End DecoderFacts.

(** [flags] reads the three low bits of the mask and nothing else: the
    flag "required" is bit 0, "revocable" bit 1, "immutable" bit 2. *)
Theorem flags_are_the_low_bits (f : Z) :
  es.flags f
  = es.AccountFlags.mk (Z.testbit f 0) (Z.testbit f 1) (Z.testbit f 2).
Proof.
  unfold es.flags, xdr.AccountFlagsAuthRequiredFlag,
    xdr.AccountFlagsAuthRevocableFlag, xdr.AccountFlagsAuthImmutableFlag.
  change 1 with (2 ^ 0) at 1. change 2 with (2 ^ 1) at 2. change 4 with (2 ^ 2).
  rewrite !land_pow2_eqb, !negb_involutive by lia.
  now rewrite !int32_low_bits by lia.
Qed.

(** Whatever the kind of the operation, a document that [NewOperation]
    returns carries the id, the index, the sequence, the close time, the
    source account and the memo of its transaction, its own index, the
    order string of the transaction followed by ":" and that index, the
    name of its kind, the source account of the operation when it has one
    and that of the transaction otherwise, and the defaults of the success
    flag and of the result code. *)
Theorem NewOperation_envelope
  (t : es.Transaction.t) (o : xdr.Operation) (n : Z) (op : es.Operation.t) :
  es.NewOperation t o n = Go.Done op ->
  es.Operation.TxID op = es.Transaction.ID t
  /\ es.Operation.TxIndex op = es.Transaction.Index t
  /\ es.Operation.Index op = n
  /\ es.Operation.Seq op = es.Transaction.Seq t
  /\ es.DocID op = (es.Transaction.Order t ++ ":" ++ Go.itoa n)%string
  /\ es.Operation.CloseTime op = es.Transaction.CloseTime t
  /\ es.Operation.TxSourceAccountID op = es.Transaction.SourceAccountID t
  /\ es.Operation.Type_ op
     = xdr.OperationType_String (xdr.Body_Type (xdr.Operation_Body o))
  /\ es.Operation.SourceAccountID op
     = match xdr.Operation_SourceAccount o with
       | Some a => a
       | None => es.Transaction.SourceAccountID t
       end
  /\ es.Operation.Memo op = es.Transaction.Memo t
  /\ es.Operation.Succesful op = true
  /\ es.Operation.ResultCode op = 0.
Proof.
  intros Hop.
  pose proof (NewOperation_shared t o n op Hop) as Hshared.
  pose proof (NewOperation_defaults t o n op Hop) as Hdefaults.
  unfold es.DocID. intuition.
Qed.

(** A set-options operation without a home domain, or with a low
    threshold, or with a master weight, makes [NewOperation] panic on a nil
    pointer, whatever else it sets. *)
Theorem set_options_panics
  (t : es.Transaction.t) (src : option xdr.AccountId) (o : xdr.SetOptionsOp)
  (n : Z) :
  xdr.SetOptionsOp_HomeDomain o = None
  \/ xdr.SetOptionsOp_LowThreshold o <> None
  \/ xdr.SetOptionsOp_MasterWeight o <> None ->
  es.NewOperation t
    {| xdr.Operation_SourceAccount := src;
       xdr.Operation_Body := xdr.BodySetOptions o |} n
  = Go.Panic Go.nil_dereference.
Proof.
  destruct o as [infl cf sf mw lo me hi hd]. simpl.
  unfold es.NewOperation, es.newSetOptions, es.newSetOptions_thresholds. simpl.
  intros [Hhd|[Hlo|Hmw]].
  - subst hd. reflexivity.
  - destruct lo; [|contradiction]. destruct hd, me, hi, mw; reflexivity.
  - destruct mw; [|contradiction]. destruct hd, lo, me, hi; reflexivity.
Qed.

(** A set-options operation with a home domain and with neither a low
    threshold nor a master weight is decoded: the document carries the home
    domain and the address of the inflation destination, a [Thresholds]
    object with no field set when the operation sets the medium or the high
    threshold and none otherwise, and neither [SetFlags] nor [ClearFlags],
    whatever bitmasks the operation carries. *)
Theorem set_options_decoded
  (t : es.Transaction.t) (src : option xdr.AccountId) (o : xdr.SetOptionsOp)
  (n : Z) (hd : string) :
  xdr.SetOptionsOp_HomeDomain o = Some hd ->
  xdr.SetOptionsOp_LowThreshold o = None ->
  xdr.SetOptionsOp_MasterWeight o = None ->
  exists op,
    es.NewOperation t
      {| xdr.Operation_SourceAccount := src;
         xdr.Operation_Body := xdr.BodySetOptions o |} n
    = Go.Done op
    /\ es.Operation.HomeDomain op = hd
    /\ es.Operation.InflationDest op = xdr.Address (xdr.SetOptionsOp_InflationDest o)
    /\ es.Operation.Thresholds op
       = (if es.isSome (xdr.SetOptionsOp_MedThreshold o)
             || es.isSome (xdr.SetOptionsOp_HighThreshold o)
          then Some (es.Thresholds.mk None None None None)
          else None)
    /\ es.Operation.SetFlags op = None
    /\ es.Operation.ClearFlags op = None.
Proof.
  destruct o as [infl cf sf mw lo me hi hd0]. simpl.
  intros -> -> ->.
  unfold es.NewOperation, es.newSetOptions, es.newSetOptions_thresholds. simpl.
  destruct me, hi; simpl; eexists; (split; [reflexivity|]); repeat split.
Qed.

(** An offer whose price has the denominator 0 makes [NewOperation] panic
    with a division by zero, for both kinds of offer. *)
Theorem offers_panic_on_zero_denominator
  (t : es.Transaction.t) (src : option xdr.AccountId) (body : xdr.OperationBody)
  (n : Z) :
  (exists o, body = xdr.BodyManageOffer o
             /\ xdr.Price_D (xdr.ManageOfferOp_Price o) = 0)
  \/ (exists o, body = xdr.BodyCreatePassiveOffer o
                /\ xdr.Price_D (xdr.CreatePassiveOfferOp_Price o) = 0) ->
  es.NewOperation t
    {| xdr.Operation_SourceAccount := src; xdr.Operation_Body := body |} n
  = Go.Panic Go.division_by_zero.
Proof.
  intros [(o & -> & Hd)|(o & -> & Hd)]; unfold es.NewOperation; simpl.
  - unfold es.newManageOffer, es.NewRat_Float64. now rewrite Hd.
  - unfold es.newCreatePassiveOffer, es.NewRat_Float64. now rewrite Hd.
Qed.

Section Strings.

Lemma append_cancel (p a b : string) : (p ++ a = p ++ b)%string -> a = b.
Proof.
  induction p as [|c p IH]; simpl; intros H; [exact H|].
  inversion H. auto.
Qed.

Lemma itoa_inj (a b : Z) : Go.itoa a = Go.itoa b -> a = b.
Proof.
  unfold Go.itoa. intros H.
  assert (Hnonnil : forall z, Z.to_int z <> Decimal.Pos Decimal.Nil
                              /\ Z.to_int z <> Decimal.Neg Decimal.Nil).
  { intros [|p|p]; simpl; split; try discriminate;
      intros Hp; inversion Hp as [Hp'];
      now apply DecimalPos.Unsigned.to_uint_nonnil in Hp'. }
  apply DecimalZ.to_int_inj.
  assert (Hsome : Some (Z.to_int a) = Some (Z.to_int b)).
  { rewrite <- (NilZero.isi (Z.to_int a)), <- (NilZero.isi (Z.to_int b));
      try apply Hnonnil.
    now rewrite H. }
  now inversion Hsome.
Qed.

(** A string that holds a hyphen. *)
Lemma hyphen_stays (c i : string) (s : string) :
  (c ++ "-" ++ i)%string = s ->
  existsb (Ascii.eqb "-") (list_ascii_of_string s) = true.
Proof.
  intros <-. induction c as [|a c IH]; [reflexivity|].
  cbn [append list_ascii_of_string existsb].
  apply orb_true_iff. right. exact IH.
Qed.

End Strings.

(** The key of a decoded asset is "native" for the native asset and for
    no other: the key of a credit asset holds a hyphen. *)
Theorem asset_key_native (a : xdr.Asset) :
  es.Asset.Key (es.asset a) = "native" <-> a = xdr.AssetNative.
Proof.
  split.
  - destruct a as [|c i|c i]; [reflexivity | |]; simpl; intros Hkey;
      apply hyphen_stays in Hkey; discriminate.
  - intros ->. reflexivity.
Qed.

(** Within one transaction, the operations at two different indices below
    256 get different document ids. *)
Theorem operation_ids_differ
  (t : es.Transaction.t) (x1 x2 : xdr.Operation) (o1 o2 : Z)
  (op1 op2 : es.Operation.t) :
  0 <= o1 < 256 ->
  0 <= o2 < 256 ->
  o1 <> o2 ->
  es.NewOperation t x1 (Go.uint8 o1) = Go.Done op1 ->
  es.NewOperation t x2 (Go.uint8 o2) = Go.Done op2 ->
  es.DocID op1 <> es.DocID op2.
Proof.
  intros H1 H2 Hne Hop1 Hop2 Hid.
  apply NewOperation_shared in Hop1. apply NewOperation_shared in Hop2.
  destruct Hop1 as (_ & _ & _ & _ & Ho1 & _).
  destruct Hop2 as (_ & _ & _ & _ & Ho2 & _).
  unfold es.DocID in Hid. rewrite Ho1, Ho2 in Hid.
  apply append_cancel in Hid. simpl in Hid. inversion Hid as [Hitoa].
  apply itoa_inj in Hitoa.
  rewrite !uint8_id in Hitoa by lia. contradiction.
Qed.

(* ================================================================= *)
(** ** Parsing the start argument *)

Section Parsing.

Import strconv config.

Lemma parseDigits_acc (d : Decimal.uint) :
  forall acc : positive,
    parseDigits (NilEmpty.string_of_uint d) (Z.pos acc)
    = Some (Z.pos (Pos.of_uint_acc d acc)).
Proof.
  induction d; intros acc; [reflexivity | ..];
    cbn [NilEmpty.string_of_uint Pos.of_uint_acc]; rewrite <- IHd;
    cbn [parseDigits];
    match goal with
    | |- context [isDigit ?c] =>
        let b := eval vm_compute in (isDigit c) in
        change (isDigit c) with b;
        let v := eval vm_compute in (digitValue c) in
        change (digitValue c) with v
    end;
    cbv iota; f_equal; lia.
Qed.

Lemma parseDigits_zero (d : Decimal.uint) :
  parseDigits (NilEmpty.string_of_uint d) 0 = Some (Z.of_N (Pos.of_uint d)).
Proof.
  induction d; [reflexivity | exact IHd | ..];
    cbn [NilEmpty.string_of_uint Pos.of_uint parseDigits Z.of_N];
    rewrite <- parseDigits_acc; reflexivity.
Qed.

(** The decimal rendering of a positive number starts with a digit. *)
Lemma string_of_to_uint (p : positive) :
  exists c rest,
    NilZero.string_of_uint (Pos.to_uint p) = String c rest
    /\ NilEmpty.string_of_uint (Pos.to_uint p) = String c rest
    /\ Ascii.eqb c "-" = false /\ Ascii.eqb c "+" = false.
Proof.
  pose proof (DecimalPos.Unsigned.to_uint_nonnil p) as Hnonnil.
  destruct (Pos.to_uint p); [contradiction | ..]; simpl;
    do 2 eexists; repeat split.
Qed.

Lemma Atoi_itoa (n : Z) :
  - 2 ^ 63 <= n < 2 ^ 63 -> Atoi (Go.itoa n) = inl n.
Proof.
  intros Hn. unfold Go.itoa.
  destruct n as [|p|p].
  - reflexivity.
  - simpl Z.to_int. unfold Pos.to_int, NilZero.string_of_int.
    destruct (string_of_to_uint p) as (c & rest & Hs & Hs' & Hminus & Hplus).
    rewrite Hs. unfold Atoi. rewrite Hminus, Hplus. simpl orb. cbv iota.
    rewrite <- Hs', parseDigits_zero, DecimalPos.Unsigned.of_to.
    simpl Z.of_N.
    replace ((- 2 ^ 63 <=? Z.pos p) && (Z.pos p <? 2 ^ 63)) with true; [reflexivity|].
    symmetry. apply andb_true_iff. split; [apply Z.leb_le | apply Z.ltb_lt]; lia.
  - simpl Z.to_int. unfold NilZero.string_of_int.
    destruct (string_of_to_uint p) as (c & rest & Hs & Hs' & Hminus & Hplus).
    unfold Atoi. simpl orb. cbv iota. rewrite Hs.
    change (Ascii.eqb "-" "-") with true. cbv iota.
    rewrite <- Hs', parseDigits_zero, DecimalPos.Unsigned.of_to.
    simpl Z.of_N.
    replace ((- 2 ^ 63 <=? - Z.pos p) && (- Z.pos p <? 2 ^ 63)) with true;
      [reflexivity|].
    symmetry. apply andb_true_iff. split; [apply Z.leb_le | apply Z.ltb_lt]; lia.
Qed.

Lemma Atoi_nonempty (s : string) (v : Z) :
  Atoi s = inl v -> exists c rest, s = String c rest.
Proof.
  destruct s as [|c rest]; [discriminate|]. intros _. now exists c, rest.
Qed.

End Parsing.

(** [parseNumberWithSign] reads back what [%d] prints: for every [n] of
    64 bits, the decimal rendering of [n] parses without error to the value
    [n], with the sign flag set exactly for the negative numbers. *)
Theorem parseNumberWithSign_reads_decimal (n : Z) :
  - 2 ^ 63 <= n < 2 ^ 63 ->
  config.parseNumberWithSign (Go.itoa n)
  = Go.Done ({| config.Value := n; config.Explicit := n <? 0 |}, None).
Proof.
  intros Hn. unfold config.parseNumberWithSign.
  rewrite Atoi_itoa by exact Hn.
  unfold Go.itoa. destruct n as [|p|p].
  - reflexivity.
  - simpl Z.to_int. unfold Pos.to_int, NilZero.string_of_int.
    destruct (string_of_to_uint p) as (c & rest & Hs & _ & Hminus & Hplus).
    rewrite Hs. simpl. now rewrite Hminus, Hplus.
  - reflexivity.
Qed.

(** [parseNumberWithSign] never panics: the read of the first byte comes
    after [Atoi] accepted the string, which it does for no empty string.
    On an error the result is the zero value; without one, the sign flag is
    set exactly when the string starts with "-" or "+". *)
Theorem parseNumberWithSign_total (value : string) :
  exists r err,
    config.parseNumberWithSign value = Go.Done (r, err)
    /\ (err <> None -> r = {| config.Value := 0; config.Explicit := false |})
    /\ (err = None ->
        strconv.Atoi value = inl (config.Value r)
        /\ (config.Explicit r = true <->
            exists rest, value = String "-" rest \/ value = String "+" rest)).
Proof.
  unfold config.parseNumberWithSign.
  destruct (strconv.Atoi value) as [v|e] eqn:Hatoi.
  - destruct (Atoi_nonempty value v Hatoi) as (c & rest & ->).
    simpl.
    destruct (Ascii.eqb_spec c "-") as [->|Hminus]; simpl.
    + do 2 eexists. split; [reflexivity|]. split; [congruence|].
      intros _. split; [reflexivity|]. simpl. split; [|reflexivity].
      intros _. exists rest. now left.
    + destruct (Ascii.eqb_spec c "+") as [->|Hplus]; simpl.
      * do 2 eexists. split; [reflexivity|]. split; [congruence|].
        intros _. split; [reflexivity|]. simpl. split; [|reflexivity].
        intros _. exists rest. now right.
      * do 2 eexists. split; [reflexivity|]. split; [congruence|].
        intros _. split; [reflexivity|]. simpl. split; [discriminate|].
        intros (rest' & [H|H]); inversion H; congruence.
  - do 2 eexists. split; [reflexivity|]. split; [reflexivity|].
    discriminate.
Qed.

(* ================================================================= *)
(** ** A ledger with an operation that does not decode *)

Section Abort.

Import Go es Emitted.

Lemma forRangeFrom_app {A} (body : Z -> A -> Bulk unit) (xs ys : list A) :
  forall i b,
    forRangeFrom i (xs ++ ys) body b
    = bind (forRangeFrom i xs body)
        (fun _ => forRangeFrom (i + Z.of_nat (List.length xs)) ys body) b.
Proof.
  induction xs as [|x xs IH]; intros i b.
  - simpl. unfold bind, ret. now rewrite Z.add_0_r.
  - cbn [app forRangeFrom List.length]. unfold bind.
    destruct (body i x b) as [[u|msg] b1]; [|reflexivity].
    rewrite IH. unfold bind.
    replace (i + 1 + Z.of_nat (List.length xs))
      with (i + Z.of_nat (S (List.length xs))) by lia.
    reflexivity.
Qed.

(** The loop over the operations stops at the first one that does not
    decode, with the panic of the decoder, after the documents before it. *)
Lemma run_operations_panic (tx : Transaction.t)
  (results : option (list xdr.OperationResult)) (ops : list xdr.Operation) :
  forall o msg,
    decodeOperationsFrom tx results o ops = Panic msg ->
    exists docs, forall b,
      forRangeFrom o ops
        (fun o x =>
           (op <- lift (NewOperation tx x (uint8 o)) ;;
            op <- match results with
                  | Some rs => (r <- lift (index rs o) ;; ret (AppendResult op r))
                  | None => ret op
                  end ;;
            SerializeForBulk (DocOperation op))%bulk)
        b
      = (Panic msg, b ++ map DocOperation docs).
Proof.
  induction ops as [|x rest IH]; intros o msg Hdec; simpl in Hdec; [discriminate|].
  unfold decodeOperation in Hdec.
  destruct (NewOperation tx x (uint8 o)) as [op|msg0] eqn:Hop; simpl in Hdec.
  - destruct results as [rs|].
    + destruct (index rs o) as [res|msg1] eqn:Hres; simpl in Hdec.
      * destruct (decodeOperationsFrom tx (Some rs) (o + 1) rest) as [docs'|msg2] eqn:Hrest;
          simpl in Hdec; [discriminate|].
        inversion Hdec; subst.
        destruct (IH (o + 1) msg Hrest) as (docs & Hrun).
        exists (AppendResult op res :: docs). intros b.
        cbn [forRangeFrom]. unfold bind at 1 2, lift. rewrite Hop.
        unfold bind at 1 2, lift. rewrite Hres.
        unfold ret, bind at 1. unfold SerializeForBulk at 1.
        rewrite Hrun. simpl. now rewrite <- app_assoc.
      * inversion Hdec; subst. exists []. intros b.
        cbn [forRangeFrom]. unfold bind at 1 2, lift. rewrite Hop.
        unfold bind at 1 2, lift. rewrite Hres. simpl. now rewrite app_nil_r.
    + destruct (decodeOperationsFrom tx None (o + 1) rest) as [docs'|msg2] eqn:Hrest;
        simpl in Hdec; [discriminate|].
      inversion Hdec; subst.
      destruct (IH (o + 1) msg Hrest) as (docs & Hrun).
      exists (op :: docs). intros b.
      cbn [forRangeFrom]. unfold bind at 1 2, lift. rewrite Hop.
      unfold ret, bind at 1. unfold SerializeForBulk at 1.
      rewrite Hrun. simpl. now rewrite <- app_assoc.
  - inversion Hdec; subst. exists []. intros b.
    cbn [forRangeFrom]. unfold bind at 1 2, lift. rewrite Hop.
    simpl. now rewrite app_nil_r.
Qed.

(** A list of operations that does not decode splits at its first
    failure: the operations before it decode, and it does not. *)
Lemma decode_first_failure (tx : Transaction.t)
  (results : option (list xdr.OperationResult)) (ops : list xdr.Operation) :
  forall o msg,
    decodeOperationsFrom tx results o ops = Panic msg ->
    exists before x after partial,
      ops = before ++ x :: after
      /\ decodeOperationsFrom tx results o before = Done partial
      /\ decodeOperation tx results (o + Z.of_nat (List.length before)) x = Panic msg.
Proof.
  induction ops as [|x rest IH]; intros o msg Hdec; simpl in Hdec; [discriminate|].
  destruct (decodeOperation tx results o x) as [op|msg0] eqn:Hx; simpl in Hdec.
  - destruct (decodeOperationsFrom tx results (o + 1) rest) as [docs|msg1] eqn:Hrest;
      simpl in Hdec; [discriminate|].
    inversion Hdec; subst.
    destruct (IH (o + 1) msg Hrest) as (before & y & after & partial & Hops & Hbefore & Hy).
    exists (x :: before), y, after, (op :: partial).
    split; [now rewrite Hops|]. split.
    + simpl. now rewrite Hx, Hbefore.
    + replace (o + Z.of_nat (List.length (x :: before)))
        with (o + 1 + Z.of_nat (List.length before))
        by (simpl List.length; lia).
      exact Hy.
  - inversion Hdec; subst.
    exists [], x, rest, []. split; [reflexivity|]. split; [reflexivity|].
    simpl. now rewrite Z.add_0_r.
Qed.

(** The loop over such a list writes the documents of the operations
    before the failure and ends in its panic. *)
Lemma run_operations_first_failure (tx : Transaction.t)
  (results : option (list xdr.OperationResult))
  (before : list xdr.Operation) (x : xdr.Operation) (after : list xdr.Operation)
  (partial : list Operation.t) (o : Z) (msg : string) :
  decodeOperationsFrom tx results o before = Done partial ->
  decodeOperation tx results (o + Z.of_nat (List.length before)) x = Panic msg ->
  forall b,
    forRangeFrom o (before ++ x :: after)
      (fun o x =>
         (op <- lift (NewOperation tx x (uint8 o)) ;;
          op <- match results with
                | Some rs => (r <- lift (index rs o) ;; ret (AppendResult op r))
                | None => ret op
                end ;;
          SerializeForBulk (DocOperation op))%bulk)
      b
    = (Panic msg, b ++ map DocOperation partial).
Proof.
  intros Hbefore Hx b.
  rewrite forRangeFrom_app. unfold bind at 1.
  rewrite (run_operations tx results before o partial) by exact Hbefore.
  cbn [forRangeFrom]. unfold bind at 1.
  unfold decodeOperation in Hx.
  unfold bind at 1. unfold lift at 1.
  destruct (NewOperation tx x (uint8 (o + Z.of_nat (List.length before))))
    as [op|msg0]; simpl in Hx.
  - destruct results as [rs|]; [|discriminate].
    unfold bind at 1 2. unfold lift at 1.
    destruct (index rs (o + Z.of_nat (List.length before))) as [res|msg1];
      simpl in Hx; [discriminate|].
    now inversion Hx.
  - now inversion Hx.
Qed.

Variable r : db.LedgerHeaderRow.
Variable fees : list db.TxFeeHistoryRow.

(** The pass over the operations, on a segment of the rows. *)
Lemma run_operations_segment (txs : list db.TxHistoryRow) :
  forall (mid before after : list db.TxHistoryRow)
         (opss : list (list Operation.t)) (b : Buffer),
    txs = before ++ mid ++ after ->
    Forall2 (decodes r) mid opss ->
    forRangeFrom (Z.of_nat (List.length before))
      (map (fun row => NewTransaction row (closeTimeOf r)) mid)
      (fun tIndex t =>
         (row <- lift (index txs tIndex) ;;
          makeOperationsWithResults_operations t (db.Operations row)
            (db.Results row))%bulk)
      b
    = (Done tt, b ++ map DocOperation (List.concat opss)).
Proof.
  induction mid as [|row mid IH]; intros before after opss b Htxs Hall.
  - inversion Hall; subst. simpl. unfold ret. now rewrite app_nil_r.
  - inversion Hall as [|row' docs mid' opss' Hrow Hmid]; subst.
    cbn [map forRangeFrom]. unfold bind at 1 2, lift.
    change ((row :: mid) ++ after) with (row :: mid ++ after).
    rewrite index_middle.
    unfold makeOperationsWithResults_operations, forRange.
    rewrite (run_operations _ _ _ 0 docs) by exact Hrow.
    replace (Z.of_nat (List.length before) + 1)
      with (Z.of_nat (List.length (before ++ [row])))
      by (rewrite length_app; simpl; lia).
    rewrite (IH (before ++ [row]) after opss')
      by (try rewrite <- app_assoc; auto).
    simpl. now rewrite map_app, app_assoc.
Qed.

Lemma MakeBulk_aborts (pre post : list db.TxHistoryRow) (row : db.TxHistoryRow)
  (opsPre : list (list Operation.t)) (partial : list Operation.t) (msg : string) :
  Forall2 (decodes r) pre opsPre ->
  (forall b,
     MakeBulk_operations (NewTransaction row (closeTimeOf r)) (db.Operations row)
       (db.Results row) b
     = (Panic msg, b ++ map DocOperation partial)) ->
  forall b,
    MakeBulk r (pre ++ row :: post) fees b
    = (Panic msg,
       b ++ [DocLedgerHeader (NewLedgerHeader r)]
         ++ flat_map (fun p => MakeBulk_rowDocuments (NewLedgerHeader r) (fst p) (snd p))
              (combine pre opsPre)
         ++ DocTransaction (NewTransaction row (closeTimeOf r))
         :: map DocOperation partial).
Proof.
  intros Hpre Hops b. unfold MakeBulk.
  unfold bind at 1. unfold SerializeForBulk at 1.
  unfold bind at 1. unfold forRange. rewrite forRangeFrom_app.
  unfold bind at 1.
  rewrite (run_MakeBulk_transactions r pre opsPre) by exact Hpre.
  cbn [forRangeFrom]. unfold bind at 1.
  unfold MakeBulk_transaction at 1. unfold bind at 1.
  unfold SerializeForBulk at 1. unfold bind at 1.
  change (LedgerHeader.CloseTime (NewLedgerHeader r)) with (closeTimeOf r).
  rewrite Hops.
  repeat (rewrite <- app_assoc; simpl). reflexivity.
Qed.

Lemma Make_aborts (pre post : list db.TxHistoryRow) (row : db.TxHistoryRow)
  (opsPre : list (list Operation.t)) (partial : list Operation.t) (msg : string) :
  Forall2 (decodes r) pre opsPre ->
  (forall b,
     MakeBulk_operations (NewTransaction row (closeTimeOf r)) (db.Operations row)
       (db.Results row) b
     = (Panic msg, b ++ map DocOperation partial)) ->
  forall b,
    Make (NewBulkMaker r (pre ++ row :: post) fees) b
    = (Panic msg,
       b ++ [DocLedgerHeader (NewLedgerHeader r)]
         ++ map (fun row => DocTransaction (NewTransaction row (closeTimeOf r)))
              (pre ++ row :: post)
         ++ map DocOperation (List.concat opsPre ++ partial)).
Proof.
  intros Hpre Hops b. unfold Make.
  unfold bind at 1. unfold makeLedger at 1, SerializeForBulk at 1.
  unfold bind at 1. rewrite run_makeTransactions.
  unfold bind at 1.
  unfold makeOperationsWithResults, forRange.
  cbn [NewBulkMaker BulkMaker.transactions BulkMaker.transactionRows].
  rewrite map_app. rewrite forRangeFrom_app. unfold bind at 1.
  change (LedgerHeader.CloseTime (NewLedgerHeader r)) with (closeTimeOf r).
  rewrite (run_operations_segment (pre ++ row :: post) pre [] (row :: post) opsPre)
    by auto.
  cbn [map forRangeFrom]. unfold bind at 1. unfold bind at 1. unfold lift at 1.
  rewrite length_map. cbn [List.length Z.of_nat Z.add].
  rewrite index_middle.
  change (makeOperationsWithResults_operations
            (NewTransaction row (closeTimeOf r)) (db.Operations row) (db.Results row))
    with (MakeBulk_operations
            (NewTransaction row (closeTimeOf r)) (db.Operations row) (db.Results row)).
  rewrite Hops.
  rewrite !map_app.
  repeat (rewrite <- app_assoc; simpl). reflexivity.
Qed.

End Abort.

(** When the operations of the rows before [row] decode and one of [row]
    does not, the operations of [row] split into those [before] the first
    failing one, which decode into the documents [partial], the failing one
    [x], whose decoding panics, and those [after] it; and both builders end
    in that panic.  [MakeBulk] has then written the documents of the rows
    before [row], the transaction of [row] and [partial]; [BulkMaker] has
    written every transaction, the operations of the rows before [row] and
    [partial].  Neither writes a balance of [row] or of a fee charge, and
    [BulkMaker] writes no balance at all. *)
Theorem undecodable_operation_aborts
  (r : db.LedgerHeaderRow) (pre post : list db.TxHistoryRow)
  (row : db.TxHistoryRow) (fees : list db.TxFeeHistoryRow)
  (opsPre : list (list es.Operation.t)) (msg : string) :
  Forall2 (Emitted.decodes r) pre opsPre ->
  Emitted.decodeOperations (Emitted.closeTimeOf r) row = Go.Panic msg ->
  exists before x after partial,
    db.Operations row = before ++ x :: after
    /\ Emitted.decodeOperationsFrom
         (es.NewTransaction row (Emitted.closeTimeOf r)) (db.Results row) 0 before
       = Go.Done partial
    /\ List.length partial = List.length before
    /\ Emitted.decodeOperation
         (es.NewTransaction row (Emitted.closeTimeOf r)) (db.Results row)
         (Z.of_nat (List.length before)) x
       = Go.Panic msg
    /\ (forall b,
          es.MakeBulk r (pre ++ row :: post) fees b
          = (Go.Panic msg,
             b ++ [es.DocLedgerHeader (es.NewLedgerHeader r)]
               ++ flat_map
                    (fun p => Emitted.MakeBulk_rowDocuments (es.NewLedgerHeader r)
                                (fst p) (snd p))
                    (combine pre opsPre)
               ++ es.DocTransaction (es.NewTransaction row (Emitted.closeTimeOf r))
               :: map es.DocOperation partial))
    /\ (forall b,
          es.Make (es.NewBulkMaker r (pre ++ row :: post) fees) b
          = (Go.Panic msg,
             b ++ [es.DocLedgerHeader (es.NewLedgerHeader r)]
               ++ map (fun row => es.DocTransaction
                                    (es.NewTransaction row (Emitted.closeTimeOf r)))
                    (pre ++ row :: post)
               ++ map es.DocOperation (List.concat opsPre ++ partial))).
Proof.
  intros Hpre Hrow.
  destruct (decode_first_failure _ _ _ 0 msg Hrow)
    as (before & x & after & partial & Hops & Hbefore & Hx).
  simpl in Hx.
  assert (Hlen : List.length partial = List.length before).
  { clear - Hbefore. revert Hbefore. generalize 0. revert partial.
    induction before as [|y before IH]; intros partial o Hdec; simpl in Hdec.
    - now inversion Hdec.
    - destruct (Emitted.decodeOperation _ _ o y); simpl in Hdec; [|discriminate].
      destruct (Emitted.decodeOperationsFrom _ _ (o + 1) before) eqn:Hrest;
        simpl in Hdec; [|discriminate].
      inversion Hdec; subst. simpl. f_equal. eapply IH; eauto. }
  assert (Hloop : forall b,
    es.MakeBulk_operations (es.NewTransaction row (Emitted.closeTimeOf r))
      (db.Operations row) (db.Results row) b
    = (Go.Panic msg, b ++ map es.DocOperation partial)).
  { intros b. unfold es.MakeBulk_operations, es.forRange. rewrite Hops.
    apply run_operations_first_failure; [exact Hbefore | exact Hx]. }
  exists before, x, after, partial.
  split; [exact Hops|]. split; [exact Hbefore|]. split; [exact Hlen|].
  split; [exact Hx|]. split.
  - apply MakeBulk_aborts; auto.
  - apply Make_aborts; auto.
Qed.

(* ================================================================= *)
(** ** The two builders, side by side *)

Section SideBySide.

Import Go es Emitted Invariants.

Lemma filter_map_all {A B} (p : B -> bool) (f : A -> B) (l : list A) :
  (forall x, p (f x) = true) -> filter p (map f l) = map f l.
Proof.
  intros Hp. induction l as [|x l IH]; simpl; [reflexivity|].
  now rewrite Hp, IH.
Qed.

Lemma filter_map_none {A B} (p : B -> bool) (f : A -> B) (l : list A) :
  (forall x, p (f x) = false) -> filter p (map f l) = [].
Proof.
  intros Hp. induction l as [|x l IH]; simpl; [reflexivity|].
  now rewrite Hp, IH.
Qed.

Variable r : db.LedgerHeaderRow.

(** The transaction and the operation documents among what [MakeBulk]
    writes for the rows. *)
Lemma MakeBulk_rows_by_kind (txs : list db.TxHistoryRow)
  (opss : list (list Operation.t)) :
  List.length txs = List.length opss ->
  let docs := flat_map (fun p => MakeBulk_rowDocuments (NewLedgerHeader r) (fst p) (snd p))
                (combine txs opss) in
  filter (ofKind KLedgerHeader) docs = []
  /\ filter (ofKind KTransaction) docs
     = map (fun row => DocTransaction (NewTransaction row (closeTimeOf r))) txs
  /\ filter (ofKind KOperation) docs = map DocOperation (List.concat opss).
Proof.
  revert opss.
  induction txs as [|row txs IH]; intros [|ops opss] Hlen; simpl in Hlen;
    try discriminate; [repeat split|].
  destruct (IH opss ltac:(lia)) as (Hh & Ht & Ho).
  cbn [combine flat_map fst snd List.concat map].
  unfold MakeBulk_rowDocuments at 1 3 5.
  rewrite !filter_app. cbn [filter].
  rewrite !filter_app, Hh, Ht, Ho.
  repeat split.
  - rewrite !filter_map_none by reflexivity. reflexivity.
  - rewrite !filter_map_none by reflexivity. reflexivity.
  - rewrite (filter_map_all (ofKind KOperation) DocOperation) by reflexivity.
    rewrite filter_map_none by reflexivity.
    simpl. now rewrite app_nil_r, map_app.
Qed.

End SideBySide.

(** When every operation of the ledger decodes, the two builders write
    the same header, the same transaction documents in the same order and
    the same operation documents in the same order; they differ only in how
    the kinds are interleaved and in the balances. *)
Theorem builders_agree_kind_by_kind
  (r : db.LedgerHeaderRow) (txs : list db.TxHistoryRow)
  (fees : list db.TxFeeHistoryRow) (opss : list (list es.Operation.t))
  (k : Emitted.Kind) :
  Forall2 (Emitted.decodes r) txs opss ->
  k <> Emitted.KBalance ->
  filter (Invariants.ofKind k) (snd (es.MakeBulk r txs fees []))
  = filter (Invariants.ofKind k) (snd (es.Make (es.NewBulkMaker r txs fees) [])).
Proof.
  intros Hall Hk.
  rewrite (run_MakeBulk r fees txs opss []) by exact Hall.
  rewrite (run_Make r fees txs opss []) by exact Hall.
  cbn [snd app].
  unfold Emitted.MakeBulk_documents, Emitted.BulkMaker_documents.
  destruct (MakeBulk_rows_by_kind r txs opss (Forall2_length Hall)) as (Hh & Ht & Ho).
  rewrite !filter_app.
  destruct k; try contradiction; [rewrite Hh | rewrite Ht | rewrite Ho];
    cbn [filter Invariants.ofKind Emitted.kind];
    repeat match goal with
           | |- context [filter ?p (map ?f ?l)] =>
               first [ rewrite (filter_map_all p f l) by reflexivity
                     | rewrite (filter_map_none p f l) by reflexivity ]
           end;
    rewrite ?app_nil_r; reflexivity.
Qed.

(** The transaction order of a paging token has eight bits: in
    [BulkMaker] the balances of the row at index [tIndex + 256] get the
    tokens of the row at index [tIndex]. *)
Theorem meta_tokens_repeat_every_256_rows
  (m : es.BulkMaker.t) (tIndex : Z) (metas : list xdr.OperationMeta)
  (b : es.Buffer) :
  es.makeBalancesFromMetas_row m (tIndex + 256) metas b
  = es.makeBalancesFromMetas_row m tIndex metas b.
Proof.
  unfold es.makeBalancesFromMetas_row.
  replace (Go.uint8 (tIndex + 256 + 1)) with (Go.uint8 (tIndex + 1)); [reflexivity|].
  unfold Go.uint8.
  replace (tIndex + 256 + 1) with (tIndex + 1 + 1 * 256) by lia.
  now rewrite Z_mod_plus_full.
Qed.

(** With a negative count the upper bound lies below the start, so the
    bound check drops every record of the stream: [Execute] serialises
    nothing and still submits the buffer, which is empty. *)
Theorem Execute_negative_count
  (c : commands.Collaborators) (cmd : commands.ExportCommand) :
  let first := commands.Start (commands.Config cmd) in
  let last := first + commands.Count (commands.Config cmd) in
  commands.Count (commands.Config cmd) < 0 ->
  - 2 ^ 63 <= last ->
  first < 2 ^ 63 ->
  commands.Execute c cmd
  = (commands.EvStreamLedgers first last
     :: commands.EvBulkInsert []
     :: (if commands.BulkInsert c 0%nat [] then []
         else [commands.EvFatal "Cannot bulk insert"]),
     if commands.BulkInsert c 0%nat [] then commands.Returned else commands.Fatal).
Proof.
  intros first last Hneg Hlo Hhi.
  assert (Hlast : Go.add first (commands.Count (commands.Config cmd)) = last)
    by (unfold Go.add; apply int_id; unfold last, first in *; lia).
  assert (Hnone : forall metas, filter (commands.keeps first last) metas = []).
  { induction metas as [|meta metas IH]; simpl; [reflexivity|].
    rewrite IH. unfold commands.keeps.
    destruct (Go.int (commands.LedgerCloseMeta_LedgerSeq meta) <? first) eqn:Hlt;
      [reflexivity|].
    apply Z.ltb_ge in Hlt.
    assert (Hgt : (Go.int (commands.LedgerCloseMeta_LedgerSeq meta) >? last) = true)
      by (rewrite Z.gtb_ltb; apply Z.ltb_lt; unfold last in *; lia).
    now rewrite Hgt. }
  rewrite (Execute_runs c cmd).
  - fold first. rewrite Hlast, Hnone. reflexivity.
  - lia.
  - fold first. rewrite Hlast, Hnone. constructor.
Qed.

(* ================================================================= *)
(** ** Concrete runs *)

Lemma builders_stamp_balances_witness :
  es.DocBalance Examples.feeBalance
  = es.DocLedgerHeader (es.NewLedgerHeader (Examples.headerRow 7))
  \/ Invariants.follows (db.LedgerHeaderRow_LedgerSeq (Examples.headerRow 7))
       (db.LedgerHeaderRow_CloseTime (Examples.headerRow 7))
       (es.DocBalance Examples.feeBalance).
Proof.
  apply (builders_stamp_balances (Examples.headerRow 7) [Examples.firstRow]
           [Examples.feeRow 1 "GSOURCE" 900]).
  right. vm_compute. auto 10.
Defined.

Lemma balances_of_two_sources_differ_in_token_witness :
  es.Balance.PagingToken Examples.metaBalance
  <> es.Balance.PagingToken Examples.feeBalance.
Proof.
  apply (balances_of_two_sources_differ_in_token (Examples.headerRow 7)
           [Examples.firstRow] [Examples.feeRow 1 "GSOURCE" 900]
           (snd (es.Make (es.NewBulkMaker (Examples.headerRow 7) [Examples.firstRow]
                            [Examples.feeRow 1 "GSOURCE" 900]) []))).
  - right. reflexivity.
  - vm_compute. auto 10.
  - vm_compute. auto 10.
  - discriminate.
Defined.

Lemma Execute_trace_witness :
  commands.Execute (Examples.world false) (Examples.export 100 50 25)
  = ([commands.EvStreamLedgers 100 150;
      commands.EvSerializeLedger 100;
      commands.EvSerializeLedger 150;
      commands.EvBulkInsert [Examples.ledgerDoc 100; Examples.ledgerDoc 150];
      commands.EvFatal "Cannot bulk insert"],
     commands.Fatal).
Proof.
  apply (Execute_trace (Examples.world false) (Examples.export 100 50 25)).
  - discriminate.
  - match goal with
    | |- Forall _ ?l => let l' := eval vm_compute in l in change l with l'
    end.
    repeat constructor.
Defined.

Lemma Execute_panics_without_submitting_witness :
  commands.Execute Examples.worldWithBrokenRecord (Examples.export 100 50 25)
  = ([commands.EvStreamLedgers 100 150;
      commands.EvSerializeLedger 100;
      commands.EvSerializeLedger 101],
     commands.Panicked Go.index_out_of_range)
  /\ commands.submissions
       (fst (commands.Execute Examples.worldWithBrokenRecord
               (Examples.export 100 50 25))) = 0%nat.
Proof.
  apply (Execute_panics_without_submitting Examples.worldWithBrokenRecord
           (Examples.export 100 50 25) [Examples.closeMeta 100]
           [Examples.closeMeta 150] (Examples.brokenMeta 101) Go.index_out_of_range).
  - discriminate.
  - reflexivity.
  - repeat constructor.
  - reflexivity.
  - intros b. reflexivity.
Defined.

Lemma index_returns_once_accepted_witness :
  exists events,
    commands.index (3 + 0) (Examples.worldAcceptingAfter 2)
      (Examples.export 100 1 25) [] 0 0 0
    = Some (events, commands.Returned)
    /\ commands.submissions events = 3%nat
    /\ List.length (filter commands.isSleep events) = 2%nat
    /\ Forall (commands.retryEvent []) events.
Proof.
  apply (index_returns_once_accepted (Examples.worldAcceptingAfter 2)
           (Examples.export 100 1 25) [] 2 0 0 0 0).
  - intros [|[|k]] Hk; [reflexivity | reflexivity | lia].
  - reflexivity.
  - simpl. lia.
  - lia.
  - simpl. lia.
Defined.

Lemma index_gives_up_past_ceiling_witness :
  exists events,
    commands.index (27 + 0) (Examples.world false) (Examples.export 100 1 25)
      [] 0 0 0
    = Some (events, commands.Fatal)
    /\ events
       = flat_map (fun k => [commands.EvBulkInsert [];
                             commands.EvSleep
                               (commands.Intn (Examples.world false) k 10 + 5)])
           (seq 0 26)
         ++ [commands.EvBulkInsert [];
             commands.EvFatal "Retries for bulk failed, aborting"]
    /\ commands.submissions events = 27%nat
    /\ List.length (filter commands.isSleep events) = 26%nat
    /\ Forall (commands.retryEvent []) events.
Proof.
  apply (index_gives_up_past_ceiling (Examples.world false)
           (Examples.export 100 1 25) [] 26 0 0 0 0).
  - intros k x. reflexivity.
  - simpl. lia.
  - lia.
  - reflexivity.
Defined.

Lemma blockCount_covers_witness :
  exists blocks,
    commands.blockCount (Examples.export 100 50 25) 120 = Go.Done blocks
    /\ (blocks - 1) * 50 < 120 <= blocks * 50.
Proof.
  apply (blockCount_covers (Examples.export 100 50 25) 120).
  - simpl. lia.
  - lia.
Defined.

Lemma NewOperation_envelope_witness :
  exists op,
    es.NewOperation Examples.tx0 (Examples.createAccount "GA") 0 = Go.Done op
    /\ es.Operation.TxID op = "txhash"
    /\ es.Operation.TxIndex op = 1
    /\ es.Operation.Index op = 0
    /\ es.Operation.Seq op = 7
    /\ es.DocID op = ("7:1" ++ ":" ++ Go.itoa 0)%string
    /\ es.Operation.CloseTime op = 1000
    /\ es.Operation.TxSourceAccountID op = "GSOURCE"
    /\ es.Operation.Type_ op = xdr.OperationType_String 0
    /\ es.Operation.SourceAccountID op = "GSOURCE"
    /\ es.Operation.Memo op = None
    /\ es.Operation.Succesful op = true
    /\ es.Operation.ResultCode op = 0.
Proof.
  eexists. split; [reflexivity|].
  apply (NewOperation_envelope Examples.tx0 (Examples.createAccount "GA") 0).
  reflexivity.
Defined.

Lemma set_options_panics_witness :
  es.NewOperation Examples.tx0
    {| xdr.Operation_SourceAccount := None;
       xdr.Operation_Body := xdr.BodySetOptions Examples.setMasterWeight |} 0
  = Go.Panic Go.nil_dereference.
Proof.
  apply (set_options_panics Examples.tx0 None Examples.setMasterWeight 0).
  right. right. discriminate.
Defined.

Lemma set_options_decoded_witness :
  exists op,
    es.NewOperation Examples.tx0
      {| xdr.Operation_SourceAccount := None;
         xdr.Operation_Body := xdr.BodySetOptions Examples.setMediumThreshold |} 0
    = Go.Done op
    /\ es.Operation.HomeDomain op = "example.org"
    /\ es.Operation.InflationDest op = "GINFLATION"
    /\ es.Operation.Thresholds op = Some (es.Thresholds.mk None None None None)
    /\ es.Operation.SetFlags op = None
    /\ es.Operation.ClearFlags op = None.
Proof.
  apply (set_options_decoded Examples.tx0 None Examples.setMediumThreshold 0
           "example.org"); reflexivity.
Defined.

Lemma offers_panic_on_zero_denominator_witness :
  es.NewOperation Examples.tx0
    {| xdr.Operation_SourceAccount := None;
       xdr.Operation_Body := xdr.BodyManageOffer Examples.offerAtNoPrice |} 0
  = Go.Panic Go.division_by_zero.
Proof.
  apply (offers_panic_on_zero_denominator Examples.tx0 None
           (xdr.BodyManageOffer Examples.offerAtNoPrice) 0).
  left. exists Examples.offerAtNoPrice. split; reflexivity.
Defined.

Lemma operation_ids_differ_witness :
  exists op1 op2,
    es.NewOperation Examples.tx0 (Examples.createAccount "GA") (Go.uint8 0)
    = Go.Done op1
    /\ es.NewOperation Examples.tx0 Examples.inflation (Go.uint8 1) = Go.Done op2
    /\ es.DocID op1 <> es.DocID op2.
Proof.
  do 2 eexists. split; [reflexivity|]. split; [reflexivity|].
  apply (operation_ids_differ Examples.tx0 (Examples.createAccount "GA")
           Examples.inflation 0 1); [lia | lia | lia | reflexivity | reflexivity].
Defined.

Lemma parseNumberWithSign_reads_decimal_witness :
  config.parseNumberWithSign (Go.itoa (-100))
  = Go.Done ({| config.Value := -100; config.Explicit := -100 <? 0 |}, None).
Proof.
  apply (parseNumberWithSign_reads_decimal (-100)). lia.
Defined.

Lemma undecodable_operation_aborts_witness :
  exists before x after partial,
    db.Operations Examples.rowWithNoPrice = before ++ x :: after
    /\ Emitted.decodeOperationsFrom
         (es.NewTransaction Examples.rowWithNoPrice
            (Emitted.closeTimeOf (Examples.headerRow 7)))
         (db.Results Examples.rowWithNoPrice) 0 before
       = Go.Done partial
    /\ List.length partial = List.length before
    /\ Emitted.decodeOperation
         (es.NewTransaction Examples.rowWithNoPrice
            (Emitted.closeTimeOf (Examples.headerRow 7)))
         (db.Results Examples.rowWithNoPrice)
         (Z.of_nat (List.length before)) x
       = Go.Panic Go.division_by_zero
    /\ (forall b,
          es.MakeBulk (Examples.headerRow 7)
            ([Examples.firstRow] ++ Examples.rowWithNoPrice :: [Examples.thirdRow])
            Examples.twoFees b
          = (Go.Panic Go.division_by_zero,
             b ++ [es.DocLedgerHeader (es.NewLedgerHeader (Examples.headerRow 7))]
               ++ flat_map
                    (fun p => Emitted.MakeBulk_rowDocuments
                                (es.NewLedgerHeader (Examples.headerRow 7))
                                (fst p) (snd p))
                    (combine [Examples.firstRow]
                       [Examples.operationsOf Examples.firstRow])
               ++ es.DocTransaction
                    (es.NewTransaction Examples.rowWithNoPrice
                       (Emitted.closeTimeOf (Examples.headerRow 7)))
               :: map es.DocOperation partial))
    /\ (forall b,
          es.Make
            (es.NewBulkMaker (Examples.headerRow 7)
               ([Examples.firstRow] ++ Examples.rowWithNoPrice :: [Examples.thirdRow])
               Examples.twoFees) b
          = (Go.Panic Go.division_by_zero,
             b ++ [es.DocLedgerHeader (es.NewLedgerHeader (Examples.headerRow 7))]
               ++ map (fun row =>
                         es.DocTransaction
                           (es.NewTransaction row
                              (Emitted.closeTimeOf (Examples.headerRow 7))))
                    ([Examples.firstRow] ++ Examples.rowWithNoPrice
                                         :: [Examples.thirdRow])
               ++ map es.DocOperation
                    (List.concat [Examples.operationsOf Examples.firstRow]
                     ++ partial))).
Proof.
  apply (undecodable_operation_aborts (Examples.headerRow 7) [Examples.firstRow]
           [Examples.thirdRow] Examples.rowWithNoPrice Examples.twoFees
           [Examples.operationsOf Examples.firstRow] Go.division_by_zero).
  - repeat constructor.
  - reflexivity.
Defined.

Lemma builders_agree_kind_by_kind_witness :
  filter (Invariants.ofKind Emitted.KTransaction)
    (snd (es.MakeBulk (Examples.headerRow 7) Examples.twoTransactions
            Examples.twoFees []))
  = filter (Invariants.ofKind Emitted.KTransaction)
      (snd (es.Make (es.NewBulkMaker (Examples.headerRow 7) Examples.twoTransactions
                       Examples.twoFees) [])).
Proof.
  apply (builders_agree_kind_by_kind (Examples.headerRow 7) Examples.twoTransactions
           Examples.twoFees (map Examples.operationsOf Examples.twoTransactions)
           Emitted.KTransaction).
  - simpl. repeat constructor.
  - discriminate.
Defined.

Lemma Execute_negative_count_witness :
  commands.Execute (Examples.world true) (Examples.export 100 (-5) 25)
  = ([commands.EvStreamLedgers 100 95; commands.EvBulkInsert []],
     commands.Returned).
Proof.
  apply (Execute_negative_count (Examples.world true) (Examples.export 100 (-5) 25)).
  - simpl. lia.
  - simpl. lia.
  - simpl. lia.
Defined.
